(** * Linux bzImage loader (arch/i386/image/bzimage.c)

    A shallow embedding of the bzImage image type of the boot firmware:
    header parsing, segment loading, command-line processing, initrd
    relocation, header rewriting and the hand-off, together with the
    properties of the design document that can be stated over it.

    Target is i386: [unsigned int], [unsigned long], [size_t] and
    [physaddr_t] are 32 bits wide, [uint64_t] is 64 bits wide.  Machine
    integers are values of [Z]; every place where the C arithmetic can
    wrap is written with [u32] or [u64]. *)

From Stdlib Require Import ZArith List String Ascii Bool Lia.
From Stdlib Require Import Strings.Byte.
Import ListNotations.

Open Scope Z_scope.

(** ** Machine integers *)

Definition u16 (z : Z) : Z := z mod 2 ^ 16.
Definition u32 (z : Z) : Z := z mod 2 ^ 32.
Definition u64 (z : Z) : Z := z mod 2 ^ 64.

(** ** Bytes and little-endian fields *)

Definition byte_val (b : byte) : Z := Z.of_N (Byte.to_N b).

Definition byte_of (z : Z) : byte :=
  match Byte.of_N (Z.to_N (z mod 256)) with
  | Some b => b
  | None => x00
  end.

Fixpoint le_decode (bs : list byte) : Z :=
  match bs with
  | [] => 0
  | b :: r => byte_val b + 256 * le_decode r
  end.

Fixpoint le_encode (n : nat) (v : Z) : list byte :=
  match n with
  | O => []
  | S k => byte_of v :: le_encode k (v / 256)
  end.

(** ** Physical memory and the user-access primitives

    [userptr_t] is a flat physical address here: [phys_to_user],
    [user_to_phys] and [real_to_user] are the conversions of
    gpxe/uaccess.h and realmode.h, which the design document takes as
    pure and total. *)

Definition mem := Z -> byte.

Definition phys_to_user (phys : Z) : Z := phys.
Definition user_to_phys (ptr offset : Z) : Z := u32 (ptr + offset).
Definition real_to_user (segment offset : Z) : Z :=
  phys_to_user (segment * 16 + offset).

Definition copy_from_user (m : mem) (src off : Z) (len : nat) : list byte :=
  map (fun i => m (src + off + Z.of_nat i)) (seq 0 len).

Definition copy_to_user (m : mem) (dest off : Z) (bs : list byte) : mem :=
  fun a =>
    let i := a - (dest + off) in
    if (0 <=? i) && (i <? Z.of_nat (List.length bs))
    then nth (Z.to_nat i) bs x00
    else m a.

Definition memcpy_user (m : mem) (dest dest_off src src_off : Z) (len : Z)
  : mem :=
  copy_to_user m dest dest_off (copy_from_user m src src_off (Z.to_nat len)).

(** ** bzimage.h *)

(** Modelled from the spec: the header bzimage.h is not among the
    sources.  The design document (section 6, binary header layout)
    defers to the boot protocol for the record, which is packed and
    little-endian and starts at offset 0x1f1 of the image; the field
    list, the signature, the flag bits, the two load addresses, the
    video-mode codes and the legacy command-line record are that
    protocol's.  The loader's own sizes (stack, command line, default
    initrd ceiling, loader identifier) are those bzimage.h gives. *)
Module Hdr.

Inductive field :=
| setup_sects | root_flags | syssize | swap_dev | ram_size | vid_mode
| root_dev | boot_flag | jump | header | version | realmode_swtch
| start_sys | kernel_version | type_of_loader | loadflags
| setup_move_size | code32_start | ramdisk_image | ramdisk_size
| bootsect_kludge | heap_end_ptr | pad1 | cmd_line_ptr | initrd_addr_max.

(** Offset of each field from the start of the record. *)
Definition off (f : field) : nat :=
  match f with
  | setup_sects => 0 | root_flags => 1 | syssize => 3 | swap_dev => 5
  | ram_size => 7 | vid_mode => 9 | root_dev => 11 | boot_flag => 13
  | jump => 15 | header => 17 | version => 21 | realmode_swtch => 23
  | start_sys => 27 | kernel_version => 29 | type_of_loader => 31
  | loadflags => 32 | setup_move_size => 33 | code32_start => 35
  | ramdisk_image => 39 | ramdisk_size => 43 | bootsect_kludge => 47
  | heap_end_ptr => 51 | pad1 => 53 | cmd_line_ptr => 55
  | initrd_addr_max => 59
  end%nat.

(** Width of each field in bytes. *)
Definition sz (f : field) : nat :=
  match f with
  | setup_sects | type_of_loader | loadflags => 1
  | header | realmode_swtch | code32_start | ramdisk_image
  | ramdisk_size | bootsect_kludge | cmd_line_ptr | initrd_addr_max => 4
  | _ => 2
  end%nat.

(** [sizeof ( struct bzimage_header )] *)
Definition sizeof : nat := 63.

(** The record is kept as the bytes it occupies; a field is read and
    assigned through its offset, an assignment truncating the value to
    the width of the field as the C assignment does. *)
Definition t := list byte.

Definition get (f : field) (h : t) : Z :=
  le_decode (firstn (sz f) (skipn (off f) h)).

Definition set (f : field) (v : Z) (h : t) : t :=
  firstn (off f) h ++ le_encode (sz f) v ++ skipn (off f + sz f) h.

End Hdr.

Definition bzimage_header := Hdr.t.

Definition BZI_HDR_OFFSET : Z := 0x1f1.
Definition BZI_SIGNATURE : Z := 0x53726448.
Definition BZI_LOADER_TYPE_ETHERBOOT : Z := 0x40.
Definition BZI_LOAD_HIGH : Z := 0x01.
Definition BZI_LOAD_HIGH_ADDR : Z := 0x100000.
Definition BZI_LOAD_LOW_ADDR : Z := 0x10000.
Definition BZI_CAN_USE_HEAP : Z := 0x80.
Definition BZI_VID_MODE_NORMAL : Z := 0xffff.
Definition BZI_VID_MODE_EXT : Z := 0xfffe.
Definition BZI_VID_MODE_ASK : Z := 0xfffd.
Definition BZI_INITRD_MAX : Z := 0x37ffffff.
Definition BZI_CMDLINE_OFFSET : Z := 0x20.
Definition BZI_CMDLINE_MAGIC : Z := 0xa33f.
Definition BZI_STACK_SIZE : Z := 0x1000.
Definition BZI_CMDLINE_SIZE : Z := 0x100.

(** [struct bzimage_cmdline]: two 16-bit fields, magic then offset. *)
Definition bzimage_cmdline (magic offset : Z) : list byte :=
  le_encode 2 magic ++ le_encode 2 offset.

(** ** Status codes (errno.h)

    The design document's FormatError is [ENOEXEC], UnsupportedVersion is
    [ENOTSUP], OutOfMemory is [ENOBUFS], ImpossibleError is [ECANCELED];
    a SegmentError is whatever [prep_segment] reports. *)

Inductive errno :=
| ENOEXEC | ENOTSUP | ENOBUFS | ECANCELED | ERANGE | EINVAL.

(** A return status: [inl e] is the C return value [-e], [inr x] is a
    return of 0 with the values the call stored through its pointers. *)
Definition rc (A : Type) : Type := (errno + A)%type.

(** ** Images (gpxe/image.h) *)

Inductive image_type :=
| bzimage_image_type
| initrd_image_type
| other_image_type (name : string).

Record image := mk_image {
  name : string;
  data : Z;                     (* userptr_t of the raw file data *)
  len : Z;                      (* size_t *)
  cmdline : option string;      (* NULL or the command line *)
  type : option image_type;     (* NULL or the bound type *)
  priv : Z                      (* priv.ul *)
}.

Definition set_type (img : image) (ty : option image_type) : image :=
  mk_image (name img) (data img) (len img) (cmdline img) ty (priv img).

Definition set_priv (img : image) (ul : Z) : image :=
  mk_image (name img) (data img) (len img) (cmdline img) (type img) ul.

(** ** Load and execution contexts *)

Module LoadCtx.
Record t := mk {
  rm_kernel_seg : Z;
  rm_kernel : Z;
  rm_filesz : Z;
  rm_heap : Z;
  rm_cmdline : Z;
  rm_memsz : Z;
  pm_kernel : Z;
  pm_sz : Z
}.
(** [memset ( &load_ctx, 0, sizeof ( load_ctx ) )] *)
Definition zero : t := mk 0 0 0 0 0 0 0 0.
End LoadCtx.

Module ExecCtx.
Record t := mk {
  rm_kernel_seg : Z;
  rm_kernel : Z;
  rm_heap : Z;
  rm_cmdline : Z;
  vid_mode : Z;               (* unsigned int *)
  mem_limit : Z;              (* uint64_t *)
  ramdisk_image : Z;          (* physaddr_t *)
  ramdisk_size : Z            (* physaddr_t *)
}.
Definition zero : t := mk 0 0 0 0 0 0 0 0.
Definition set_vid_mode (c : t) (v : Z) : t :=
  mk (rm_kernel_seg c) (rm_kernel c) (rm_heap c) (rm_cmdline c)
     v (mem_limit c) (ramdisk_image c) (ramdisk_size c).
Definition set_mem_limit (c : t) (v : Z) : t :=
  mk (rm_kernel_seg c) (rm_kernel c) (rm_heap c) (rm_cmdline c)
     (vid_mode c) v (ramdisk_image c) (ramdisk_size c).
Definition set_ramdisk (c : t) (addr size : Z) : t :=
  mk (rm_kernel_seg c) (rm_kernel c) (rm_heap c) (rm_cmdline c)
     (vid_mode c) (mem_limit c) addr size.
End ExecCtx.

(** ** Header parser *)

(** [bzimage_load_header]: on success the load context with its
    real-mode and protected-mode fields filled in, and the header read
    from the image. *)
Definition bzimage_load_header (m : mem) (img : image) (load_ctx : LoadCtx.t)
  : rc (LoadCtx.t * bzimage_header) :=
  (* Sanity check *)
  if len img <? BZI_HDR_OFFSET + Z.of_nat Hdr.sizeof then inl ENOEXEC else
  (* Read and verify header *)
  let bzhdr := copy_from_user m (data img) BZI_HDR_OFFSET Hdr.sizeof in
  if negb (Hdr.get Hdr.header bzhdr =? BZI_SIGNATURE) then inl ENOEXEC else
  (* We don't support ancient kernels *)
  if Hdr.get Hdr.version bzhdr <? 0x0200 then inl ENOTSUP else
  (* Calculate load address and size of real-mode portion *)
  let rm_kernel_seg := 0x1000 in
  let rm_kernel := real_to_user rm_kernel_seg 0 in
  let setup_sects := Hdr.get Hdr.setup_sects bzhdr in
  let rm_filesz :=
    u32 (Z.shiftl ((if setup_sects =? 0 then 4 else setup_sects) + 1) 9) in
  if len img <? rm_filesz then inl ENOEXEC else
  (* Calculate load address and size of non-real-mode portion *)
  let pm_kernel :=
    if negb (Z.land (Hdr.get Hdr.loadflags bzhdr) BZI_LOAD_HIGH =? 0)
    then phys_to_user BZI_LOAD_HIGH_ADDR
    else phys_to_user BZI_LOAD_LOW_ADDR in
  let pm_sz := u32 (len img - rm_filesz) in
  inr (LoadCtx.mk rm_kernel_seg rm_kernel rm_filesz
         (LoadCtx.rm_heap load_ctx) (LoadCtx.rm_cmdline load_ctx) rm_filesz
         pm_kernel pm_sz,
       bzhdr).


(** ** C library routines used by the command-line processor *)

(** Modelled from the spec: string.h and stdlib.h are not among the
    sources.  A command line is a [string] holding the characters before
    the terminating NUL.  [strstr] gives the text from the first
    occurrence on, [strcmp] is 0 on equal strings, [strlen] counts the
    characters before the terminator, and [strtoul] skips white space,
    takes the base from the prefix when asked for base 0 (0x for 16, 0
    for 8, else 10), reads digits while they are digits of the base and
    returns the value as an [unsigned long] with the unparsed rest. *)
Definition strlen (s : string) : Z := Z.of_nat (String.length s).

Fixpoint strstr (haystack needle : string) : option string :=
  if String.prefix needle haystack then Some haystack
  else match haystack with
       | EmptyString => None
       | String _ rest => strstr rest needle
       end.

Definition char_code (c : ascii) : Z := Z.of_nat (nat_of_ascii c).

Fixpoint strcmp (a b : string) : Z :=
  match a, b with
  | EmptyString, EmptyString => 0
  | EmptyString, String d _ => 0 - char_code d
  | String c _, EmptyString => char_code c
  | String c a', String d b' =>
      if Ascii.eqb c d then strcmp a' b' else char_code c - char_code d
  end.

Definition isspace (c : ascii) : bool :=
  let n := char_code c in (n =? 32) || ((9 <=? n) && (n <=? 13)).

(** Value of a character as a digit; 255 when it is none. *)
Definition digit_val (c : ascii) : Z :=
  let n := char_code c in
  if (48 <=? n) && (n <=? 57) then n - 48
  else if (97 <=? n) && (n <=? 122) then n - 97 + 10
  else if (65 <=? n) && (n <=? 90) then n - 65 + 10
  else 255.

Fixpoint skip_space (s : string) : string :=
  match s with
  | String c r => if isspace c then skip_space r else s
  | EmptyString => s
  end.

Fixpoint strtoul_digits (base acc : Z) (s : string) : Z * string :=
  match s with
  | EmptyString => (acc, s)
  | String c r =>
      if digit_val c <? base
      then strtoul_digits base (u32 (acc * base + digit_val c)) r
      else (acc, s)
  end.

Definition strtoul (p : string) (base : Z) : Z * string :=
  let p := skip_space p in
  let '(base, p) :=
    if base =? 0 then
      match p with
      | String "0"%char r =>
          match r with
          | String c r' =>
              if (Ascii.eqb c "x" || Ascii.eqb c "X")%bool
              then (16, r') else (8, r)
          | EmptyString => (8, r)
          end
      | _ => (10, p)
      end
    else (base, p) in
  strtoul_digits base 0 p.

(** [p += n] on a string. *)
Fixpoint str_advance (n : nat) (p : string) : string :=
  match n, p with
  | S k, String _ r => str_advance k r
  | _, _ => p
  end.

(** [*p]: the character under the pointer, NUL at the end. *)
Definition deref (p : string) : ascii :=
  match p with
  | String c _ => c
  | EmptyString => zero
  end.

(** The bytes of a C string in memory: its characters and the NUL. *)
Definition cstring_bytes (s : string) : list byte :=
  map byte_of_ascii (list_ascii_of_string s) ++ [x00].

(** ** Command-line processor *)

Definition is_char (c : ascii) (lower upper : ascii) : bool :=
  Ascii.eqb c lower || Ascii.eqb c upper.

(** [bzimage_parse_cmdline].  The [switch] on the character after the
    number falls through from G to M to K, so each case below also takes
    the shifts of the cases after it. *)
Definition bzimage_parse_cmdline (exec_ctx : ExecCtx.t) (cmdline : string)
  : rc ExecCtx.t :=
  (* Look for "vga=" *)
  let exec_ctx :=
    match strstr cmdline "vga=" with
    | Some vga =>
        let vga := str_advance 4 vga in
        if strcmp vga "normal" =? 0 then
          ExecCtx.set_vid_mode exec_ctx BZI_VID_MODE_NORMAL
        else if strcmp vga "ext" =? 0 then
          ExecCtx.set_vid_mode exec_ctx BZI_VID_MODE_EXT
        else if strcmp vga "ask" =? 0 then
          ExecCtx.set_vid_mode exec_ctx BZI_VID_MODE_ASK
        else
          ExecCtx.set_vid_mode exec_ctx (fst (strtoul vga 16))
    | None => exec_ctx
    end in
  (* Look for "mem=" *)
  let exec_ctx :=
    match strstr cmdline "mem=" with
    | Some mem =>
        let mem := str_advance 4 mem in
        let '(value, mem) := strtoul mem 0 in
        let c := deref mem in
        let g := is_char c "g" "G" in
        let m := is_char c "m" "M" in
        let k := is_char c "k" "K" in
        let limit := value in
        let limit := if g then u64 (Z.shiftl limit 10) else limit in
        let limit := if g || m then u64 (Z.shiftl limit 10) else limit in
        let limit := if g || m || k then u64 (Z.shiftl limit 10) else limit in
        ExecCtx.set_mem_limit exec_ctx limit
    | None => exec_ctx
    end in
  inr exec_ctx.

(** [bzimage_set_cmdline] *)
Definition bzimage_set_cmdline (m : mem) (exec_ctx : ExecCtx.t)
  (cmdline : string) : rc unit * mem :=
  (* Copy command line down to real-mode portion *)
  let cmdline_len := u32 (strlen cmdline + 1) in
  let cmdline_len :=
    if BZI_CMDLINE_SIZE <? cmdline_len then BZI_CMDLINE_SIZE
    else cmdline_len in
  (inr tt,
   copy_to_user m (ExecCtx.rm_kernel exec_ctx) (ExecCtx.rm_cmdline exec_ctx)
     (firstn (Z.to_nat cmdline_len) (cstring_bytes cmdline))).

(** ** The machine outside the loader *)

(** What the loader can change: physical memory, and the platform
    resources that [shutdown] releases (counted per call). *)
Record world := mk_world {
  w_mem : mem;
  w_shutdowns : nat
}.

(** [shutdown ()] of gpxe/shutdown.h. *)
Definition shutdown (w : world) : world :=
  mk_world (w_mem w) (S (w_shutdowns w)).

(** How [bzimage_exec] ends: it returns a status to its caller, or the
    far return has loaded the segment registers with [seg], the stack
    pointer with [sp], and continues at [cs]:[ip]. *)
Inductive exec_outcome :=
| Returned (e : errno) (w : world)
| Jumped (seg sp cs ip : Z) (exec_ctx : ExecCtx.t) (w : world).

Definition image_is_initrd (i : image) : bool :=
  match type i with
  | Some initrd_image_type => true
  | _ => false
  end.

Section Loader.

(** Modelled from the spec: [prep_segment] of gpxe/segment.h is not among
    the sources.  Section 6 of the design document: given a destination
    and an in-memory size it validates that the range is usable and
    clears it; it fails with an error of its own when the range is
    reserved or exceeds available memory, and then nothing is touched.
    The platform's verdict on a range and the clearing are parameters. *)
Variable segment_check : Z -> Z -> Z -> option errno.
Variable segment_clear : mem -> Z -> Z -> Z -> mem.

Definition prep_segment (m : mem) (segment filesz memsz : Z) : rc mem :=
  match segment_check segment filesz memsz with
  | Some e => inl e
  | None => inr (segment_clear m segment filesz memsz)
  end.

(** ** Initrd relocator *)

(** The [for ( ; ; start -= 0x100000 )] loop of [bzimage_load_initrd],
    one iteration per unit of [fuel]; [None] when the fuel is used up
    before the loop is left. *)
Fixpoint bzimage_load_initrd_search (fuel : nat) (m : mem)
  (img : image) (mem_limit : Z) (initrd : image) (start : Z)
  : option (rc (Z * mem)) :=
  match fuel with
  | O => None
  | S fuel' =>
      (* Check that we're not going to overwrite the kernel itself *)
      if start <=? u32 (BZI_LOAD_HIGH_ADDR + len img) then
        Some (inl ENOBUFS)
      (* Check that we are within the kernel's range *)
      else if mem_limit <? u32 (start + len initrd) then
        bzimage_load_initrd_search fuel' m img mem_limit initrd
          (u32 (start - 0x100000))
      else
        (* Prepare and verify segment *)
        match prep_segment m (phys_to_user start) (len initrd) (len initrd)
        with
        | inl _ =>
            bzimage_load_initrd_search fuel' m img mem_limit initrd
              (u32 (start - 0x100000))
        | inr m' =>
            (* Copy to segment *)
            Some (inr (start,
                       memcpy_user m' (phys_to_user start) 0
                         (data initrd) 0 (len initrd)))
        end
  end.

(** [bzimage_load_initrd] *)
Definition bzimage_load_initrd (fuel : nat) (m : mem) (img : image)
  (exec_ctx : ExecCtx.t) (initrd : image) : option (rc ExecCtx.t * mem) :=
  let start := user_to_phys (data initrd) 0 in
  (* Find a suitable start address *)
  if u32 (start + len initrd) <=? ExecCtx.mem_limit exec_ctx then
    (* Just use initrd in situ; record initrd location *)
    Some (inr (ExecCtx.set_ramdisk exec_ctx start (len initrd)), m)
  else
    match bzimage_load_initrd_search fuel m img
            (ExecCtx.mem_limit exec_ctx) initrd start with
    | None => None
    | Some (inl e) => Some (inl e, m)
    | Some (inr (start, m')) =>
        (* Record initrd location *)
        Some (inr (ExecCtx.set_ramdisk exec_ctx start (len initrd)), m')
    end.

(** ** Execution *)

(** The end of [bzimage_exec]: update and store the kernel header,
    prepare for exiting, jump to the kernel.  The two words pushed for
    the far return land on the new stack below [sp]. *)
Definition bzimage_exec_boot (w : world) (exec_ctx : ExecCtx.t)
  (bzhdr : bzimage_header) : exec_outcome :=
  (* Update and store kernel header *)
  let bzhdr := Hdr.set Hdr.vid_mode (ExecCtx.vid_mode exec_ctx) bzhdr in
  let bzhdr :=
    Hdr.set Hdr.ramdisk_image (ExecCtx.ramdisk_image exec_ctx) bzhdr in
  let bzhdr :=
    Hdr.set Hdr.ramdisk_size (ExecCtx.ramdisk_size exec_ctx) bzhdr in
  let m :=
    copy_to_user (w_mem w) (ExecCtx.rm_kernel exec_ctx) BZI_HDR_OFFSET
      bzhdr in
  (* Prepare for exiting *)
  let w := shutdown (mk_world m (w_shutdowns w)) in
  (* Jump to the kernel *)
  let seg := u16 (ExecCtx.rm_kernel_seg exec_ctx) in
  let sp := u16 (ExecCtx.rm_heap exec_ctx) in
  let cs := u16 (ExecCtx.rm_kernel_seg exec_ctx + 0x20) in
  let m := copy_to_user (w_mem w) (seg * 16) (u16 (sp - 2)) (le_encode 2 cs) in
  let m := copy_to_user m (seg * 16) (u16 (sp - 4)) (le_encode 2 0) in
  Jumped seg sp cs 0 exec_ctx (mk_world m (w_shutdowns w)).

(** The start of [bzimage_exec]: initialise the context and retrieve
    the kernel header from the loaded real-mode segment. *)
Definition bzimage_exec_init (m : mem) (img : image)
  : ExecCtx.t * bzimage_header :=
  let rm_kernel_seg := u32 (priv img) in
  let rm_kernel := real_to_user rm_kernel_seg 0 in
  let bzhdr := copy_from_user m rm_kernel BZI_HDR_OFFSET Hdr.sizeof in
  let rm_heap := u32 (Hdr.get Hdr.heap_end_ptr bzhdr + 0x200) in
  let mem_limit :=
    if 0x0203 <=? Hdr.get Hdr.version bzhdr
    then u32 (Hdr.get Hdr.initrd_addr_max bzhdr + 1)
    else BZI_INITRD_MAX + 1 in
  (ExecCtx.mk rm_kernel_seg rm_kernel rm_heap rm_heap
              (Hdr.get Hdr.vid_mode bzhdr) mem_limit 0 0,
   bzhdr).

(** [bzimage_exec]; [images] is the list that [for_each_image] walks. *)
Definition bzimage_exec (fuel : nat) (images : list image) (w : world)
  (img : image) : option exec_outcome :=
  let cmdline := match cmdline img with Some c => c | None => ""%string end in
  let '(exec_ctx, bzhdr) := bzimage_exec_init (w_mem w) img in
  (* Parse command line for bootloader parameters *)
  match bzimage_parse_cmdline exec_ctx cmdline with
  | inl e => Some (Returned e w)
  | inr exec_ctx =>
      (* Store command line *)
      match bzimage_set_cmdline (w_mem w) exec_ctx cmdline with
      | (inl e, m) => Some (Returned e (mk_world m (w_shutdowns w)))
      | (inr _, m) =>
          let w := mk_world m (w_shutdowns w) in
          (* Load an initrd, if one exists *)
          match find image_is_initrd images with
          | Some initrd =>
              match bzimage_load_initrd fuel m img exec_ctx initrd with
              | None => None
              | Some (inl e, m) =>
                  Some (Returned e (mk_world m (w_shutdowns w)))
              | Some (inr exec_ctx, m) =>
                  Some (bzimage_exec_boot (mk_world m (w_shutdowns w))
                          exec_ctx bzhdr)
              end
          | None => Some (bzimage_exec_boot w exec_ctx bzhdr)
          end
      end
  end.

(** ** Segment loader *)

(** [bzimage_load_real] *)
Definition bzimage_load_real (m : mem) (img : image) (load_ctx : LoadCtx.t)
  : rc LoadCtx.t * mem :=
  (* Allow space for the stack and heap *)
  let rm_memsz := u32 (LoadCtx.rm_memsz load_ctx + BZI_STACK_SIZE) in
  let rm_heap := rm_memsz in
  (* Allow space for the command line *)
  let rm_cmdline := rm_memsz in
  let rm_memsz := u32 (rm_memsz + BZI_CMDLINE_SIZE) in
  let load_ctx :=
    LoadCtx.mk (LoadCtx.rm_kernel_seg load_ctx) (LoadCtx.rm_kernel load_ctx)
      (LoadCtx.rm_filesz load_ctx) rm_heap rm_cmdline rm_memsz
      (LoadCtx.pm_kernel load_ctx) (LoadCtx.pm_sz load_ctx) in
  (* Prepare, verify, and load the real-mode segment *)
  match prep_segment m (LoadCtx.rm_kernel load_ctx)
          (LoadCtx.rm_filesz load_ctx) (LoadCtx.rm_memsz load_ctx) with
  | inl e => (inl e, m)
  | inr m =>
      (inr load_ctx,
       memcpy_user m (LoadCtx.rm_kernel load_ctx) 0 (data img) 0
         (LoadCtx.rm_filesz load_ctx))
  end.

(** [bzimage_load_non_real] *)
Definition bzimage_load_non_real (m : mem) (img : image)
  (load_ctx : LoadCtx.t) : rc unit * mem :=
  (* Prepare, verify and load the non-real-mode segment *)
  match prep_segment m (LoadCtx.pm_kernel load_ctx)
          (LoadCtx.pm_sz load_ctx) (LoadCtx.pm_sz load_ctx) with
  | inl e => (inl e, m)
  | inr m =>
      (inr tt,
       memcpy_user m (LoadCtx.pm_kernel load_ctx) 0 (data img)
         (LoadCtx.rm_filesz load_ctx) (LoadCtx.pm_sz load_ctx))
  end.

(** ** Header rewriter *)

(** [bzimage_write_header] *)
Definition bzimage_write_header (m : mem) (load_ctx : LoadCtx.t)
  (bzhdr : bzimage_header) : rc bzimage_header * mem :=
  (* Update the header and copy it into the loaded kernel *)
  let bzhdr := Hdr.set Hdr.type_of_loader BZI_LOADER_TYPE_ETHERBOOT bzhdr in
  let bzhdr :=
    if 0x0201 <=? Hdr.get Hdr.version bzhdr then
      let bzhdr :=
        Hdr.set Hdr.heap_end_ptr (LoadCtx.rm_heap load_ctx - 0x200) bzhdr in
      Hdr.set Hdr.loadflags
        (Z.lor (Hdr.get Hdr.loadflags bzhdr) BZI_CAN_USE_HEAP) bzhdr
    else bzhdr in
  let '(bzhdr, m) :=
    if 0x0202 <=? Hdr.get Hdr.version bzhdr then
      (Hdr.set Hdr.cmd_line_ptr
         (user_to_phys (LoadCtx.rm_kernel load_ctx)
            (LoadCtx.rm_cmdline load_ctx)) bzhdr,
       m)
    else
      (Hdr.set Hdr.setup_move_size (LoadCtx.rm_memsz load_ctx) bzhdr,
       copy_to_user m (LoadCtx.rm_kernel load_ctx) BZI_CMDLINE_OFFSET
         (bzimage_cmdline BZI_CMDLINE_MAGIC (LoadCtx.rm_cmdline load_ctx)))
  in
  (inr bzhdr,
   copy_to_user m (LoadCtx.rm_kernel load_ctx) BZI_HDR_OFFSET bzhdr).

(** ** Loader *)

(** [bzimage_load]: the status, the image object as the call leaves it,
    and memory as the call leaves it. *)
Definition bzimage_load (m : mem) (img : image) : rc unit * image * mem :=
  (* Initialise context *)
  let load_ctx := LoadCtx.zero in
  (* Load and verify header *)
  match bzimage_load_header m img load_ctx with
  | inl e => (inl e, img, m)
  | inr (load_ctx, bzhdr) =>
      (* This is a bzImage image, valid or otherwise *)
      let img :=
        match type img with
        | None => set_type img (Some bzimage_image_type)
        | Some _ => img
        end in
      (* Load real-mode portion *)
      match bzimage_load_real m img load_ctx with
      | (inl e, m) => (inl e, img, m)
      | (inr load_ctx, m) =>
          (* Load non-real-mode portion *)
          match bzimage_load_non_real m img load_ctx with
          | (inl e, m) => (inl e, img, m)
          | (inr _, m) =>
              (* Update and write out header *)
              match bzimage_write_header m load_ctx bzhdr with
              | (inl e, m) => (inl e, img, m)
              | (inr _, m) =>
                  (* Record real-mode segment in image private data field *)
                  (inr tt, set_priv img (LoadCtx.rm_kernel_seg load_ctx), m)
              end
          end
      end
  end.

End Loader.

(** ** Terms of the statements

    Names for what the properties below speak about, in the words of
    the design document where it has them. *)

(** The size of the real-mode portion as the header parser computes it:
    a sector count of 0 stands for 4, and the boot sector is added. *)
Definition rm_size_of (setup_sects : Z) : Z :=
  ((if setup_sects =? 0 then 4 else setup_sects) + 1) * 512.

(** The shift that the design document assigns to the character after
    a [mem=] number: 30 bits for g, 20 for m, 10 for k, none otherwise. *)
Definition mem_unit_shift (c : ascii) : Z :=
  if is_char c "g" "G" then 30
  else if is_char c "m" "M" then 20
  else if is_char c "k" "K" then 10
  else 0.

(** A command line is a C string: no NUL among its characters. *)
Fixpoint nul_free (s : string) : bool :=
  match s with
  | EmptyString => true
  | String c r => negb (Ascii.eqb c zero) && nul_free r
  end.

(** The context that [bzimage_exec] has when it turns to the initrd. *)
Definition exec_ctx_before_initrd (m : mem) (img : image) : ExecCtx.t :=
  match bzimage_parse_cmdline (fst (bzimage_exec_init m img))
          (match cmdline img with Some c => c | None => ""%string end) with
  | inr exec_ctx => exec_ctx
  | inl _ => ExecCtx.zero
  end.

(** The words of the design document's placement rule.  The exclusion
    bound is the high-load base plus the kernel image's length; the
    [k]-th candidate lies [k] MiB below the start of the search; an
    address is placeable when it lies above the bound, the initrd fits
    under the ceiling there, and the platform accepts the segment. *)
Definition exclusion_bound (img : image) : Z := BZI_LOAD_HIGH_ADDR + len img.

Definition candidate (start : Z) (k : nat) : Z :=
  start - Z.of_nat k * 0x100000.

Definition placeable (chk : Z -> Z -> Z -> option errno) (img initrd : image)
  (ceiling s : Z) : Prop :=
  exclusion_bound img < s /\
  s + len initrd <= ceiling /\
  chk s (len initrd) (len initrd) = None.

(** Memory after the initrd has been prepared and copied at [s]. *)
Definition relocated (clr : mem -> Z -> Z -> Z -> mem) (m : mem)
  (initrd : image) (s : Z) : mem :=
  memcpy_user (clr m s (len initrd) (len initrd)) s 0
    (data initrd) 0 (len initrd).

(** Where a run of [bzimage_load_initrd] has put the initrd. *)
Definition placed_at (r : option (rc ExecCtx.t * mem)) : option Z :=
  match r with
  | Some (inr exec_ctx, _) => Some (ExecCtx.ramdisk_image exec_ctx)
  | _ => None
  end.

(** Two header fields occupy separate bytes. *)
Definition hdr_disjoint (f g : Hdr.field) : bool :=
  (Hdr.off f + Hdr.sz f <=? Hdr.off g)%nat
  || (Hdr.off g + Hdr.sz g <=? Hdr.off f)%nat.

(** The load context that [bzimage_load] works with once both segments
    are laid out, for a header [bzhdr] and an image of [len] bytes. *)
Definition load_ctx_of (bzhdr : bzimage_header) (len : Z) : LoadCtx.t :=
  let rm := rm_size_of (Hdr.get Hdr.setup_sects bzhdr) in
  LoadCtx.mk 0x1000 0x10000 rm
    (rm + BZI_STACK_SIZE) (rm + BZI_STACK_SIZE)
    (rm + BZI_STACK_SIZE + BZI_CMDLINE_SIZE)
    (if Z.odd (Hdr.get Hdr.loadflags bzhdr)
     then BZI_LOAD_HIGH_ADDR else BZI_LOAD_LOW_ADDR)
    (len - rm).

(** Memory when [bzimage_load] has prepared and filled both segments and
    is about to store the header. *)
Definition loaded_segments (clr : mem -> Z -> Z -> Z -> mem) (m : mem)
  (img : image) (ctx : LoadCtx.t) : mem :=
  let m1 := clr m (LoadCtx.rm_kernel ctx) (LoadCtx.rm_filesz ctx)
              (LoadCtx.rm_memsz ctx) in
  let m2 := memcpy_user m1 (LoadCtx.rm_kernel ctx) 0 (data img) 0
              (LoadCtx.rm_filesz ctx) in
  let m3 := clr m2 (LoadCtx.pm_kernel ctx) (LoadCtx.pm_sz ctx)
              (LoadCtx.pm_sz ctx) in
  memcpy_user m3 (LoadCtx.pm_kernel ctx) 0 (data img)
    (LoadCtx.rm_filesz ctx) (LoadCtx.pm_sz ctx).

(** ** A sample platform and sample images

    Used where a property is evaluated on concrete inputs: RAM is usable
    up to [top], clearing zero-fills the range past the file data; a
    sample kernel file has a header at the protocol's offset and zero
    bytes elsewhere. *)

Definition ram_check (top : Z) (segment filesz memsz : Z) : option errno :=
  if memsz <? filesz then Some EINVAL
  else if (0 <=? segment) && (segment + memsz <=? top) then None
  else Some ERANGE.

Definition zero_tail (m : mem) (segment filesz memsz : Z) : mem :=
  copy_to_user m segment filesz (repeat x00 (Z.to_nat (memsz - filesz))).

Definition sample_header (sects ver vid addr_max : Z) : bzimage_header :=
  Hdr.set Hdr.setup_sects sects
    (Hdr.set Hdr.header BZI_SIGNATURE
       (Hdr.set Hdr.version ver
          (Hdr.set Hdr.vid_mode vid
             (Hdr.set Hdr.initrd_addr_max addr_max
                (repeat x00 Hdr.sizeof))))).

Definition sample_file (hdr : bzimage_header) (total : nat) : list byte :=
  firstn total (repeat x00 (Z.to_nat BZI_HDR_OFFSET) ++ hdr ++ repeat x00 total).

Definition mem_with (base : Z) (file : list byte) : mem :=
  copy_to_user (fun _ => x00) base 0 file.

Definition sample_image (base : Z) (file : list byte)
  (ty : option image_type) : image :=
  mk_image "sample" base (Z.of_nat (List.length file)) None ty 0.

(** A 2000-byte file with a valid header, version 2.04 and 1 setup
    sector. *)
Definition short_setup_file : list byte :=
  sample_file (sample_header 1 0x0204 0 0x37ffffff) 2000.

(** A 2000-byte file with a valid header and version 2.04 that announces
    4 setup sectors, so 2560 bytes of real-mode code. *)
Definition truncated_file : list byte :=
  sample_file (sample_header 4 0x0204 0 0x37ffffff) 2000.

(** A command line of 256 characters, as many as [BZI_CMDLINE_SIZE]. *)
Definition long_cmdline : string :=
  string_of_list_ascii (repeat "a"%char 256).

(** A 3072-byte high-loaded kernel file, version 2.04, 4 setup sectors,
    video mode 0x317, with the given [initrd_addr_max]. *)
Definition kernel_file (addr_max : Z) : list byte :=
  sample_file
    (Hdr.set Hdr.loadflags BZI_LOAD_HIGH
       (sample_header 4 0x0204 0x317 addr_max)) 3072.

(** An initrd image of 4 KiB whose buffer sits at 0x38000000. *)
Definition high_initrd : image :=
  mk_image "initrd" 0x38000000 0x1000 None (Some initrd_image_type) 0.

(** A 3072-byte kernel image object, and an initrd of 4 KiB whose buffer
    sits 1 KiB above a MiB boundary, beyond a ceiling of 0x38000000. *)
Definition small_kernel : image :=
  mk_image "vmlinuz" 0x200000 3072 None (Some bzimage_image_type) 0x1000.

Definition odd_initrd : image :=
  mk_image "initrd" 0x40000400 0x1000 None (Some initrd_image_type) 0.

Definition low_ceiling_ctx : ExecCtx.t :=
  ExecCtx.set_mem_limit ExecCtx.zero 0x38000000.

(** Memory holding 16 bytes 0xff at the buffer of [odd_initrd]. *)
Definition initrd_mem : mem := mem_with 0x40000400 (repeat xff 16).

(** Memory holding at 0x10000 a real-mode segment whose header has the
    heap end at 0xfe00, as [bzimage_write_header] stores it for a
    real-mode part of 120 sectors. *)
Definition full_heap_mem : mem :=
  mem_with 0x10000
    (sample_file
       (Hdr.set Hdr.heap_end_ptr 0xfe00 (sample_header 119 0x0204 0 0x37ffffff))
       1024).

(** The sample kernel file as an image object at 0x200000, and memory
    holding it. *)
Definition sample_kernel : image :=
  sample_image 0x200000 (kernel_file 0x37ffffff) None.

Definition sample_mem : mem := mem_with 0x200000 (kernel_file 0x37ffffff).

(** The sample kernel loaded on a platform with 1 GiB of RAM. *)
Definition sample_loaded : rc unit * image * mem :=
  bzimage_load (ram_check 0x40000000) zero_tail sample_mem sample_kernel.

(** The sample kernel with a command line, and its load. *)
Definition sample_kernel_quiet : image :=
  mk_image "sample" 0x200000 3072 (Some "vga=0x317 quiet"%string) None 0.

Definition sample_quiet_loaded : rc unit * image * mem :=
  bzimage_load (ram_check 0x40000000) zero_tail sample_mem
    sample_kernel_quiet.

(** * Properties *)

(** ** Bytes and header fields *)

Lemma u32_small (z : Z) : 0 <= z < 2 ^ 32 -> u32 z = z.
Proof. intros H. unfold u32. now apply Z.mod_small. Qed.

Lemma byte_val_range (b : byte) : 0 <= byte_val b < 256.
Proof.
  unfold byte_val. pose proof (Byte.to_N_bounded b). lia.
Qed.

Lemma le_decode_range (bs : list byte) :
  0 <= le_decode bs < 256 ^ Z.of_nat (List.length bs).
Proof.
  induction bs as [|b r IH]; cbn [le_decode List.length].
  - simpl. lia.
  - rewrite Nat2Z.inj_succ, Z.pow_succ_r by lia.
    pose proof (byte_val_range b). lia.
Qed.

Lemma hdr_get_range (f : Hdr.field) (h : Hdr.t) :
  0 <= Hdr.get f h < 256 ^ Z.of_nat (Hdr.sz f).
Proof.
  unfold Hdr.get.
  pose proof (le_decode_range (firstn (Hdr.sz f) (skipn (Hdr.off f) h))) as R.
  pose proof (firstn_le_length (Hdr.sz f) (skipn (Hdr.off f) h)) as L.
  assert (256 ^ Z.of_nat (List.length (firstn (Hdr.sz f) (skipn (Hdr.off f) h)))
          <= 256 ^ Z.of_nat (Hdr.sz f)) by (apply Z.pow_le_mono_r; lia).
  lia.
Qed.

Lemma rm_filesz_no_wrap (h : Hdr.t) :
  let s := Hdr.get Hdr.setup_sects h in
  u32 (Z.shiftl ((if s =? 0 then 4 else s) + 1) 9) = rm_size_of s.
Proof.
  intros s. pose proof (hdr_get_range Hdr.setup_sects h) as R.
  change (256 ^ Z.of_nat (Hdr.sz Hdr.setup_sects)) with 256 in R.
  fold s in R. unfold rm_size_of, u32.
  rewrite Z.shiftl_mul_pow2 by lia. change (2 ^ 9) with 512.
  apply Z.mod_small. change (2 ^ 32) with 4294967296.
  destruct (Z.eqb_spec s 0); lia.
Qed.

Lemma copy_from_user_length (m : mem) (src off : Z) (n : nat) :
  List.length (copy_from_user m src off n) = n.
Proof.
  unfold copy_from_user. now rewrite length_map, length_seq.
Qed.

Lemma nth_map_seq (A : Type) (f : nat -> A) (n i : nat) (d : A) :
  (i < n)%nat -> nth i (map f (seq 0 n)) d = f i.
Proof.
  intros Hi.
  rewrite (nth_indep _ d (f 0%nat)) by (rewrite length_map, length_seq; lia).
  rewrite (map_nth f (seq 0 n) 0%nat i), seq_nth by lia. reflexivity.
Qed.

(** What [copy_to_user] has written is what [copy_from_user] reads. *)
Lemma copy_from_user_written (m : mem) (dest off : Z) (bs : list byte) :
  copy_from_user (copy_to_user m dest off bs) dest off (List.length bs) = bs.
Proof.
  apply (nth_ext _ _ x00 x00).
  - apply copy_from_user_length.
  - intros i Hi. rewrite copy_from_user_length in Hi.
    unfold copy_from_user. rewrite nth_map_seq by exact Hi.
    unfold copy_to_user.
    replace (dest + off + Z.of_nat i - (dest + off)) with (Z.of_nat i) by lia.
    rewrite Nat2Z.id.
    destruct (Z.leb_spec 0 (Z.of_nat i)); [|lia].
    destruct (Z.ltb_spec (Z.of_nat i) (Z.of_nat (List.length bs))); [|lia].
    reflexivity.
Qed.

Lemma copy_to_user_outside (m : mem) (dest off : Z) (bs : list byte) (a : Z) :
  a < dest + off \/ dest + off + Z.of_nat (List.length bs) <= a ->
  copy_to_user m dest off bs a = m a.
Proof.
  intros H. unfold copy_to_user.
  destruct (Z.leb_spec 0 (a - (dest + off)));
    destruct (Z.ltb_spec (a - (dest + off)) (Z.of_nat (List.length bs)));
    cbn [andb]; try reflexivity; lia.
Qed.

Lemma copy_to_user_inside (m : mem) (dest off : Z) (bs : list byte) (i : nat) :
  (i < List.length bs)%nat ->
  copy_to_user m dest off bs (dest + off + Z.of_nat i) = nth i bs x00.
Proof.
  intros H. unfold copy_to_user.
  replace (dest + off + Z.of_nat i - (dest + off)) with (Z.of_nat i) by lia.
  rewrite Nat2Z.id.
  destruct (Z.leb_spec 0 (Z.of_nat i)); [|lia].
  destruct (Z.ltb_spec (Z.of_nat i) (Z.of_nat (List.length bs))); [|lia].
  reflexivity.
Qed.

Lemma copy_from_user_nth (m : mem) (src off : Z) (n i : nat) :
  (i < n)%nat ->
  nth i (copy_from_user m src off n) x00 = m (src + off + Z.of_nat i).
Proof.
  intros H. unfold copy_from_user. now rewrite nth_map_seq.
Qed.

(** Reading a range depends on the bytes of that range only. *)
Lemma copy_from_user_ext (m m' : mem) (src off : Z) (n : nat) :
  (forall a, src + off <= a < src + off + Z.of_nat n -> m a = m' a) ->
  copy_from_user m src off n = copy_from_user m' src off n.
Proof.
  intros H. unfold copy_from_user. apply map_ext_in.
  intros i Hi. apply in_seq in Hi. apply H. lia.
Qed.

(** What [memcpy_user] leaves at the destination and elsewhere. *)
Lemma memcpy_user_inside (m : mem) (dest doff src soff len i : Z) :
  0 <= i < len ->
  memcpy_user m dest doff src soff len (dest + doff + i) = m (src + soff + i).
Proof.
  intros H. unfold memcpy_user.
  replace i with (Z.of_nat (Z.to_nat i)) at 1 by lia.
  rewrite copy_to_user_inside by (rewrite copy_from_user_length; lia).
  rewrite copy_from_user_nth by lia. f_equal. lia.
Qed.

Lemma memcpy_user_outside (m : mem) (dest doff src soff len a : Z) :
  a < dest + doff \/ dest + doff + Z.max 0 len <= a ->
  memcpy_user m dest doff src soff len a = m a.
Proof.
  intros H. unfold memcpy_user. apply copy_to_user_outside.
  rewrite copy_from_user_length. lia.
Qed.

(** The sample platform clears nothing of a segment that is all file
    data. *)
Lemma zero_tail_same (m : mem) (s n a : Z) : zero_tail m s n n a = m a.
Proof.
  unfold zero_tail. apply copy_to_user_outside.
  rewrite repeat_length, Z.sub_diag. simpl. lia.
Qed.

Lemma le_encode_length (n : nat) (v : Z) : List.length (le_encode n v) = n.
Proof.
  revert v. induction n as [|n IH]; intros v; cbn [le_encode List.length];
    [reflexivity | now rewrite IH].
Qed.

Lemma hdr_set_length (g : Hdr.field) (v : Z) (h : Hdr.t) :
  (Hdr.off g + Hdr.sz g <= List.length h)%nat ->
  List.length (Hdr.set g v h) = List.length h.
Proof.
  intros Hin. unfold Hdr.set.
  rewrite !length_app, length_firstn, le_encode_length, length_skipn. lia.
Qed.

(** Assigning one field leaves a field that does not overlap it as it
    was. *)
Lemma hdr_get_set_other (f g : Hdr.field) (v : Z) (h : Hdr.t) :
  (Hdr.off g + Hdr.sz g <= List.length h)%nat ->
  (Hdr.off f + Hdr.sz f <= Hdr.off g \/
   Hdr.off g + Hdr.sz g <= Hdr.off f)%nat ->
  Hdr.get f (Hdr.set g v h) = Hdr.get f h.
Proof.
  intros Hin Hdis. unfold Hdr.get, Hdr.set. f_equal.
  destruct Hdis as [Hbefore|Hafter].
  - rewrite skipn_app, length_firstn.
    replace (Hdr.off f - Nat.min (Hdr.off g) (List.length h))%nat
      with 0%nat by lia.
    cbn [skipn]. rewrite firstn_app, length_skipn, length_firstn.
    replace (Hdr.sz f - (Nat.min (Hdr.off g) (List.length h) - Hdr.off f))%nat
      with 0%nat by lia.
    cbn [firstn]. rewrite app_nil_r.
    rewrite skipn_firstn_comm, firstn_firstn.
    f_equal. lia.
  - rewrite app_assoc, skipn_app.
    rewrite (@skipn_all2 _ (Hdr.off f)
               (firstn (Hdr.off g) h ++ le_encode (Hdr.sz g) v))
      by (rewrite length_app, length_firstn, le_encode_length; lia).
    cbn [app]. rewrite length_app, length_firstn, le_encode_length.
    rewrite skipn_skipn. f_equal. f_equal. lia.
Qed.

(** ** Header parser *)

(** C1 (as amended).  For every image that passes the header checks
    (length at least header offset plus header size, matching signature,
    version at or above 0x0200), [bzimage_load_header] computes the
    real-mode size as [(s + 1) * 512] where [s] is the header's
    [setup_sects], or 4 when that field is 0; it fails with [ENOEXEC]
    when this size exceeds the image length and otherwise succeeds with
    this size as both file and memory size of the real-mode portion. *)
Theorem bzimage_load_header_rm_size
  (m : mem) (img : image) (load_ctx0 : LoadCtx.t) :
  let bzhdr := copy_from_user m (data img) BZI_HDR_OFFSET Hdr.sizeof in
  let size := rm_size_of (Hdr.get Hdr.setup_sects bzhdr) in
  BZI_HDR_OFFSET + Z.of_nat Hdr.sizeof <= len img ->
  Hdr.get Hdr.header bzhdr = BZI_SIGNATURE ->
  0x0200 <= Hdr.get Hdr.version bzhdr ->
  (len img < size -> bzimage_load_header m img load_ctx0 = inl ENOEXEC) /\
  (size <= len img ->
   exists load_ctx,
     bzimage_load_header m img load_ctx0 = inr (load_ctx, bzhdr) /\
     LoadCtx.rm_filesz load_ctx = size /\
     LoadCtx.rm_memsz load_ctx = size).
Proof.
  intros bzhdr size Hlen Hsig Hver.
  unfold bzimage_load_header. fold bzhdr.
  rewrite (rm_filesz_no_wrap bzhdr). fold size.
  destruct (Z.ltb_spec (len img) (BZI_HDR_OFFSET + Z.of_nat Hdr.sizeof));
    [lia|].
  rewrite Hsig, Z.eqb_refl. simpl negb. cbv iota.
  destruct (Z.ltb_spec (Hdr.get Hdr.version bzhdr) 0x0200); [lia|].
  split; intros Hsz.
  - destruct (Z.ltb_spec (len img) size); [reflexivity | lia].
  - destruct (Z.ltb_spec (len img) size); [lia|].
    eexists. split; [reflexivity|]. split; reflexivity.
Qed.

Lemma bzimage_load_header_rm_size_witness :
  let m := mem_with 0x200000 short_setup_file in
  let img := sample_image 0x200000 short_setup_file None in
  exists load_ctx bzhdr,
    bzimage_load_header m img LoadCtx.zero = inr (load_ctx, bzhdr) /\
    LoadCtx.rm_filesz load_ctx = 1024.
Proof.
  intros m img.
  destruct (bzimage_load_header_rm_size m img LoadCtx.zero) as [_ Hok];
    [vm_compute; discriminate | vm_compute; reflexivity
    | vm_compute; discriminate |].
  destruct Hok as [load_ctx [Heq [Hsz _]]]; [vm_compute; discriminate|].
  exists load_ctx, (copy_from_user m (data img) BZI_HDR_OFFSET Hdr.sizeof).
  split; [exact Heq|]. rewrite Hsz. vm_compute. reflexivity.
Defined.

(** C1 as stated fails: with 1 setup sector the real-mode size is
    (1 + 1) * 512 = 1024, not (max (1, 4) + 1) * 512 = 2560, and the
    2000-byte file is accepted although 2560 exceeds its length. *)
Lemma bzimage_load_header_max_counterexample :
  let m := mem_with 0x200000 short_setup_file in
  let img := sample_image 0x200000 short_setup_file None in
  let bzhdr := copy_from_user m (data img) BZI_HDR_OFFSET Hdr.sizeof in
  let claimed := (Z.max (Hdr.get Hdr.setup_sects bzhdr) 4 + 1) * 512 in
  BZI_HDR_OFFSET + Z.of_nat Hdr.sizeof <= len img /\
  Hdr.get Hdr.header bzhdr = BZI_SIGNATURE /\
  0x0200 <= Hdr.get Hdr.version bzhdr /\
  len img < claimed /\
  match bzimage_load_header m img LoadCtx.zero with
  | inr (load_ctx, _) => LoadCtx.rm_filesz load_ctx <> claimed
  | inl _ => False
  end.
Proof.
  intros m img bzhdr claimed.
  split; [vm_compute; discriminate|].
  split; [vm_compute; reflexivity|].
  split; [vm_compute; discriminate|].
  split; [vm_compute; reflexivity|].
  vm_compute. discriminate.
Qed.

(** C4 (as amended).  [bzimage_load_header] fails with [ENOEXEC] exactly
    when the image is shorter than header offset plus header size, or the
    signature differs from the magic constant, or the version is
    supported and the real-mode size exceeds the image length; it fails
    with [ENOTSUP] exactly when the image is long enough, the signature is
    valid and the version is below 0x0200; and whenever it fails,
    [bzimage_load] returns that error with memory and the image object
    as they were. *)
Theorem bzimage_load_header_errors
  (chk : Z -> Z -> Z -> option errno) (clr : mem -> Z -> Z -> Z -> mem)
  (m : mem) (img : image) (load_ctx0 : LoadCtx.t) :
  let bzhdr := copy_from_user m (data img) BZI_HDR_OFFSET Hdr.sizeof in
  let short := len img < BZI_HDR_OFFSET + Z.of_nat Hdr.sizeof in
  let badsig := Hdr.get Hdr.header bzhdr <> BZI_SIGNATURE in
  let old := Hdr.get Hdr.version bzhdr < 0x0200 in
  let truncated := len img < rm_size_of (Hdr.get Hdr.setup_sects bzhdr) in
  (bzimage_load_header m img load_ctx0 = inl ENOEXEC <->
   short \/ badsig \/ (~ old /\ truncated)) /\
  (bzimage_load_header m img load_ctx0 = inl ENOTSUP <->
   ~ short /\ ~ badsig /\ old) /\
  (forall e, bzimage_load_header m img LoadCtx.zero = inl e ->
             bzimage_load chk clr m img = (inl e, img, m)).
Proof.
  intros bzhdr short badsig old truncated.
  subst short badsig old truncated.
  split; [|split].
  - unfold bzimage_load_header. fold bzhdr.
    rewrite (rm_filesz_no_wrap bzhdr).
    destruct (Z.ltb_spec (len img) (BZI_HDR_OFFSET + Z.of_nat Hdr.sizeof)).
    { split; [intros _; left; assumption | reflexivity]. }
    destruct (Z.eqb_spec (Hdr.get Hdr.header bzhdr) BZI_SIGNATURE);
      cbn [negb].
    2:{ split; [intros _; right; left; assumption | reflexivity]. }
    destruct (Z.ltb_spec (Hdr.get Hdr.version bzhdr) 0x0200).
    { split; [discriminate | intros [?|[?|[? _]]]; contradiction || lia]. }
    destruct (Z.ltb_spec (len img)
                (rm_size_of (Hdr.get Hdr.setup_sects bzhdr))).
    { split; [intros _; right; right; split; [lia | assumption]
             | reflexivity]. }
    split; [discriminate | intros [?|[?|[_ ?]]]; contradiction || lia].
  - unfold bzimage_load_header. fold bzhdr.
    rewrite (rm_filesz_no_wrap bzhdr).
    destruct (Z.ltb_spec (len img) (BZI_HDR_OFFSET + Z.of_nat Hdr.sizeof)).
    { split; [discriminate | intros [? _]; lia]. }
    destruct (Z.eqb_spec (Hdr.get Hdr.header bzhdr) BZI_SIGNATURE);
      cbn [negb].
    2:{ split; [discriminate | intros [_ [? _]]; contradiction]. }
    destruct (Z.ltb_spec (Hdr.get Hdr.version bzhdr) 0x0200).
    { split; [intros _; repeat split; (lia || auto) | reflexivity]. }
    destruct (Z.ltb_spec (len img)
                (rm_size_of (Hdr.get Hdr.setup_sects bzhdr)));
      (split; [discriminate | intros [_ [_ ?]]; lia]).
  - intros e He. unfold bzimage_load. rewrite He. reflexivity.
Qed.

(** C4 as stated fails: the truncated file has a valid signature and is
    longer than header offset plus header size, yet the header parser
    fails with [ENOEXEC], because its 4 setup sectors need 2560 bytes. *)
Lemma bzimage_load_header_truncated_counterexample :
  let m := mem_with 0x200000 truncated_file in
  let img := sample_image 0x200000 truncated_file None in
  let bzhdr := copy_from_user m (data img) BZI_HDR_OFFSET Hdr.sizeof in
  bzimage_load_header m img LoadCtx.zero = inl ENOEXEC /\
  ~ (len img < BZI_HDR_OFFSET + Z.of_nat Hdr.sizeof \/
     Hdr.get Hdr.header bzhdr <> BZI_SIGNATURE).
Proof.
  intros m img bzhdr. split; [vm_compute; reflexivity|].
  intros [H|H]; [vm_compute in H; discriminate | apply H; vm_compute; reflexivity].
Qed.

(** ** Command-line processor *)

Lemma strtoul_digits_range (base : Z) (s : string) (acc : Z) :
  0 <= acc < 2 ^ 32 -> 0 <= fst (strtoul_digits base acc s) < 2 ^ 32.
Proof.
  revert acc. induction s as [|c r IH]; intros acc Hacc; cbn [strtoul_digits].
  - exact Hacc.
  - destruct (digit_val c <? base); [|exact Hacc].
    apply IH. unfold u32. apply Z.mod_pos_bound. lia.
Qed.

Lemma strtoul_range (p : string) (base : Z) :
  0 <= fst (strtoul p base) < 2 ^ 32.
Proof.
  unfold strtoul.
  destruct (if base =? 0 then _ else _) as [b q].
  apply strtoul_digits_range. lia.
Qed.

Lemma shiftl_10_u64 (v : Z) (n : Z) :
  0 <= n <= 20 -> 0 <= v < 2 ^ 32 ->
  u64 (Z.shiftl (Z.shiftl v n) 10) = Z.shiftl v (n + 10).
Proof.
  intros Hn Hv. rewrite Z.shiftl_shiftl by lia.
  unfold u64. apply Z.mod_small.
  rewrite Z.shiftl_mul_pow2 by lia. split; [nia|].
  apply Z.lt_le_trans with (2 ^ 32 * 2 ^ (n + 10)).
  - apply Z.mul_lt_mono_pos_r; [apply Z.pow_pos_nonneg; lia | lia].
  - rewrite <- Z.pow_add_r by lia. apply Z.pow_le_mono_r; lia.
Qed.

(** C3.  For every command line containing [mem=], the command-line
    processor succeeds and sets the memory ceiling to the integer that
    [strtoul] parses after the first [mem=], shifted left by 30 bits when
    the next character is g or G, by 20 for m or M, by 10 for k or K, and
    not at all for any other character (a space, the end of the string
    or a strange terminator); [mem=4k], [mem=1m] and [mem=1g] give
    4096, 1048576 and 1073741824. *)
Theorem bzimage_parse_cmdline_mem :
  (forall (exec_ctx : ExecCtx.t) (cmdline mem : string),
      strstr cmdline "mem=" = Some mem ->
      exists exec_ctx',
        bzimage_parse_cmdline exec_ctx cmdline = inr exec_ctx' /\
        ExecCtx.mem_limit exec_ctx' =
          Z.shiftl (fst (strtoul (str_advance 4 mem) 0))
                   (mem_unit_shift
                      (deref (snd (strtoul (str_advance 4 mem) 0))))) /\
  (forall exec_ctx : ExecCtx.t,
      option_map ExecCtx.mem_limit
        (match bzimage_parse_cmdline exec_ctx "mem=4k" with
         | inr c => Some c | inl _ => None end) = Some 4096 /\
      option_map ExecCtx.mem_limit
        (match bzimage_parse_cmdline exec_ctx "mem=1m" with
         | inr c => Some c | inl _ => None end) = Some 1048576 /\
      option_map ExecCtx.mem_limit
        (match bzimage_parse_cmdline exec_ctx "mem=1g" with
         | inr c => Some c | inl _ => None end) = Some 1073741824).
Proof.
  split.
  - intros exec_ctx cmdline mem Hmem.
    unfold bzimage_parse_cmdline. rewrite Hmem.
    pose proof (strtoul_range (str_advance 4 mem) 0) as Hv.
    destruct (strtoul (str_advance 4 mem) 0) as [value rest].
    cbn [fst snd] in *.
    eexists. split; [reflexivity|].
    cbn [ExecCtx.set_mem_limit ExecCtx.mem_limit].
    unfold mem_unit_shift.
    pose proof (shiftl_10_u64 value 0) as S0.
    pose proof (shiftl_10_u64 value 10) as S1.
    pose proof (shiftl_10_u64 value 20) as S2.
    rewrite Z.shiftl_0_r in S0.
    destruct (is_char (deref rest) "g" "G");
      [|destruct (is_char (deref rest) "m" "M");
        [|destruct (is_char (deref rest) "k" "K")]];
      cbn [orb].
    + rewrite S0 by lia. change (0 + 10) with 10.
      rewrite S1 by lia. change (10 + 10) with 20.
      rewrite S2 by lia. reflexivity.
    + rewrite S0 by lia. change (0 + 10) with 10.
      rewrite S1 by lia. reflexivity.
    + rewrite S0 by lia. reflexivity.
    + rewrite Z.shiftl_0_r. reflexivity.
  - intros exec_ctx. repeat split; vm_compute; reflexivity.
Qed.

Lemma char_code_inj (c d : ascii) : char_code c = char_code d -> c = d.
Proof.
  unfold char_code. intros H. apply Nat2Z.inj in H.
  rewrite <- (ascii_nat_embedding c), <- (ascii_nat_embedding d).
  now rewrite H.
Qed.

Lemma strcmp_eq_iff (a b : string) :
  nul_free a = true -> nul_free b = true -> (strcmp a b = 0 <-> a = b).
Proof.
  revert b. induction a as [|c a IH]; intros [|d b] Ha Hb; cbn [strcmp].
  - split; reflexivity.
  - cbn [nul_free] in Hb. apply andb_prop in Hb as [Hd _].
    split; [|discriminate]. intros H.
    assert (d = zero) by (apply char_code_inj; vm_compute (char_code zero); lia).
    subst d. discriminate.
  - cbn [nul_free] in Ha. apply andb_prop in Ha as [Hc _].
    split; [|discriminate]. intros H.
    assert (c = zero) by (apply char_code_inj; vm_compute (char_code zero); lia).
    subst c. discriminate.
  - cbn [nul_free] in Ha, Hb.
    apply andb_prop in Ha as [_ Ha]. apply andb_prop in Hb as [_ Hb].
    destruct (Ascii.eqb_spec c d) as [->|Hne].
    + rewrite (IH b Ha Hb). split; [intros ->; reflexivity | congruence].
    + split; [|congruence]. intros H. exfalso. apply Hne.
      apply char_code_inj. lia.
Qed.

Lemma strstr_nul_free (needle haystack found : string) :
  nul_free haystack = true -> strstr haystack needle = Some found ->
  nul_free found = true.
Proof.
  revert found. induction haystack as [|c r IH]; intros found Hn;
    cbn [strstr]; destruct (String.prefix needle _).
  - congruence.
  - discriminate.
  - congruence.
  - cbn [nul_free] in Hn. apply andb_prop in Hn as [_ Hn]. now apply IH.
Qed.

Lemma str_advance_nul_free (n : nat) (p : string) :
  nul_free p = true -> nul_free (str_advance n p) = true.
Proof.
  revert p. induction n as [|n IH]; intros [|c r] Hp; cbn [str_advance];
    try assumption.
  cbn [nul_free] in Hp. apply andb_prop in Hp as [_ Hp]. now apply IH.
Qed.

(** C9 (as amended).  After the first [vga=] of a command line the
    literals normal, ext and ask are recognised exactly when they are the
    whole remainder of the string; any other remainder is parsed by
    [strtoul] in base 16.  So when normal, ext or ask is followed by
    further characters the video mode is 0 for normal (n is no
    hexadecimal digit), but 0xe for ext and 0xa for ask, whose first
    letter is a hexadecimal digit. *)
Theorem bzimage_parse_cmdline_vga
  (exec_ctx : ExecCtx.t) (cmdline vga : string) :
  nul_free cmdline = true ->
  strstr cmdline "vga=" = Some vga ->
  let arg := str_advance 4 vga in
  exists exec_ctx',
    bzimage_parse_cmdline exec_ctx cmdline = inr exec_ctx' /\
    (arg = "normal"%string ->
     ExecCtx.vid_mode exec_ctx' = BZI_VID_MODE_NORMAL) /\
    (arg = "ext"%string -> ExecCtx.vid_mode exec_ctx' = BZI_VID_MODE_EXT) /\
    (arg = "ask"%string -> ExecCtx.vid_mode exec_ctx' = BZI_VID_MODE_ASK) /\
    (arg <> "normal"%string -> arg <> "ext"%string -> arg <> "ask"%string ->
     ExecCtx.vid_mode exec_ctx' = fst (strtoul arg 16)) /\
    (forall c more, arg = ("normal" ++ String c more)%string ->
                    ExecCtx.vid_mode exec_ctx' = 0) /\
    (forall c more, arg = ("ext" ++ String c more)%string ->
                    ExecCtx.vid_mode exec_ctx' = 0xe) /\
    (forall c more, arg = ("ask" ++ String c more)%string ->
                    ExecCtx.vid_mode exec_ctx' = 0xa).
Proof.
  intros Hnf Hvga arg.
  assert (Harg : nul_free arg = true).
  { apply str_advance_nul_free. eapply strstr_nul_free; eassumption. }
  pose proof (strcmp_eq_iff arg "normal" Harg eq_refl) as Hn.
  pose proof (strcmp_eq_iff arg "ext" Harg eq_refl) as He.
  pose proof (strcmp_eq_iff arg "ask" Harg eq_refl) as Ha.
  assert (Hvid :
    exists exec_ctx',
      bzimage_parse_cmdline exec_ctx cmdline = inr exec_ctx' /\
      ExecCtx.vid_mode exec_ctx' =
        if strcmp arg "normal" =? 0 then BZI_VID_MODE_NORMAL
        else if strcmp arg "ext" =? 0 then BZI_VID_MODE_EXT
        else if strcmp arg "ask" =? 0 then BZI_VID_MODE_ASK
        else fst (strtoul arg 16)).
  { unfold bzimage_parse_cmdline. rewrite Hvga. fold arg.
    eexists. split; [reflexivity|].
    destruct (strstr cmdline "mem=") as [mem|].
    - destruct (strtoul (str_advance 4 mem) 0) as [value rest].
      cbn [ExecCtx.set_mem_limit ExecCtx.vid_mode].
      destruct (strcmp arg "normal" =? 0); [reflexivity|].
      destruct (strcmp arg "ext" =? 0); [reflexivity|].
      destruct (strcmp arg "ask" =? 0); reflexivity.
    - destruct (strcmp arg "normal" =? 0); [reflexivity|].
      destruct (strcmp arg "ext" =? 0); [reflexivity|].
      destruct (strcmp arg "ask" =? 0); reflexivity. }
  destruct Hvid as [exec_ctx' [Hrun Hvid]].
  exists exec_ctx'. split; [exact Hrun|].
  rewrite Hvid. clear Hvid Hrun.
  assert (Other : arg <> "normal"%string -> arg <> "ext"%string ->
                  arg <> "ask"%string ->
                  (if strcmp arg "normal" =? 0 then BZI_VID_MODE_NORMAL
                   else if strcmp arg "ext" =? 0 then BZI_VID_MODE_EXT
                   else if strcmp arg "ask" =? 0 then BZI_VID_MODE_ASK
                   else fst (strtoul arg 16)) = fst (strtoul arg 16)).
  { intros N1 N2 N3.
    destruct (Z.eqb_spec (strcmp arg "normal") 0) as [E|_];
      [apply Hn in E; contradiction|].
    destruct (Z.eqb_spec (strcmp arg "ext") 0) as [E|_];
      [apply He in E; contradiction|].
    destruct (Z.eqb_spec (strcmp arg "ask") 0) as [E|_];
      [apply Ha in E; contradiction|].
    reflexivity. }
  repeat match goal with |- _ /\ _ => split end.
  - intros ->. reflexivity.
  - intros ->. reflexivity.
  - intros ->. reflexivity.
  - exact Other.
  - intros c more E. rewrite Other by (rewrite E; discriminate).
    rewrite E. reflexivity.
  - intros c more E. rewrite Other by (rewrite E; discriminate).
    rewrite E. reflexivity.
  - intros c more E. rewrite Other by (rewrite E; discriminate).
    rewrite E. reflexivity.
Qed.

Lemma bzimage_parse_cmdline_vga_witness :
  exists exec_ctx',
    bzimage_parse_cmdline ExecCtx.zero "vga=normal quiet" = inr exec_ctx' /\
    ExecCtx.vid_mode exec_ctx' = 0.
Proof.
  destruct (bzimage_parse_cmdline_vga ExecCtx.zero "vga=normal quiet"
              "vga=normal quiet" eq_refl eq_refl)
    as [exec_ctx' [Hrun [_ [_ [_ [_ [Hnormal _]]]]]]].
  exists exec_ctx'. split; [exact Hrun|].
  apply (Hnormal " "%char "quiet"%string). reflexivity.
Defined.

(** C9 as stated fails: in [vga=ext quiet] the literal ext is followed by
    further characters and the remainder is no hexadecimal number, yet
    the video mode is 14 and not 0, because [strtoul] reads the leading
    e as a digit. *)
Lemma bzimage_parse_cmdline_vga_ext_counterexample :
  match bzimage_parse_cmdline ExecCtx.zero "vga=ext quiet" with
  | inr exec_ctx' =>
      ExecCtx.vid_mode exec_ctx' = 14 /\ ExecCtx.vid_mode exec_ctx' <> 0
  | inl _ => False
  end.
Proof.
  vm_compute. split; [reflexivity | discriminate].
Qed.

Lemma cstring_bytes_length (s : string) :
  Z.of_nat (List.length (cstring_bytes s)) = strlen s + 1.
Proof.
  unfold cstring_bytes, strlen.
  rewrite length_app, length_map. cbn [List.length].
  assert (H : List.length (list_ascii_of_string s) = String.length s).
  { induction s as [|c r IH]; cbn; [reflexivity | now rewrite IH]. }
  rewrite H. lia.
Qed.

Lemma nul_free_bytes (s : string) :
  nul_free s = true -> ~ In x00 (map byte_of_ascii (list_ascii_of_string s)).
Proof.
  induction s as [|c r IH]; cbn [nul_free list_ascii_of_string map In].
  - intros _ [].
  - intros H. apply andb_prop in H as [Hc Hr].
    intros [Hz|Hin]; [|exact (IH Hr Hin)].
    assert (c = zero).
    { rewrite <- (ascii_of_byte_of_ascii c), Hz. reflexivity. }
    subst c. discriminate.
Qed.

(** X2.  [bzimage_set_cmdline] on any command line: it succeeds, and the
    bytes it leaves at the command-line offset are the first
    min (strlen + 1, BZI_CMDLINE_SIZE) bytes of the terminated string;
    the terminator is among them exactly when the command line is
    shorter than [BZI_CMDLINE_SIZE]. *)
Lemma bzimage_set_cmdline_bytes (m : mem) (exec_ctx : ExecCtx.t)
  (cmdline : string) :
  strlen cmdline + 1 < 2 ^ 32 ->
  let n := Z.to_nat (Z.min (strlen cmdline + 1) BZI_CMDLINE_SIZE) in
  let r := bzimage_set_cmdline m exec_ctx cmdline in
  fst r = inr tt /\
  copy_from_user (snd r) (ExecCtx.rm_kernel exec_ctx)
    (ExecCtx.rm_cmdline exec_ctx) n = firstn n (cstring_bytes cmdline) /\
  (nul_free cmdline = true ->
   (In x00 (firstn n (cstring_bytes cmdline)) <->
    strlen cmdline < BZI_CMDLINE_SIZE)).
Proof.
  intros Hlen n r.
  assert (Hpos : 0 <= strlen cmdline) by (unfold strlen; lia).
  pose proof (cstring_bytes_length cmdline) as Hbytes.
  assert (Hn : Z.to_nat
                 (if BZI_CMDLINE_SIZE <? u32 (strlen cmdline + 1)
                  then BZI_CMDLINE_SIZE else u32 (strlen cmdline + 1)) = n).
  { rewrite u32_small by lia. subst n. f_equal.
    destruct (Z.ltb_spec BZI_CMDLINE_SIZE (strlen cmdline + 1)); lia. }
  assert (Hfirst : List.length (firstn n (cstring_bytes cmdline)) = n).
  { rewrite length_firstn. subst n. lia. }
  split; [reflexivity|]. split.
  - subst r. unfold bzimage_set_cmdline. cbn [snd]. rewrite Hn.
    pose proof (copy_from_user_written m (ExecCtx.rm_kernel exec_ctx)
                  (ExecCtx.rm_cmdline exec_ctx)
                  (firstn n (cstring_bytes cmdline))) as W.
    rewrite Hfirst in W. exact W.
  - intros Hnf. pose proof (nul_free_bytes cmdline Hnf) as Hno.
    assert (Hchars :
      Z.of_nat (List.length (map byte_of_ascii (list_ascii_of_string cmdline)))
      = strlen cmdline).
    { unfold cstring_bytes in Hbytes. rewrite length_app in Hbytes.
      cbn [List.length] in Hbytes. lia. }
    unfold cstring_bytes. split.
    + intros Hin.
      destruct (Z.lt_ge_cases (strlen cmdline) BZI_CMDLINE_SIZE) as [?|Hge];
        [assumption|].
      exfalso. rewrite firstn_app in Hin.
      replace (n - List.length
                     (map byte_of_ascii (list_ascii_of_string cmdline)))%nat
        with 0%nat in Hin by (subst n; lia).
      cbn [firstn] in Hin. rewrite app_nil_r in Hin.
      apply Hno.
      rewrite <- (firstn_skipn n
                    (map byte_of_ascii (list_ascii_of_string cmdline))).
      apply in_or_app. left. exact Hin.
    + intros Hlt. rewrite firstn_all2.
      * apply in_or_app. right. left. reflexivity.
      * rewrite length_app. cbn [List.length]. subst n. lia.
Qed.

(** C8 (the code at the failing input).  For the 256-character command
    line [bzimage_set_cmdline] succeeds and writes exactly 256 bytes at
    the command-line offset of the real-mode segment, which is
    min (strlen + 1, BZI_CMDLINE_SIZE); every one of them is the
    character a, so the NUL terminator is not among the copied bytes.
    Memory starts out as 0xff everywhere to make the written range
    visible. *)
Theorem bzimage_set_cmdline_truncated_no_nul :
  let exec_ctx := ExecCtx.mk 0x1000 0x10000 0x1a00 0x1a00 0 0 0 0 in
  let m := fun _ : Z => xff in
  let m' := snd (bzimage_set_cmdline m exec_ctx long_cmdline) in
  strlen long_cmdline = 256 /\
  nul_free long_cmdline = true /\
  fst (bzimage_set_cmdline m exec_ctx long_cmdline) = inr tt /\
  copy_from_user m' 0x10000 0x1a00 256 = repeat x61 256 /\
  existsb (Byte.eqb x00) (copy_from_user m' 0x10000 0x1a00 256) = false /\
  m' (0x10000 + 0x1a00 - 1) = xff /\
  m' (0x10000 + 0x1a00 + 256) = xff.
Proof.
  intros exec_ctx m m'.
  split; [vm_compute; reflexivity|].
  split; [vm_compute; reflexivity|].
  split; [reflexivity|].
  split; [vm_compute; reflexivity|].
  split; [vm_compute; reflexivity|].
  split; vm_compute; reflexivity.
Qed.

(** ** Initrd relocator *)

Lemma candidate_succ (start : Z) (k : nat) :
  candidate (start - 0x100000) k = candidate start (S k).
Proof. unfold candidate. rewrite Nat2Z.inj_succ. lia. Qed.

Section Relocation.

Variable chk : Z -> Z -> Z -> option errno.
Variable clr : mem -> Z -> Z -> Z -> mem.
Variable m : mem.
Variables img initrd : image.
Variable ceiling : Z.

Hypothesis initrd_len_pos : 0 <= len initrd.
Hypothesis kernel_len_pos : 0 <= len img.
Hypothesis bound_no_wrap : exclusion_bound img < 2 ^ 32.

(** The search loop started at [start]: with fuel for every MiB below
    [start] it ends, either at the first placeable candidate, with the
    initrd copied there, or with [ENOBUFS] when no candidate is
    placeable. *)
Lemma bzimage_load_initrd_search_spec (fuel : nat) :
  forall start : Z,
    0 <= start -> start + len initrd < 2 ^ 32 ->
    start / 0x100000 < Z.of_nat fuel ->
    (exists n : nat,
        placeable chk img initrd ceiling (candidate start n) /\
        (forall i : nat, (i < n)%nat ->
           ~ placeable chk img initrd ceiling (candidate start i)) /\
        bzimage_load_initrd_search chk clr fuel m img ceiling initrd start
          = Some (inr (candidate start n,
                       relocated clr m initrd (candidate start n)))) \/
    ((forall n : nat,
         ~ placeable chk img initrd ceiling (candidate start n)) /\
     bzimage_load_initrd_search chk clr fuel m img ceiling initrd start
       = Some (inl ENOBUFS)).
Proof.
  induction fuel as [|fuel IH]; intros start Hpos Htop Hfuel.
  - exfalso. assert (0 <= start / 0x100000) by (apply Z.div_pos; lia).
    simpl in Hfuel. lia.
  - cbn [bzimage_load_initrd_search].
    fold (exclusion_bound img). rewrite (u32_small (exclusion_bound img))
      by (unfold exclusion_bound, BZI_LOAD_HIGH_ADDR in *; lia).
    destruct (Z.leb_spec start (exclusion_bound img)) as [Hlow|Hhigh].
    { right. split; [|reflexivity].
      intros n [Hb _]. unfold candidate in Hb. lia. }
    rewrite (u32_small (start + len initrd)) by lia.
    assert (Hstep : 0x100000 <= start)
      by (unfold exclusion_bound, BZI_LOAD_HIGH_ADDR in *; lia).
    rewrite (u32_small (start - 0x100000)) by lia.
    assert (Hfuel' : (start - 0x100000) / 0x100000 < Z.of_nat fuel).
    { replace (start - 0x100000) with (start + (-1) * 0x100000) by lia.
      rewrite Z.div_add by lia. lia. }
    assert (Hrec :
      ~ placeable chk img initrd ceiling start ->
      (exists n : nat,
        placeable chk img initrd ceiling (candidate start n) /\
        (forall i : nat, (i < n)%nat ->
           ~ placeable chk img initrd ceiling (candidate start i)) /\
        bzimage_load_initrd_search chk clr fuel m img ceiling initrd
          (start - 0x100000)
          = Some (inr (candidate start n,
                       relocated clr m initrd (candidate start n)))) \/
      ((forall n : nat,
         ~ placeable chk img initrd ceiling (candidate start n)) /\
       bzimage_load_initrd_search chk clr fuel m img ceiling initrd
         (start - 0x100000) = Some (inl ENOBUFS))).
    { intros Hnot.
      assert (H0 : candidate start 0 = start) by (unfold candidate; simpl; lia).
      destruct (IH (start - 0x100000)) as [[n [Hp [Hbefore Hrun]]]|[Hnone Hrun]];
        try lia.
      - left. exists (S n). rewrite <- candidate_succ.
        split; [exact Hp|]. split; [|exact Hrun].
        intros [|i] Hi; [rewrite H0; exact Hnot|].
        rewrite <- candidate_succ. apply Hbefore. lia.
      - right. split; [|exact Hrun].
        intros [|n]; [rewrite H0; exact Hnot|].
        rewrite <- candidate_succ. apply Hnone. }
    destruct (Z.ltb_spec ceiling (start + len initrd)) as [Hover|Hfit].
    { apply Hrec. intros [_ [Hf _]]. lia. }
    unfold prep_segment, phys_to_user.
    destruct (chk start (len initrd) (len initrd)) as [e|] eqn:Hchk.
    { apply Hrec. intros [_ [_ Hc]]. congruence. }
    left. exists 0%nat.
    assert (H0 : candidate start 0 = start) by (unfold candidate; simpl; lia).
    rewrite H0. split; [repeat split; assumption|].
    split; [intros i Hi; lia | reflexivity].
Qed.

End Relocation.

Lemma search_fuel (start : Z) (fuel : nat) :
  0 <= start < 2 ^ 32 -> (4096 <= fuel)%nat ->
  start / 0x100000 < Z.of_nat fuel.
Proof.
  intros Hs Hf. apply Z.lt_le_trans with 4096; [|lia].
  apply Z.div_lt_upper_bound; [lia|].
  change (0x100000 * 4096) with (2 ^ 32). lia.
Qed.

(** C2.  The initrd buffer lies in the 32-bit physical address space
    and the exclusion bound is below 4 GiB.  If the initrd fits under the
    ceiling where it is, [bzimage_load_initrd] records that location and
    memory is unchanged.  Otherwise, if some address that lies a positive
    number of MiB below the buffer is placeable (above the exclusion
    bound, fitting under the ceiling, accepted by [prep_segment]), the
    relocator picks such an address below the buffer, copies the initrd
    there and records it: when preparing that segment, whose memory size
    is its file size, clears nothing, the bytes at the new address are
    the bytes of the initrd's buffer and no byte outside the new range
    has changed.  And if no such address is placeable it returns
    [ENOBUFS] with memory as it was and no context produced. *)
Theorem bzimage_load_initrd_placement
  (chk : Z -> Z -> Z -> option errno) (clr : mem -> Z -> Z -> Z -> mem)
  (fuel : nat) (m : mem) (img initrd : image) (exec_ctx : ExecCtx.t) :
  0 <= data initrd -> 0 <= len initrd ->
  data initrd + len initrd < 2 ^ 32 ->
  0 <= len img -> exclusion_bound img < 2 ^ 32 ->
  (4096 <= fuel)%nat ->
  let S := data initrd in
  let L := len initrd in
  let C := ExecCtx.mem_limit exec_ctx in
  (S + L <= C ->
   bzimage_load_initrd chk clr fuel m img exec_ctx initrd
     = Some (inr (ExecCtx.set_ramdisk exec_ctx S L), m)) /\
  (C < S + L ->
   (exists k, (1 <= k)%nat /\ placeable chk img initrd C (candidate S k)) ->
   exists k,
     (1 <= k)%nat /\ candidate S k < S /\
     placeable chk img initrd C (candidate S k) /\
     bzimage_load_initrd chk clr fuel m img exec_ctx initrd
       = Some (inr (ExecCtx.set_ramdisk exec_ctx (candidate S k) L),
               relocated clr m initrd (candidate S k)) /\
     ((forall a, clr m (candidate S k) L L a = m a) ->
      (forall i, 0 <= i < L ->
         relocated clr m initrd (candidate S k) (candidate S k + i)
         = m (S + i)) /\
      (forall a, a < candidate S k \/ candidate S k + L <= a ->
         relocated clr m initrd (candidate S k) a = m a))) /\
  (C < S + L ->
   (forall k, (1 <= k)%nat -> ~ placeable chk img initrd C (candidate S k)) ->
   bzimage_load_initrd chk clr fuel m img exec_ctx initrd
     = Some (inl ENOBUFS, m)).
Proof.
  intros HS HL Hbuf Hk HB Hfuel S L C.
  assert (Hstart : user_to_phys (data initrd) 0 = S).
  { unfold user_to_phys. rewrite Z.add_0_r. apply u32_small. lia. }
  assert (H0 : candidate S 0 = S) by (unfold candidate; simpl; lia).
  assert (Hnot0 : C < S + L -> ~ placeable chk img initrd C (candidate S 0)).
  { intros Hover [_ [Hfit _]]. rewrite H0 in Hfit. fold L in Hfit. lia. }
  assert (HS32 : 0 <= S < 2 ^ 32) by (subst S; lia).
  pose proof (bzimage_load_initrd_search_spec chk clr m img initrd C
                HL Hk HB fuel S HS Hbuf
                (search_fuel S fuel HS32 Hfuel)) as Hspec.
  unfold bzimage_load_initrd. rewrite Hstart. fold S L C.
  rewrite (u32_small (S + L)) by (subst S L; lia).
  split; [|split].
  - intros Hfit. destruct (Z.leb_spec (S + L) C); [reflexivity | lia].
  - intros Hover Hsome.
    destruct (Z.leb_spec (S + L) C); [lia|].
    destruct Hspec as [[n [Hp [Hbefore Hrun]]]|[Hnone _]].
    + exists n. destruct n as [|n]; [exfalso; now apply (Hnot0 Hover)|].
      split; [lia|]. split; [unfold candidate; lia|].
      split; [exact Hp|]. split; [rewrite Hrun; reflexivity|].
      intros Hclr. unfold relocated. fold S L. split.
      * intros i Hi.
        replace (candidate S (Datatypes.S n) + i)
          with (candidate S (Datatypes.S n) + 0 + i) by lia.
        rewrite memcpy_user_inside by exact Hi.
        rewrite Hclr. f_equal. lia.
      * intros a Ha.
        rewrite memcpy_user_outside by lia. apply Hclr.
    + exfalso. destruct Hsome as [k [_ Hp]]. exact (Hnone k Hp).
  - intros Hover Hnone.
    destruct (Z.leb_spec (S + L) C); [lia|].
    destruct Hspec as [[n [Hp _]]|[_ Hrun]].
    + exfalso. destruct n as [|n]; [now apply (Hnot0 Hover)|].
      apply (Hnone (Datatypes.S n)); [lia | exact Hp].
    + rewrite Hrun. reflexivity.
Qed.

Lemma bzimage_load_initrd_placement_witness :
  exists k,
    placed_at (bzimage_load_initrd (ram_check 0x80000000) zero_tail 4096
                 initrd_mem small_kernel low_ceiling_ctx odd_initrd)
    = Some (candidate 0x40000400 k) /\
    relocated zero_tail initrd_mem odd_initrd (candidate 0x40000400 k)
      (candidate 0x40000400 k + 1) = xff.
Proof.
  pose proof (bzimage_load_initrd_placement (ram_check 0x80000000) zero_tail
                4096 initrd_mem small_kernel odd_initrd low_ceiling_ctx)
    as H.
  cbv zeta in H.
  assert (H1 : 0 <= data odd_initrd) by (vm_compute; discriminate).
  assert (H2 : 0 <= len odd_initrd) by (vm_compute; discriminate).
  assert (H3 : data odd_initrd + len odd_initrd < 2 ^ 32)
    by (vm_compute; reflexivity).
  assert (H4 : 0 <= len small_kernel) by (vm_compute; discriminate).
  assert (H5 : exclusion_bound small_kernel < 2 ^ 32)
    by (vm_compute; reflexivity).
  assert (Hsrc : initrd_mem (data odd_initrd + 1) = xff)
    by (vm_compute; reflexivity).
  assert (Hin : 0 <= 1 < len odd_initrd)
    by (split; [vm_compute; discriminate | vm_compute; reflexivity]).
  specialize (H H1 H2 H3 H4 H5 (le_n 4096)).
  destruct H as [_ [Hmove _]].
  destruct Hmove as [k [_ [_ [_ [Hrun Hcopy]]]]].
  - vm_compute. reflexivity.
  - exists 129%nat. split; [apply le_n_S, Nat.le_0_l|].
    split; [vm_compute; reflexivity|].
    split; [vm_compute; discriminate | vm_compute; reflexivity].
  - exists k. split; [rewrite Hrun; reflexivity|].
    destruct (Hcopy (fun a => zero_tail_same initrd_mem _ _ a))
      as [Hbytes _].
    change (candidate 0x40000400 k) with (candidate (data odd_initrd) k).
    rewrite (Hbytes 1 Hin). exact Hsrc.
Defined.

(** C6 (as amended).  When the initrd does not fit under the ceiling
    where it is, the relocator searches candidate start addresses
    downward from the initrd's own location, in steps of 1 MiB.  The
    address it settles on lies above the exclusion bound, fits under the
    ceiling and is accepted by [prep_segment]; every candidate before it
    is above the bound and was rejected, because its range does not fit
    under the ceiling or because its segment was refused.  When the
    search fails it returns [ENOBUFS], and then every candidate above the
    exclusion bound was rejected in this way. *)
Theorem bzimage_load_initrd_search_order
  (chk : Z -> Z -> Z -> option errno) (clr : mem -> Z -> Z -> Z -> mem)
  (fuel : nat) (m : mem) (img initrd : image) (exec_ctx : ExecCtx.t) :
  0 <= data initrd -> 0 <= len initrd ->
  data initrd + len initrd < 2 ^ 32 ->
  0 <= len img -> exclusion_bound img < 2 ^ 32 ->
  (4096 <= fuel)%nat ->
  let S := data initrd in
  let L := len initrd in
  let C := ExecCtx.mem_limit exec_ctx in
  let rejected s := C < s + L \/ chk s L L <> None in
  C < S + L ->
  match bzimage_load_initrd chk clr fuel m img exec_ctx initrd with
  | Some (inr exec_ctx', _) =>
      exists k,
        (1 <= k)%nat /\
        ExecCtx.ramdisk_image exec_ctx' = candidate S k /\
        exclusion_bound img < candidate S k /\
        candidate S k + L <= C /\
        chk (candidate S k) L L = None /\
        forall i, (i < k)%nat ->
          exclusion_bound img < candidate S i /\ rejected (candidate S i)
  | Some (inl e, _) =>
      e = ENOBUFS /\
      forall i, exclusion_bound img < candidate S i ->
                rejected (candidate S i)
  | None => False
  end.
Proof.
  intros HS HL Hbuf Hk HB Hfuel S L C rejected Hover.
  assert (Hstart : user_to_phys (data initrd) 0 = S).
  { unfold user_to_phys. rewrite Z.add_0_r. apply u32_small. lia. }
  assert (Hrej : forall s, exclusion_bound img < s ->
                           ~ placeable chk img initrd C s -> rejected s).
  { intros s Hb Hnp. unfold rejected.
    destruct (Z.lt_ge_cases C (s + L)) as [?|Hfit]; [left; assumption|].
    right. intros Hc. apply Hnp. repeat split; assumption. }
  assert (HS32 : 0 <= S < 2 ^ 32) by (subst S; lia).
  pose proof (bzimage_load_initrd_search_spec chk clr m img initrd C
                HL Hk HB fuel S HS Hbuf
                (search_fuel S fuel HS32 Hfuel)) as Hspec.
  unfold bzimage_load_initrd. rewrite Hstart. fold S L C.
  rewrite (u32_small (S + L)) by (subst S L; lia).
  destruct (Z.leb_spec (S + L) C); [lia|].
  destruct Hspec as [[n [Hp [Hbefore Hrun]]]|[Hnone Hrun]]; rewrite Hrun.
  - exists n. destruct Hp as [Hb [Hfit Hc]].
    destruct n as [|n].
    { exfalso. unfold candidate in Hfit. simpl in Hfit. fold L in Hfit. lia. }
    split; [lia|]. split; [reflexivity|]. split; [exact Hb|].
    split; [exact Hfit|]. split; [exact Hc|].
    intros i Hi.
    assert (Hbi : exclusion_bound img < candidate S i)
      by (unfold candidate in *; lia).
    split; [exact Hbi|]. apply Hrej; [exact Hbi | now apply Hbefore].
  - split; [reflexivity|]. intros i Hb. apply Hrej; [exact Hb | apply Hnone].
Qed.

Lemma bzimage_load_initrd_search_order_witness :
  exists k,
    (1 <= k)%nat /\
    placed_at (bzimage_load_initrd (ram_check 0x80000000) zero_tail 4096
                 (fun _ => x00) small_kernel low_ceiling_ctx odd_initrd)
    = Some (candidate (data odd_initrd) k).
Proof.
  pose proof (bzimage_load_initrd_search_order (ram_check 0x80000000)
                zero_tail 4096 (fun _ => x00) small_kernel odd_initrd
                low_ceiling_ctx) as H.
  cbv zeta in H.
  assert (H1 : 0 <= data odd_initrd) by (vm_compute; discriminate).
  assert (H2 : 0 <= len odd_initrd) by (vm_compute; discriminate).
  assert (H3 : data odd_initrd + len odd_initrd < 2 ^ 32)
    by (vm_compute; reflexivity).
  assert (H4 : 0 <= len small_kernel) by (vm_compute; discriminate).
  assert (H5 : exclusion_bound small_kernel < 2 ^ 32)
    by (vm_compute; reflexivity).
  assert (H6 : ExecCtx.mem_limit low_ceiling_ctx
               < data odd_initrd + len odd_initrd)
    by (vm_compute; reflexivity).
  specialize (H H1 H2 H3 H4 H5 (le_n 4096) H6).
  assert (Hrun : placed_at
            (bzimage_load_initrd (ram_check 0x80000000) zero_tail 4096
               (fun _ => x00) small_kernel low_ceiling_ctx odd_initrd)
          <> None) by (vm_compute; discriminate).
  destruct (bzimage_load_initrd (ram_check 0x80000000) zero_tail 4096
              (fun _ => x00) small_kernel low_ceiling_ctx odd_initrd)
    as [[[e|exec_ctx'] m']|].
  - exfalso. apply Hrun. reflexivity.
  - destruct H as [k [Hk [Himg _]]].
    exists k. split; [exact Hk|]. cbn [placed_at]. rewrite Himg. reflexivity.
  - exfalso. apply Hrun. reflexivity.
Defined.

(** C6 as stated fails: with the ceiling at 0x38000000 the initrd is
    moved to 0x37f00400, which is 129 MiB below its own location
    0x40000400; neither this address nor the end of the range lies a
    whole number of MiB below the ceiling. *)
Lemma bzimage_load_initrd_from_ceiling_counterexample :
  let ceiling := ExecCtx.mem_limit low_ceiling_ctx in
  placed_at (bzimage_load_initrd (ram_check 0x80000000) zero_tail 4096
               (fun _ => x00) small_kernel low_ceiling_ctx odd_initrd)
    = Some 0x37f00400 /\
  ceiling < data odd_initrd + len odd_initrd /\
  0x37f00400 = candidate (data odd_initrd) 129 /\
  (ceiling - 0x37f00400) mod 0x100000 <> 0 /\
  (ceiling - (0x37f00400 + len odd_initrd)) mod 0x100000 <> 0.
Proof.
  intros ceiling.
  split; [vm_compute; reflexivity|].
  split; [vm_compute; reflexivity|].
  split; [vm_compute; reflexivity|].
  split; vm_compute; discriminate.
Qed.

(** ** Execution *)

Lemma bzimage_load_initrd_error_mem
  (chk : Z -> Z -> Z -> option errno) (clr : mem -> Z -> Z -> Z -> mem)
  (fuel : nat) (m : mem) (img initrd : image) (exec_ctx : ExecCtx.t)
  (e : errno) (m' : mem) :
  bzimage_load_initrd chk clr fuel m img exec_ctx initrd = Some (inl e, m') ->
  m' = m.
Proof.
  unfold bzimage_load_initrd.
  destruct (_ <=? _); [discriminate|].
  destruct (bzimage_load_initrd_search _ _ _ _ _ _ _ _) as [[e'|[s m1]]|];
    intros H; inversion H; reflexivity.
Qed.

(** C5.  When an initrd image is registered and its placement fails with
    [ENOBUFS], [bzimage_exec] returns [ENOBUFS] to its caller: it does
    not jump, [shutdown] has not been called, and memory is as
    [bzimage_set_cmdline] left it, so the header has not been written
    back into the loaded segment. *)
Theorem bzimage_exec_initrd_enobufs
  (chk : Z -> Z -> Z -> option errno) (clr : mem -> Z -> Z -> Z -> mem)
  (fuel : nat) (images : list image) (w : world) (img initrd : image)
  (exec_ctx : ExecCtx.t) :
  let cmdline :=
    match cmdline img with Some c => c | None => ""%string end in
  let m1 := snd (bzimage_set_cmdline (w_mem w) exec_ctx cmdline) in
  find image_is_initrd images = Some initrd ->
  bzimage_parse_cmdline (fst (bzimage_exec_init (w_mem w) img)) cmdline
    = inr exec_ctx ->
  option_map fst (bzimage_load_initrd chk clr fuel m1 img exec_ctx initrd)
    = Some (inl ENOBUFS) ->
  bzimage_exec chk clr fuel images w img
    = Some (Returned ENOBUFS (mk_world m1 (w_shutdowns w))).
Proof.
  intros cmdline m1 Hfind Hparse Hinitrd.
  unfold bzimage_exec. fold cmdline.
  destruct (bzimage_exec_init (w_mem w) img) as [exec_ctx0 bzhdr].
  cbn [fst] in Hparse. rewrite Hparse.
  unfold bzimage_set_cmdline in *. cbn [snd] in m1. fold m1.
  rewrite Hfind.
  destruct (bzimage_load_initrd chk clr fuel m1 img exec_ctx initrd)
    as [[[e|c] m2]|] eqn:Hrun; cbn [option_map fst] in Hinitrd;
    try discriminate.
  injection Hinitrd as ->.
  apply bzimage_load_initrd_error_mem in Hrun. subst m2. reflexivity.
Qed.

Lemma bzimage_exec_initrd_enobufs_witness :
  let chk := ram_check 0x200000 in
  let file := kernel_file 0x37ffffff in
  let loaded :=
    bzimage_load chk zero_tail (mem_with 0x200000 file)
      (sample_image 0x200000 file None) in
  let img := snd (fst loaded) in
  let w := mk_world (snd loaded) 0 in
  exists w',
    bzimage_exec chk zero_tail 1000 [img; high_initrd] w img
      = Some (Returned ENOBUFS w') /\
    w_shutdowns w' = 0%nat.
Proof.
  intros chk file loaded img w.
  pose proof (bzimage_exec_initrd_enobufs chk zero_tail 1000
                [img; high_initrd] w img high_initrd
                (exec_ctx_before_initrd (w_mem w) img)) as H.
  cbv zeta in H.
  eexists. split.
  - apply H.
    + vm_compute. reflexivity.
    + vm_compute. reflexivity.
    + vm_compute. reflexivity.
  - reflexivity.
Defined.

(** The header that [bzimage_write_header] stores keeps the fields that
    execution later reads back: video mode, version and initrd ceiling. *)
Lemma bzimage_write_header_keeps (m : mem) (load_ctx : LoadCtx.t)
  (bzhdr : bzimage_header) :
  List.length bzhdr = Hdr.sizeof ->
  exists bzhdr' m0,
    bzimage_write_header m load_ctx bzhdr
      = (inr bzhdr',
         copy_to_user m0 (LoadCtx.rm_kernel load_ctx) BZI_HDR_OFFSET bzhdr') /\
    List.length bzhdr' = Hdr.sizeof /\
    Hdr.get Hdr.vid_mode bzhdr' = Hdr.get Hdr.vid_mode bzhdr /\
    Hdr.get Hdr.version bzhdr' = Hdr.get Hdr.version bzhdr /\
    Hdr.get Hdr.initrd_addr_max bzhdr' = Hdr.get Hdr.initrd_addr_max bzhdr.
Proof.
  intros Hlen. unfold bzimage_write_header.
  set (h1 := Hdr.set Hdr.type_of_loader BZI_LOADER_TYPE_ETHERBOOT bzhdr).
  assert (L1 : List.length h1 = Hdr.sizeof)
    by (subst h1; rewrite hdr_set_length; rewrite Hlen; cbv; lia).
  assert (K1 : forall f, (Hdr.off f + Hdr.sz f <= 31 \/ 32 <= Hdr.off f)%nat ->
                         Hdr.get f h1 = Hdr.get f bzhdr).
  { intros f Hf. subst h1. apply hdr_get_set_other; [rewrite Hlen; cbv; lia|].
    exact Hf. }
  set (h2 := if 0x0201 <=? Hdr.get Hdr.version h1
             then _ else h1).
  assert (L2 : List.length h2 = Hdr.sizeof).
  { subst h2. destruct (0x0201 <=? _); [|exact L1].
    rewrite !hdr_set_length; try exact L1;
      rewrite ?hdr_set_length; rewrite ?L1; cbv; lia. }
  assert (K2 : forall f, (Hdr.off f + Hdr.sz f <= 31 \/ 59 <= Hdr.off f)%nat ->
                         Hdr.get f h2 = Hdr.get f bzhdr).
  { intros f Hf. subst h2. destruct (0x0201 <=? _); [|apply K1; lia].
    rewrite hdr_get_set_other;
      [|rewrite hdr_set_length; rewrite L1; cbv; lia | cbn; lia].
    rewrite hdr_get_set_other; [|rewrite L1; cbv; lia | cbn; lia].
    apply K1. lia. }
  destruct (0x0202 <=? Hdr.get Hdr.version h2).
  - eexists _, m. split; [reflexivity|].
    split; [rewrite hdr_set_length; rewrite L2; cbv; lia|].
    repeat split;
      (rewrite hdr_get_set_other; [|rewrite L2; cbv; lia | cbn; lia]);
      apply K2; cbn; lia.
  - eexists _, _. split; [reflexivity|].
    split; [rewrite hdr_set_length; rewrite L2; cbv; lia|].
    repeat split;
      (rewrite hdr_get_set_other; [|rewrite L2; cbv; lia | cbn; lia]);
      apply K2; cbn; lia.
Qed.

Lemma bzimage_load_header_ok (m : mem) (img : image)
  (load_ctx0 load_ctx : LoadCtx.t) (bzhdr : bzimage_header) :
  bzimage_load_header m img load_ctx0 = inr (load_ctx, bzhdr) ->
  bzhdr = copy_from_user m (data img) BZI_HDR_OFFSET Hdr.sizeof /\
  LoadCtx.rm_kernel_seg load_ctx = 0x1000 /\
  LoadCtx.rm_kernel load_ctx = 0x10000.
Proof.
  unfold bzimage_load_header. intros H.
  repeat match type of H with
         | (if ?b then _ else _) = _ => destruct b; [discriminate|]
         end.
  injection H as <- <-. repeat split.
Qed.

Lemma bzimage_load_real_ok
  (chk : Z -> Z -> Z -> option errno) (clr : mem -> Z -> Z -> Z -> mem)
  (m m1 : mem) (img : image) (load_ctx load_ctx1 : LoadCtx.t) :
  bzimage_load_real chk clr m img load_ctx = (inr load_ctx1, m1) ->
  LoadCtx.rm_kernel_seg load_ctx1 = LoadCtx.rm_kernel_seg load_ctx /\
  LoadCtx.rm_kernel load_ctx1 = LoadCtx.rm_kernel load_ctx.
Proof.
  unfold bzimage_load_real.
  destruct (prep_segment _ _ _ _ _ _); intros H; [discriminate|].
  injection H as <- _. split; reflexivity.
Qed.

Lemma bzimage_parse_cmdline_empty (exec_ctx : ExecCtx.t) :
  bzimage_parse_cmdline exec_ctx "" = inr exec_ctx.
Proof. reflexivity. Qed.

(** X9.  Loading an image and then executing it with an empty command line
    and no initrd registered: execution reaches the jump, [shutdown]
    has been called once, the video mode is the one of the image's
    header, and the memory ceiling is the 32-bit sum
    [initrd_addr_max + 1] from protocol version 2.03 on and
    [BZI_INITRD_MAX + 1] before. *)
Lemma bzimage_exec_after_load
  (chk : Z -> Z -> Z -> option errno) (clr : mem -> Z -> Z -> Z -> mem)
  (fuel : nat) (images : list image) (n : nat)
  (m m' : mem) (img img' : image) :
  bzimage_load chk clr m img = (inr tt, img', m') ->
  match cmdline img with Some c => c | None => ""%string end = ""%string ->
  find image_is_initrd images = None ->
  let bzhdr := copy_from_user m (data img) BZI_HDR_OFFSET Hdr.sizeof in
  exists seg sp cs exec_ctx w',
    bzimage_exec chk clr fuel images (mk_world m' n) img'
      = Some (Jumped seg sp cs 0 exec_ctx w') /\
    ExecCtx.vid_mode exec_ctx = Hdr.get Hdr.vid_mode bzhdr /\
    ExecCtx.mem_limit exec_ctx =
      (if 0x0203 <=? Hdr.get Hdr.version bzhdr
       then u32 (Hdr.get Hdr.initrd_addr_max bzhdr + 1)
       else BZI_INITRD_MAX + 1) /\
    w_shutdowns w' = S n.
Proof.
  intros Hload Hcmd Hfind bzhdr.
  unfold bzimage_load in Hload.
  destruct (bzimage_load_header m img LoadCtx.zero)
    as [e|[load_ctx h0]] eqn:Hhdr; [discriminate|].
  apply bzimage_load_header_ok in Hhdr as [Hh0 [Hseg Hrm]].
  fold bzhdr in Hh0. subst h0.
  set (img1 := match type img with
               | None => set_type img (Some bzimage_image_type)
               | Some _ => img
               end) in Hload.
  assert (Hcmd1 : cmdline img1 = cmdline img)
    by (subst img1; destruct (type img); reflexivity).
  destruct (bzimage_load_real chk clr m img1 load_ctx)
    as [[e|load_ctx1] m1] eqn:Hreal; [discriminate|].
  apply bzimage_load_real_ok in Hreal as [Hseg1 Hrm1].
  destruct (bzimage_load_non_real chk clr m1 img1 load_ctx1)
    as [[e|u] m2]; [discriminate|].
  destruct (bzimage_write_header_keeps m2 load_ctx1 bzhdr)
    as [bzhdr' [m0 [Hwrite [Hlen [Hvid [Hver Hmax]]]]]];
    [apply copy_from_user_length|].
  rewrite Hwrite in Hload. injection Hload as <- <-.
  rewrite Hrm1, Hrm, Hseg1, Hseg.
  unfold bzimage_exec, bzimage_exec_init.
  cbn [cmdline priv set_priv w_mem w_shutdowns].
  rewrite Hcmd1, Hcmd.
  change (real_to_user (u32 0x1000) 0) with 0x10000.
  rewrite <- Hlen, copy_from_user_written.
  rewrite bzimage_parse_cmdline_empty.
  unfold bzimage_set_cmdline. rewrite Hfind.
  unfold bzimage_exec_boot.
  do 5 eexists. split; [reflexivity|].
  cbn [ExecCtx.vid_mode ExecCtx.mem_limit shutdown w_shutdowns].
  rewrite Hvid, Hver, Hmax. repeat split.
Qed.

(** C7 (the code at the failing input).  The kernel file announces
    version 2.04 and [initrd_addr_max] = 0xffffffff.  It loads, and
    executing it with no command line and no initrd jumps with the
    header's video mode, but with a memory ceiling of 0: the sum
    [initrd_addr_max + 1] is formed in 32 bits and wraps, where the
    claim gives 0x100000000. *)
Theorem bzimage_exec_mem_limit_wraps :
  let file := kernel_file 0xffffffff in
  let img := sample_image 0x200000 file None in
  let m := mem_with 0x200000 file in
  let bzhdr := copy_from_user m (data img) BZI_HDR_OFFSET Hdr.sizeof in
  Hdr.get Hdr.version bzhdr = 0x0204 /\
  Hdr.get Hdr.initrd_addr_max bzhdr = 0xffffffff /\
  cmdline img = None /\
  match bzimage_load (ram_check 0x40000000) zero_tail m img with
  | (inr _, img', m') =>
      match bzimage_exec (ram_check 0x40000000) zero_tail 0 []
              (mk_world m' 0) img' with
      | Some (Jumped _ _ _ _ exec_ctx _) =>
          ExecCtx.vid_mode exec_ctx = Hdr.get Hdr.vid_mode bzhdr /\
          ExecCtx.mem_limit exec_ctx = 0 /\
          ExecCtx.mem_limit exec_ctx <> Hdr.get Hdr.initrd_addr_max bzhdr + 1
      | _ => False
      end
  | _ => False
  end.
Proof.
  intros file img m bzhdr.
  split; [vm_compute; reflexivity|].
  split; [vm_compute; reflexivity|].
  split; [reflexivity|].
  vm_compute.
  split; [reflexivity|]. split; [reflexivity | discriminate].
Qed.

(** ** Loader *)

(** C10.  When the header parser succeeds, [bzimage_load] binds the
    bzImage type to an image that had no type before it prepares any
    segment.  If preparing the real-mode or the protected-mode segment
    then fails, [bzimage_load] returns that error with the type binding
    in place and the private data untouched; the real-mode segment is
    recorded in the private data only when the load returns success. *)
Theorem bzimage_load_segment_error
  (chk : Z -> Z -> Z -> option errno) (clr : mem -> Z -> Z -> Z -> mem)
  (m : mem) (img : image) (load_ctx : LoadCtx.t) (bzhdr : bzimage_header) :
  bzimage_load_header m img LoadCtx.zero = inr (load_ctx, bzhdr) ->
  let img1 :=
    match type img with
    | None => set_type img (Some bzimage_image_type)
    | Some _ => img
    end in
  (type img = None -> type img1 = Some bzimage_image_type) /\
  priv img1 = priv img /\
  (forall e,
      fst (bzimage_load_real chk clr m img1 load_ctx) = inl e \/
      (exists load_ctx1 m1,
          bzimage_load_real chk clr m img1 load_ctx = (inr load_ctx1, m1) /\
          fst (bzimage_load_non_real chk clr m1 img1 load_ctx1) = inl e) ->
      exists m', bzimage_load chk clr m img = (inl e, img1, m')) /\
  (forall status img' m',
      bzimage_load chk clr m img = (status, img', m') ->
      match status with
      | inl _ => img' = img1
      | inr _ => img' = set_priv img1 (LoadCtx.rm_kernel_seg load_ctx) /\
                 priv img' = 0x1000
      end).
Proof.
  intros Hhdr img1.
  assert (Hseg : LoadCtx.rm_kernel_seg load_ctx = 0x1000).
  { unfold bzimage_load_header in Hhdr.
    repeat match type of Hhdr with
           | (if ?b then _ else _) = _ => destruct b; [discriminate|]
           end.
    injection Hhdr as <- _. reflexivity. }
  split; [|split; [|split]].
  - intros Hty. subst img1. rewrite Hty. reflexivity.
  - subst img1. destruct (type img); reflexivity.
  - intros e Hfail. unfold bzimage_load. rewrite Hhdr. fold img1.
    destruct Hfail as [Hreal | [load_ctx1 [m1 [Hreal Hnon]]]].
    + destruct (bzimage_load_real chk clr m img1 load_ctx) as [[e'|c] m1].
      * cbn [fst] in Hreal. injection Hreal as ->. eexists. reflexivity.
      * discriminate.
    + rewrite Hreal.
      destruct (bzimage_load_non_real chk clr m1 img1 load_ctx1)
        as [[e'|u] m2].
      * cbn [fst] in Hnon. injection Hnon as ->. eexists. reflexivity.
      * discriminate.
  - intros status img' m'. unfold bzimage_load. rewrite Hhdr. fold img1.
    assert (Hkeep : forall lc m0, LoadCtx.rm_kernel_seg
              match fst (bzimage_load_real chk clr m0 img1 lc) with
              | inr c => c | inl _ => lc end = LoadCtx.rm_kernel_seg lc).
    { intros lc m0. unfold bzimage_load_real.
      destruct (prep_segment _ _ _ _ _ _); reflexivity. }
    specialize (Hkeep load_ctx m).
    destruct (bzimage_load_real chk clr m img1 load_ctx) as [[e|c] m1].
    { intros H. injection H as <- <- _. reflexivity. }
    cbn [fst] in Hkeep.
    destruct (bzimage_load_non_real chk clr m1 img1 c) as [[e|u] m2].
    { intros H. injection H as <- <- _. reflexivity. }
    unfold bzimage_write_header.
    destruct (if 0x0202 <=? _ then _ else _) as [h m3].
    intros H. injection H as <- <- _.
    rewrite Hkeep. split; [reflexivity|]. cbn [set_priv priv]. exact Hseg.
Qed.

Lemma bzimage_load_segment_error_witness :
  let m := mem_with 0x200000 short_setup_file in
  let img := sample_image 0x200000 short_setup_file None in
  exists m',
    bzimage_load (ram_check 0x10000) zero_tail m img
      = (inl ERANGE, set_type img (Some bzimage_image_type), m').
Proof.
  intros m img.
  destruct (bzimage_load_header m img LoadCtx.zero)
    as [e|[load_ctx bzhdr]] eqn:Hhdr;
    [vm_compute in Hhdr; discriminate|].
  destruct (bzimage_load_segment_error (ram_check 0x10000) zero_tail
              m img load_ctx bzhdr Hhdr) as [_ [_ [Hfail _]]].
  apply Hfail. left.
  vm_compute in Hhdr. injection Hhdr as <- _.
  vm_compute. reflexivity.
Defined.

(** * Further properties of the loader *)

(** ** Memory, byte order and header fields *)

Lemma byte_val_of (z : Z) : byte_val (byte_of z) = z mod 256.
Proof.
  unfold byte_val, byte_of.
  assert (Hr : 0 <= z mod 256 < 256) by (apply Z.mod_pos_bound; lia).
  pose proof (Byte.to_of_N_option_map (Z.to_N (z mod 256))) as H.
  destruct (N.leb_spec (Z.to_N (z mod 256)) 255) as [_|Hbig]; [|lia].
  destruct (Byte.of_N (Z.to_N (z mod 256))) as [b|]; [|discriminate].
  cbn [option_map] in H. injection H as ->. lia.
Qed.

(** Little-endian encoding in [n] bytes keeps the value modulo 256^n. *)
Lemma le_decode_encode (n : nat) (v : Z) :
  le_decode (le_encode n v) = v mod 256 ^ Z.of_nat n.
Proof.
  revert v. induction n as [|n IH]; intros v; cbn [le_encode le_decode].
  - simpl. now rewrite Z.mod_1_r.
  - rewrite byte_val_of, IH, Nat2Z.inj_succ, Z.pow_succ_r by lia.
    rewrite Z.rem_mul_r by (try apply Z.pow_nonzero; lia). reflexivity.
Qed.

Lemma hdr_get_set_same (f : Hdr.field) (v : Z) (h : Hdr.t) :
  (Hdr.off f + Hdr.sz f <= List.length h)%nat ->
  Hdr.get f (Hdr.set f v h) = v mod 256 ^ Z.of_nat (Hdr.sz f).
Proof.
  intros Hin. unfold Hdr.get, Hdr.set.
  rewrite skipn_app, length_firstn.
  rewrite (@skipn_all2 _ (Hdr.off f) (firstn (Hdr.off f) h))
    by (rewrite length_firstn; lia).
  replace (Hdr.off f - Nat.min (Hdr.off f) (List.length h))%nat
    with 0%nat by lia.
  cbn [app skipn]. rewrite firstn_app, le_encode_length, Nat.sub_diag.
  cbn [firstn]. rewrite app_nil_r, firstn_all2
    by (rewrite le_encode_length; lia).
  apply le_decode_encode.
Qed.

(** The fields of the header record do not overlap and lie inside the
    record. *)
Lemma hdr_layout (f g : Hdr.field) :
  (Hdr.off f + Hdr.sz f <= Hdr.sizeof)%nat /\
  (f <> g -> hdr_disjoint f g = true).
Proof.
  split.
  - destruct f; cbv; repeat constructor.
  - destruct f, g; intros H; try reflexivity; now elim H.
Qed.

Lemma hdr_get_set (f g : Hdr.field) (v : Z) (h : Hdr.t) :
  List.length h = Hdr.sizeof -> f <> g ->
  Hdr.get f (Hdr.set g v h) = Hdr.get f h.
Proof.
  intros Hlen Hne. apply hdr_get_set_other.
  - rewrite Hlen. apply hdr_layout. exact f.
  - destruct (hdr_layout f g) as [_ Hd]. specialize (Hd Hne).
    unfold hdr_disjoint in Hd. apply orb_prop in Hd as [Hd|Hd];
      apply Nat.leb_le in Hd; [left | right]; exact Hd.
Qed.

Lemma hdr_set_sizeof (g : Hdr.field) (v : Z) (h : Hdr.t) :
  List.length h = Hdr.sizeof -> List.length (Hdr.set g v h) = Hdr.sizeof.
Proof.
  intros Hlen. rewrite hdr_set_length; [exact Hlen|].
  rewrite Hlen. apply (hdr_layout g g).
Qed.

(** ** Command line: what parsing and storing leave alone *)

Lemma mem_limit_shifted (value : Z) (c : ascii) :
  0 <= value < 2 ^ 32 ->
  let g := is_char c "g" "G" in
  let m := is_char c "m" "M" in
  let k := is_char c "k" "K" in
  let limit := if g then u64 (Z.shiftl value 10) else value in
  let limit := if g || m then u64 (Z.shiftl limit 10) else limit in
  let limit := if g || m || k then u64 (Z.shiftl limit 10) else limit in
  0 <= limit < 2 ^ 62.
Proof.
  intros Hv g m k.
  pose proof (shiftl_10_u64 value 0) as S0.
  pose proof (shiftl_10_u64 value 10) as S1.
  pose proof (shiftl_10_u64 value 20) as S2.
  rewrite Z.shiftl_0_r in S0.
  assert (B : forall n, 0 <= n <= 30 -> 0 <= Z.shiftl value n < 2 ^ 62).
  { intros n Hn. rewrite Z.shiftl_mul_pow2 by lia.
    assert (0 < 2 ^ n) by (apply Z.pow_pos_nonneg; lia).
    assert (2 ^ n <= 2 ^ 30) by (apply Z.pow_le_mono_r; lia).
    change (2 ^ 62) with (2 ^ 32 * 2 ^ 30). nia. }
  destruct g; [|destruct m; [|destruct k]]; cbn [orb].
  - rewrite S0 by lia. change (0 + 10) with 10.
    rewrite S1 by lia. change (10 + 10) with 20.
    rewrite S2 by lia. apply B. lia.
  - rewrite S0 by lia. change (0 + 10) with 10.
    rewrite S1 by lia. apply B. lia.
  - rewrite S0 by lia. apply B. lia.
  - change (2 ^ 62) with (2 ^ 32 * 2 ^ 30). lia.
Qed.

(** X1.  [bzimage_parse_cmdline] never fails and changes nothing of the
    execution context but the video mode and the memory limit; the video
    mode stays as it was when the command line has no [vga=], the memory
    limit stays when it has no [mem=]; a video mode taken from the
    command line is below 2^32 and a memory limit taken from it is below
    2^62, so the shifts never leave the 64-bit field. *)
Theorem bzimage_parse_cmdline_frame (exec_ctx : ExecCtx.t) (cmdline : string) :
  exists exec_ctx',
    bzimage_parse_cmdline exec_ctx cmdline = inr exec_ctx' /\
    ExecCtx.rm_kernel_seg exec_ctx' = ExecCtx.rm_kernel_seg exec_ctx /\
    ExecCtx.rm_kernel exec_ctx' = ExecCtx.rm_kernel exec_ctx /\
    ExecCtx.rm_heap exec_ctx' = ExecCtx.rm_heap exec_ctx /\
    ExecCtx.rm_cmdline exec_ctx' = ExecCtx.rm_cmdline exec_ctx /\
    ExecCtx.ramdisk_image exec_ctx' = ExecCtx.ramdisk_image exec_ctx /\
    ExecCtx.ramdisk_size exec_ctx' = ExecCtx.ramdisk_size exec_ctx /\
    (strstr cmdline "vga=" = None ->
     ExecCtx.vid_mode exec_ctx' = ExecCtx.vid_mode exec_ctx) /\
    (strstr cmdline "mem=" = None ->
     ExecCtx.mem_limit exec_ctx' = ExecCtx.mem_limit exec_ctx) /\
    (strstr cmdline "vga=" <> None ->
     0 <= ExecCtx.vid_mode exec_ctx' < 2 ^ 32) /\
    (strstr cmdline "mem=" <> None ->
     0 <= ExecCtx.mem_limit exec_ctx' < 2 ^ 62).
Proof.
  assert (Hvga : forall vga,
    0 <= (if strcmp vga "normal" =? 0 then BZI_VID_MODE_NORMAL
          else if strcmp vga "ext" =? 0 then BZI_VID_MODE_EXT
          else if strcmp vga "ask" =? 0 then BZI_VID_MODE_ASK
          else fst (strtoul vga 16)) < 2 ^ 32).
  { intros vga. pose proof (strtoul_range vga 16) as Hv.
    change (2 ^ 32) with 4294967296 in *.
    unfold BZI_VID_MODE_NORMAL, BZI_VID_MODE_EXT, BZI_VID_MODE_ASK.
    destruct (strcmp vga "normal" =? 0); [lia|].
    destruct (strcmp vga "ext" =? 0); [lia|].
    destruct (strcmp vga "ask" =? 0); lia. }
  unfold bzimage_parse_cmdline.
  destruct (strstr cmdline "vga=") as [vga|];
    destruct (strstr cmdline "mem=") as [mem|].
  - specialize (Hvga (str_advance 4 vga)).
    pose proof (strtoul_range (str_advance 4 mem) 0) as Hm.
    destruct (strtoul (str_advance 4 mem) 0) as [value rest].
    cbn [fst] in Hm.
    pose proof (mem_limit_shifted value (deref rest) Hm) as Hs.
    cbv zeta in Hs.
    eexists. split; [reflexivity|].
    cbn [ExecCtx.set_mem_limit ExecCtx.vid_mode ExecCtx.mem_limit
         ExecCtx.rm_kernel_seg ExecCtx.rm_kernel ExecCtx.rm_heap
         ExecCtx.rm_cmdline ExecCtx.ramdisk_image ExecCtx.ramdisk_size].
    destruct (strcmp (str_advance 4 vga) "normal" =? 0);
      [|destruct (strcmp (str_advance 4 vga) "ext" =? 0);
        [|destruct (strcmp (str_advance 4 vga) "ask" =? 0)]];
      cbn [ExecCtx.set_vid_mode ExecCtx.vid_mode ExecCtx.mem_limit
           ExecCtx.rm_kernel_seg ExecCtx.rm_kernel ExecCtx.rm_heap
           ExecCtx.rm_cmdline ExecCtx.ramdisk_image ExecCtx.ramdisk_size];
      (split; [reflexivity|]); (split; [reflexivity|]);
      (split; [reflexivity|]); (split; [reflexivity|]);
      (split; [reflexivity|]); (split; [reflexivity|]);
      (split; [discriminate|]); (split; [discriminate|]);
      (split; [intros _; exact Hvga | intros _; exact Hs]).
  - specialize (Hvga (str_advance 4 vga)).
    eexists. split; [reflexivity|].
    destruct (strcmp (str_advance 4 vga) "normal" =? 0);
      [|destruct (strcmp (str_advance 4 vga) "ext" =? 0);
        [|destruct (strcmp (str_advance 4 vga) "ask" =? 0)]];
      cbn [ExecCtx.set_vid_mode ExecCtx.vid_mode ExecCtx.mem_limit
           ExecCtx.rm_kernel_seg ExecCtx.rm_kernel ExecCtx.rm_heap
           ExecCtx.rm_cmdline ExecCtx.ramdisk_image ExecCtx.ramdisk_size];
      (split; [reflexivity|]); (split; [reflexivity|]);
      (split; [reflexivity|]); (split; [reflexivity|]);
      (split; [reflexivity|]); (split; [reflexivity|]);
      (split; [discriminate|]); (split; [reflexivity|]);
      (split; [intros _; exact Hvga | intros H; now elim H]).
  - pose proof (strtoul_range (str_advance 4 mem) 0) as Hm.
    destruct (strtoul (str_advance 4 mem) 0) as [value rest].
    cbn [fst] in Hm.
    pose proof (mem_limit_shifted value (deref rest) Hm) as Hs.
    cbv zeta in Hs.
    eexists. split; [reflexivity|].
    cbn [ExecCtx.set_mem_limit ExecCtx.vid_mode ExecCtx.mem_limit
         ExecCtx.rm_kernel_seg ExecCtx.rm_kernel ExecCtx.rm_heap
         ExecCtx.rm_cmdline ExecCtx.ramdisk_image ExecCtx.ramdisk_size].
    (split; [reflexivity|]); (split; [reflexivity|]);
      (split; [reflexivity|]); (split; [reflexivity|]);
      (split; [reflexivity|]); (split; [reflexivity|]);
      (split; [reflexivity|]); (split; [discriminate|]);
      (split; [intros H; now elim H | intros _; exact Hs]).
  - eexists. split; [reflexivity|].
    (split; [reflexivity|]); (split; [reflexivity|]);
      (split; [reflexivity|]); (split; [reflexivity|]);
      (split; [reflexivity|]); (split; [reflexivity|]);
      (split; [reflexivity|]); (split; [reflexivity|]);
      (split; intros H; now elim H).
Qed.

(** X3.  [bzimage_set_cmdline] writes nowhere outside the
    [BZI_CMDLINE_SIZE] bytes reserved at the command-line offset of the
    real-mode segment, whatever the length of the command line. *)
Theorem bzimage_set_cmdline_confined (m : mem) (exec_ctx : ExecCtx.t)
  (cmdline : string) (a : Z) :
  a < ExecCtx.rm_kernel exec_ctx + ExecCtx.rm_cmdline exec_ctx \/
  ExecCtx.rm_kernel exec_ctx + ExecCtx.rm_cmdline exec_ctx
    + BZI_CMDLINE_SIZE <= a ->
  snd (bzimage_set_cmdline m exec_ctx cmdline) a = m a.
Proof.
  intros H. unfold bzimage_set_cmdline. cbn [snd].
  apply copy_to_user_outside.
  pose proof (firstn_le_length
                (Z.to_nat (if BZI_CMDLINE_SIZE <? u32 (strlen cmdline + 1)
                           then BZI_CMDLINE_SIZE
                           else u32 (strlen cmdline + 1)))
                (cstring_bytes cmdline)) as Hl.
  assert (Hu : 0 <= u32 (strlen cmdline + 1))
    by (unfold u32; apply Z.mod_pos_bound; lia).
  destruct (Z.ltb_spec BZI_CMDLINE_SIZE (u32 (strlen cmdline + 1)));
    unfold BZI_CMDLINE_SIZE in *; lia.
Qed.

Lemma bzimage_set_cmdline_confined_witness :
  snd (bzimage_set_cmdline (fun _ => xff)
         (ExecCtx.mk 0x1000 0x10000 0x1a00 0x1a00 0 0 0 0) long_cmdline)
      (0x10000 + 0x1a00 + 0x100) = xff.
Proof.
  apply (bzimage_set_cmdline_confined (fun _ => xff)
           (ExecCtx.mk 0x1000 0x10000 0x1a00 0x1a00 0 0 0 0) long_cmdline).
  right. vm_compute. discriminate.
Defined.

(** ** Header parser: the layout it chooses *)

Lemma land_1_odd (x : Z) : (Z.land x 1 =? 0) = negb (Z.odd x).
Proof.
  change 1 with (Z.ones 1). rewrite Z.land_ones by lia.
  change (2 ^ 1) with 2. rewrite Zmod_odd. now destruct (Z.odd x).
Qed.

(** X4.  A successful [bzimage_load_header] splits the image exactly:
    the real-mode part is a whole number of sectors between 1024 and
    131072 bytes, file and memory size agree, the protected-mode part is
    the rest of the image, and it goes to [BZI_LOAD_HIGH_ADDR] when bit 0
    of [loadflags] is set and to [BZI_LOAD_LOW_ADDR] otherwise; the
    real-mode segment is 0x1000 and the image holds at least the
    header. *)
Theorem bzimage_load_header_layout (m : mem) (img : image)
  (load_ctx0 load_ctx : LoadCtx.t) (bzhdr : bzimage_header) :
  bzimage_load_header m img load_ctx0 = inr (load_ctx, bzhdr) ->
  len img < 2 ^ 32 ->
  bzhdr = copy_from_user m (data img) BZI_HDR_OFFSET Hdr.sizeof /\
  LoadCtx.rm_kernel_seg load_ctx = 0x1000 /\
  LoadCtx.rm_kernel load_ctx = 0x10000 /\
  LoadCtx.rm_memsz load_ctx = LoadCtx.rm_filesz load_ctx /\
  1024 <= LoadCtx.rm_filesz load_ctx <= 131072 /\
  LoadCtx.rm_filesz load_ctx mod 512 = 0 /\
  0 <= LoadCtx.pm_sz load_ctx /\
  LoadCtx.rm_filesz load_ctx + LoadCtx.pm_sz load_ctx = len img /\
  LoadCtx.pm_kernel load_ctx =
    (if Z.odd (Hdr.get Hdr.loadflags bzhdr)
     then BZI_LOAD_HIGH_ADDR else BZI_LOAD_LOW_ADDR) /\
  BZI_HDR_OFFSET + Z.of_nat Hdr.sizeof <= len img.
Proof.
  unfold bzimage_load_header.
  set (h := copy_from_user m (data img) BZI_HDR_OFFSET Hdr.sizeof).
  rewrite (rm_filesz_no_wrap h), land_1_odd, negb_involutive.
  pose proof (hdr_get_range Hdr.setup_sects h) as Hs.
  change (256 ^ Z.of_nat (Hdr.sz Hdr.setup_sects)) with 256 in Hs.
  set (s := Hdr.get Hdr.setup_sects h) in *.
  assert (Hsize : 1024 <= rm_size_of s <= 131072 /\ rm_size_of s mod 512 = 0).
  { unfold rm_size_of. split; [destruct (Z.eqb_spec s 0); lia|].
    apply Z.mod_mul. lia. }
  destruct (Z.ltb_spec (len img) (BZI_HDR_OFFSET + Z.of_nat Hdr.sizeof));
    [discriminate|].
  destruct (negb _); [discriminate|].
  destruct (_ <? 0x0200); [discriminate|].
  destruct (Z.ltb_spec (len img) (rm_size_of s)); [discriminate|].
  intros Hret Hlen. injection Hret as <- <-.
  cbn [LoadCtx.rm_kernel_seg LoadCtx.rm_kernel LoadCtx.rm_memsz
       LoadCtx.rm_filesz LoadCtx.pm_sz LoadCtx.pm_kernel].
  rewrite (u32_small (len img - rm_size_of s)) by lia.
  unfold phys_to_user.
  repeat match goal with |- _ /\ _ => split end;
    try reflexivity; try lia; try apply Hsize.
Qed.

Lemma bzimage_load_header_layout_witness :
  exists load_ctx bzhdr,
    bzimage_load_header (mem_with 0x200000 (kernel_file 0x37ffffff))
      (sample_image 0x200000 (kernel_file 0x37ffffff) None) LoadCtx.zero
    = inr (load_ctx, bzhdr) /\
    LoadCtx.rm_filesz load_ctx + LoadCtx.pm_sz load_ctx = 3072.
Proof.
  destruct (bzimage_load_header (mem_with 0x200000 (kernel_file 0x37ffffff))
              (sample_image 0x200000 (kernel_file 0x37ffffff) None)
              LoadCtx.zero) as [e|[load_ctx bzhdr]] eqn:Hhdr;
    [vm_compute in Hhdr; discriminate|].
  exists load_ctx, bzhdr. split; [reflexivity|].
  destruct (bzimage_load_header_layout _ _ _ _ _ Hhdr)
    as [_ [_ [_ [_ [_ [_ [_ [Hsum _]]]]]]]];
    [vm_compute; reflexivity|].
  rewrite Hsum. vm_compute. reflexivity.
Defined.

(** ** Header rewriter: what the stored header says *)

Lemma lor_below (a b n : Z) :
  0 <= n -> 0 <= a < 2 ^ n -> 0 <= b < 2 ^ n -> 0 <= Z.lor a b < 2 ^ n.
Proof.
  intros Hn Ha Hb.
  assert (Hpos : 0 <= Z.lor a b) by (apply Z.lor_nonneg; lia).
  split; [exact Hpos|].
  destruct (Z.eq_dec (Z.lor a b) 0) as [->|Hnz];
    [apply Z.pow_pos_nonneg; lia|].
  apply Z.log2_lt_pow2; [lia|].
  rewrite Z.log2_lor by lia.
  destruct (Z.eq_dec a 0) as [->|Ha0]; destruct (Z.eq_dec b 0) as [->|Hb0].
  - simpl in Hnz. lia.
  - rewrite Z.max_r by (apply Z.log2_nonneg).
    apply Z.log2_lt_pow2; lia.
  - rewrite Z.max_l by (apply Z.log2_nonneg).
    apply Z.log2_lt_pow2; lia.
  - apply Z.max_lub_lt; apply Z.log2_lt_pow2; lia.
Qed.

Lemma hdr_get_set_eq (f : Hdr.field) (v : Z) (h : Hdr.t) :
  List.length h = Hdr.sizeof ->
  Hdr.get f (Hdr.set f v h) = v mod 256 ^ Z.of_nat (Hdr.sz f).
Proof.
  intros Hlen. apply hdr_get_set_same. rewrite Hlen. apply (hdr_layout f f).
Qed.

Ltac hdr_len :=
  repeat apply hdr_set_sizeof; assumption.

Ltac hdr_fields :=
  repeat first
    [ rewrite hdr_get_set_eq by hdr_len
    | rewrite hdr_get_set by (first [hdr_len | discriminate | assumption]) ].

(** X5.  [bzimage_write_header] always succeeds, and the header it
    returns is the one that can be read back from the header offset of
    the real-mode segment.  In it the loader type is Etherboot's; from
    version 2.01 on the heap end is [rm_heap - 0x200] (in 16 bits) and the
    can-use-heap bit is added to the load flags; from 2.02 on the
    command-line pointer is the physical address of the command line,
    before that the setup move size is [rm_memsz] (in 16 bits) and the
    legacy magic-and-offset record stands at [BZI_CMDLINE_OFFSET]; every
    other field is as it was, and nothing outside the header and
    that record is written. *)
Theorem bzimage_write_header_fields (m : mem) (load_ctx : LoadCtx.t)
  (bzhdr : bzimage_header) :
  List.length bzhdr = Hdr.sizeof ->
  let version := Hdr.get Hdr.version bzhdr in
  let rm_kernel := LoadCtx.rm_kernel load_ctx in
  let m' := snd (bzimage_write_header m load_ctx bzhdr) in
  exists bzhdr',
    fst (bzimage_write_header m load_ctx bzhdr) = inr bzhdr' /\
    copy_from_user m' rm_kernel BZI_HDR_OFFSET Hdr.sizeof = bzhdr' /\
    Hdr.get Hdr.type_of_loader bzhdr' = BZI_LOADER_TYPE_ETHERBOOT /\
    Hdr.get Hdr.heap_end_ptr bzhdr' =
      (if 0x0201 <=? version then u16 (LoadCtx.rm_heap load_ctx - 0x200)
       else Hdr.get Hdr.heap_end_ptr bzhdr) /\
    Hdr.get Hdr.loadflags bzhdr' =
      (if 0x0201 <=? version
       then Z.lor (Hdr.get Hdr.loadflags bzhdr) BZI_CAN_USE_HEAP
       else Hdr.get Hdr.loadflags bzhdr) /\
    Hdr.get Hdr.cmd_line_ptr bzhdr' =
      (if 0x0202 <=? version
       then u32 (rm_kernel + LoadCtx.rm_cmdline load_ctx)
       else Hdr.get Hdr.cmd_line_ptr bzhdr) /\
    Hdr.get Hdr.setup_move_size bzhdr' =
      (if 0x0202 <=? version then Hdr.get Hdr.setup_move_size bzhdr
       else u16 (LoadCtx.rm_memsz load_ctx)) /\
    (forall f,
        f <> Hdr.type_of_loader -> f <> Hdr.heap_end_ptr ->
        f <> Hdr.loadflags -> f <> Hdr.cmd_line_ptr ->
        f <> Hdr.setup_move_size ->
        Hdr.get f bzhdr' = Hdr.get f bzhdr) /\
    (version < 0x0202 ->
     copy_from_user m' rm_kernel BZI_CMDLINE_OFFSET 4
     = bzimage_cmdline BZI_CMDLINE_MAGIC (LoadCtx.rm_cmdline load_ctx)) /\
    (forall a,
        a < rm_kernel + BZI_HDR_OFFSET \/
        rm_kernel + BZI_HDR_OFFSET + Z.of_nat Hdr.sizeof <= a ->
        0x0202 <= version \/ a < rm_kernel + BZI_CMDLINE_OFFSET \/
        rm_kernel + BZI_CMDLINE_OFFSET + 4 <= a ->
        m' a = m a).
Proof.
  intros Hlen version rm_kernel m'.
  pose proof (hdr_get_range Hdr.loadflags bzhdr) as Hflags.
  change (256 ^ Z.of_nat (Hdr.sz Hdr.loadflags)) with (2 ^ 8) in Hflags.
  assert (Hlor : Z.lor (Hdr.get Hdr.loadflags bzhdr) BZI_CAN_USE_HEAP
                   mod 256 ^ Z.of_nat (Hdr.sz Hdr.loadflags)
                 = Z.lor (Hdr.get Hdr.loadflags bzhdr) BZI_CAN_USE_HEAP).
  { apply Z.mod_small. change (256 ^ Z.of_nat (Hdr.sz Hdr.loadflags))
      with (2 ^ 8). apply lor_below; [lia | exact Hflags | cbv; split; congruence]. }
  assert (Hloader : BZI_LOADER_TYPE_ETHERBOOT
                      mod 256 ^ Z.of_nat (Hdr.sz Hdr.type_of_loader)
                    = BZI_LOADER_TYPE_ETHERBOOT) by reflexivity.
  assert (Hptr : user_to_phys (LoadCtx.rm_kernel load_ctx)
                   (LoadCtx.rm_cmdline load_ctx)
                   mod 256 ^ Z.of_nat (Hdr.sz Hdr.cmd_line_ptr)
                 = u32 (rm_kernel + LoadCtx.rm_cmdline load_ctx)).
  { unfold user_to_phys, u32.
    change (256 ^ Z.of_nat (Hdr.sz Hdr.cmd_line_ptr)) with (2 ^ 32).
    apply Z.mod_mod. lia. }
  subst m'. unfold bzimage_write_header.
  hdr_fields. fold version.
  destruct (0x0201 <=? version) eqn:H201; hdr_fields; fold version;
    destruct (Z.leb_spec 0x0202 version) as [H202|H202];
    cbn [fst snd]; eexists; (split; [reflexivity|]);
    (split; [match goal with
             | |- copy_from_user (copy_to_user ?m0 _ _ ?h) _ _ _ = _ =>
                 assert (Hl : List.length h = Hdr.sizeof) by hdr_len;
                 rewrite <- Hl; apply copy_from_user_written
             end|]);
    hdr_fields; rewrite ?Hlor, ?Hloader, ?Hptr;
    (split; [reflexivity|]); (split; [reflexivity|]);
    (split; [reflexivity|]); (split; [reflexivity|]);
    (split; [reflexivity|]);
    (split; [intros f N1 N2 N3 N4 N5; hdr_fields; reflexivity|]).
  all: assert (Hout : forall m0 h a, List.length h = Hdr.sizeof ->
            a < rm_kernel + BZI_HDR_OFFSET \/
            rm_kernel + BZI_HDR_OFFSET + Z.of_nat Hdr.sizeof <= a ->
            copy_to_user m0 rm_kernel BZI_HDR_OFFSET h a = m0 a)
    by (intros m0 h a Hl Ha; apply copy_to_user_outside; rewrite Hl;
        exact Ha).
  all: fold rm_kernel.
  - split; [intros; lia|]. intros a Hhdr _. apply Hout; [hdr_len | exact Hhdr].
  - split.
    + intros _.
      transitivity
        (copy_from_user
           (copy_to_user m rm_kernel BZI_CMDLINE_OFFSET
              (bzimage_cmdline BZI_CMDLINE_MAGIC
                 (LoadCtx.rm_cmdline load_ctx)))
           rm_kernel BZI_CMDLINE_OFFSET 4).
      * apply copy_from_user_ext. intros a Ha. apply Hout; [hdr_len|].
        unfold BZI_CMDLINE_OFFSET, BZI_HDR_OFFSET in *. lia.
      * apply (copy_from_user_written m rm_kernel BZI_CMDLINE_OFFSET
                 (bzimage_cmdline BZI_CMDLINE_MAGIC
                    (LoadCtx.rm_cmdline load_ctx))).
    + intros a Hhdr [?|Hrec]; [lia|].
      rewrite Hout by (first [hdr_len | exact Hhdr]).
      apply copy_to_user_outside.
      cbn [List.length bzimage_cmdline le_encode app]. lia.
  - split; [intros; lia|]. intros a Hhdr _. apply Hout; [hdr_len | exact Hhdr].
  - split.
    + intros _.
      transitivity
        (copy_from_user
           (copy_to_user m rm_kernel BZI_CMDLINE_OFFSET
              (bzimage_cmdline BZI_CMDLINE_MAGIC
                 (LoadCtx.rm_cmdline load_ctx)))
           rm_kernel BZI_CMDLINE_OFFSET 4).
      * apply copy_from_user_ext. intros a Ha. apply Hout; [hdr_len|].
        unfold BZI_CMDLINE_OFFSET, BZI_HDR_OFFSET in *. lia.
      * apply (copy_from_user_written m rm_kernel BZI_CMDLINE_OFFSET
                 (bzimage_cmdline BZI_CMDLINE_MAGIC
                    (LoadCtx.rm_cmdline load_ctx))).
    + intros a Hhdr [?|Hrec]; [lia|].
      rewrite Hout by (first [hdr_len | exact Hhdr]).
      apply copy_to_user_outside.
      cbn [List.length bzimage_cmdline le_encode app]. lia.
Qed.

Lemma bzimage_write_header_fields_witness :
  let load_ctx := LoadCtx.mk 0x1000 0x10000 2560 6656 6656 6912 0x100000 512 in
  let bzhdr := sample_header 4 0x0204 0x317 0x37ffffff in
  let m' := snd (bzimage_write_header (fun _ => x00) load_ctx bzhdr) in
  Hdr.get Hdr.cmd_line_ptr
    (copy_from_user m' 0x10000 BZI_HDR_OFFSET Hdr.sizeof) = 0x10000 + 6656.
Proof.
  intros load_ctx bzhdr m'.
  destruct (bzimage_write_header_fields (fun _ => x00) load_ctx bzhdr)
    as [bzhdr' [_ [Hread [_ [_ [_ [Hptr _]]]]]]];
    [vm_compute; reflexivity|].
  change (LoadCtx.rm_kernel load_ctx) with 0x10000 in Hread.
  fold m' in Hread. rewrite Hread, Hptr. vm_compute. reflexivity.
Defined.

(** ** Loader: which checks decide, and what ends up in memory *)

Lemma bzimage_load_header_facts (m : mem) (img : image)
  (load_ctx0 load_ctx : LoadCtx.t) (bzhdr : bzimage_header) :
  bzimage_load_header m img load_ctx0 = inr (load_ctx, bzhdr) ->
  len img < 2 ^ 32 ->
  let s := Hdr.get Hdr.setup_sects bzhdr in
  bzhdr = copy_from_user m (data img) BZI_HDR_OFFSET Hdr.sizeof /\
  1024 <= rm_size_of s <= 131072 /\
  rm_size_of s <= len img /\
  0x0200 <= Hdr.get Hdr.version bzhdr /\
  load_ctx =
    LoadCtx.mk 0x1000 0x10000 (rm_size_of s)
      (LoadCtx.rm_heap load_ctx0) (LoadCtx.rm_cmdline load_ctx0)
      (rm_size_of s)
      (if Z.odd (Hdr.get Hdr.loadflags bzhdr)
       then BZI_LOAD_HIGH_ADDR else BZI_LOAD_LOW_ADDR)
      (len img - rm_size_of s).
Proof.
  unfold bzimage_load_header.
  set (h := copy_from_user m (data img) BZI_HDR_OFFSET Hdr.sizeof).
  rewrite (rm_filesz_no_wrap h), land_1_odd, negb_involutive.
  pose proof (hdr_get_range Hdr.setup_sects h) as Hs.
  change (256 ^ Z.of_nat (Hdr.sz Hdr.setup_sects)) with 256 in Hs.
  assert (Hsize : 1024 <= rm_size_of (Hdr.get Hdr.setup_sects h) <= 131072).
  { unfold rm_size_of.
    destruct (Z.eqb_spec (Hdr.get Hdr.setup_sects h) 0); lia. }
  destruct (_ <? BZI_HDR_OFFSET + _); [discriminate|].
  destruct (negb _); [discriminate|].
  destruct (Z.ltb_spec (Hdr.get Hdr.version h) 0x0200); [discriminate|].
  destruct (Z.ltb_spec (len img) (rm_size_of (Hdr.get Hdr.setup_sects h)));
    [discriminate|].
  intros Hret Hlen. injection Hret as <- <-. cbv zeta.
  rewrite (u32_small (len img - _)) by lia.
  unfold phys_to_user.
  split; [reflexivity|]. split; [exact Hsize|]. split; [assumption|].
  split; [assumption | reflexivity].
Qed.

(** A successful [bzimage_load] taken apart: both segments were
    accepted, memory is the stored header on top of the two filled
    segments, and the image carries the real-mode segment. *)
Lemma bzimage_load_success
  (chk : Z -> Z -> Z -> option errno) (clr : mem -> Z -> Z -> Z -> mem)
  (m m' : mem) (img img' : image) :
  bzimage_load chk clr m img = (inr tt, img', m') ->
  len img < 2 ^ 32 ->
  let bzhdr := copy_from_user m (data img) BZI_HDR_OFFSET Hdr.sizeof in
  let ctx := load_ctx_of bzhdr (len img) in
  1024 <= LoadCtx.rm_filesz ctx <= 131072 /\
  LoadCtx.rm_filesz ctx <= len img /\
  0x0200 <= Hdr.get Hdr.version bzhdr /\
  chk (LoadCtx.rm_kernel ctx) (LoadCtx.rm_filesz ctx) (LoadCtx.rm_memsz ctx)
    = None /\
  chk (LoadCtx.pm_kernel ctx) (LoadCtx.pm_sz ctx) (LoadCtx.pm_sz ctx)
    = None /\
  m' = snd (bzimage_write_header (loaded_segments clr m img ctx) ctx bzhdr) /\
  priv img' = 0x1000 /\
  cmdline img' = cmdline img.
Proof.
  intros Hload Hlen bzhdr ctx. unfold bzimage_load in Hload.
  destruct (bzimage_load_header m img LoadCtx.zero)
    as [e|[load_ctx h0]] eqn:Hhdr; [discriminate|].
  apply bzimage_load_header_facts in Hhdr as [Hh0 [Hsize [Hfit [Hver Hctx]]]];
    [|exact Hlen].
  fold bzhdr in Hh0. subst h0. subst load_ctx.
  set (img1 := match type img with
               | None => set_type img (Some bzimage_image_type)
               | Some _ => img
               end) in Hload.
  assert (Hdata : data img1 = data img /\ cmdline img1 = cmdline img)
    by (subst img1; destruct (type img); split; reflexivity).
  destruct Hdata as [Hdata Hcmd].
  unfold bzimage_load_real, bzimage_load_non_real, prep_segment in Hload.
  cbn [LoadCtx.rm_memsz LoadCtx.rm_kernel LoadCtx.rm_filesz LoadCtx.pm_kernel
       LoadCtx.pm_sz LoadCtx.rm_kernel_seg LoadCtx.rm_heap LoadCtx.rm_cmdline
       LoadCtx.zero] in Hload.
  rewrite (u32_small (rm_size_of _ + BZI_STACK_SIZE)) in Hload
    by (unfold BZI_STACK_SIZE; lia).
  rewrite (u32_small (rm_size_of _ + BZI_STACK_SIZE + BZI_CMDLINE_SIZE))
    in Hload by (unfold BZI_STACK_SIZE, BZI_CMDLINE_SIZE; lia).
  rewrite Hdata in Hload.
  subst ctx. unfold load_ctx_of, loaded_segments.
  cbn [LoadCtx.rm_memsz LoadCtx.rm_kernel LoadCtx.rm_filesz LoadCtx.pm_kernel
       LoadCtx.pm_sz].
  destruct (chk 0x10000 _ _) as [e|]; cbv beta iota zeta in Hload;
    [discriminate Hload|].
  cbn [LoadCtx.rm_memsz LoadCtx.rm_kernel LoadCtx.rm_filesz LoadCtx.pm_kernel
       LoadCtx.pm_sz LoadCtx.rm_kernel_seg] in Hload.
  destruct (chk (if Z.odd _ then _ else _) _ _) as [e|];
    cbv beta iota zeta in Hload; [discriminate Hload|].
  split; [exact Hsize|]. split; [exact Hfit|]. split; [exact Hver|].
  split; [reflexivity|]. split; [reflexivity|].
  destruct (bzimage_write_header _ _ bzhdr) as [[e|h'] m4];
    cbv beta iota zeta in Hload; [discriminate Hload|].
  injection Hload as <- <-. cbn [snd].
  split; [reflexivity|]. split; [reflexivity | exact Hcmd].
Qed.

Lemma bzimage_write_header_outside (m : mem) (load_ctx : LoadCtx.t)
  (bzhdr : bzimage_header) (a : Z) :
  List.length bzhdr = Hdr.sizeof ->
  a < LoadCtx.rm_kernel load_ctx + BZI_HDR_OFFSET \/
  LoadCtx.rm_kernel load_ctx + BZI_HDR_OFFSET + Z.of_nat Hdr.sizeof <= a ->
  0x0202 <= Hdr.get Hdr.version bzhdr \/
  a < LoadCtx.rm_kernel load_ctx + BZI_CMDLINE_OFFSET \/
  LoadCtx.rm_kernel load_ctx + BZI_CMDLINE_OFFSET + 4 <= a ->
  snd (bzimage_write_header m load_ctx bzhdr) a = m a.
Proof.
  intros Hlen Hhdr Hrec. unfold bzimage_write_header. hdr_fields.
  assert (Hout : forall m0 h, List.length h = Hdr.sizeof ->
            copy_to_user m0 (LoadCtx.rm_kernel load_ctx) BZI_HDR_OFFSET h a
            = m0 a)
    by (intros m0 h Hl; apply copy_to_user_outside; rewrite Hl; exact Hhdr).
  destruct (0x0201 <=? Hdr.get Hdr.version bzhdr); hdr_fields;
    destruct (Z.leb_spec 0x0202 (Hdr.get Hdr.version bzhdr)); cbn [snd];
    rewrite Hout by hdr_len; try reflexivity;
    apply copy_to_user_outside;
    cbn [List.length bzimage_cmdline le_encode app]; lia.
Qed.

(** X6.  The status of [bzimage_load] is decided in this order: the
    header parser's error if it has one; else the platform's verdict on
    the real-mode segment, which spans the real-mode file part plus
    [BZI_STACK_SIZE] and [BZI_CMDLINE_SIZE] at 0x10000; else its verdict
    on the protected-mode segment; else success.  Memory is untouched
    when the header or the real-mode segment is refused, but when only
    the protected-mode segment is refused the real-mode segment has
    already been cleared and filled. *)
Theorem bzimage_load_status
  (chk : Z -> Z -> Z -> option errno) (clr : mem -> Z -> Z -> Z -> mem)
  (m : mem) (img : image) :
  len img < 2 ^ 32 ->
  let bzhdr := copy_from_user m (data img) BZI_HDR_OFFSET Hdr.sizeof in
  let ctx := load_ctx_of bzhdr (len img) in
  let rm_check :=
    chk 0x10000 (LoadCtx.rm_filesz ctx)
      (LoadCtx.rm_filesz ctx + BZI_STACK_SIZE + BZI_CMDLINE_SIZE) in
  let pm_check :=
    chk (LoadCtx.pm_kernel ctx) (LoadCtx.pm_sz ctx) (LoadCtx.pm_sz ctx) in
  match bzimage_load_header m img LoadCtx.zero, rm_check, pm_check with
  | inl e, _, _ =>
      fst (fst (bzimage_load chk clr m img)) = inl e /\
      snd (bzimage_load chk clr m img) = m
  | inr _, Some e, _ =>
      fst (fst (bzimage_load chk clr m img)) = inl e /\
      snd (bzimage_load chk clr m img) = m
  | inr _, None, Some e =>
      fst (fst (bzimage_load chk clr m img)) = inl e /\
      snd (bzimage_load chk clr m img) =
        memcpy_user
          (clr m 0x10000 (LoadCtx.rm_filesz ctx) (LoadCtx.rm_memsz ctx))
          0x10000 0 (data img) 0 (LoadCtx.rm_filesz ctx)
  | inr _, None, None =>
      fst (fst (bzimage_load chk clr m img)) = inr tt
  end.
Proof.
  intros Hlen bzhdr ctx rm_check pm_check. unfold bzimage_load.
  destruct (bzimage_load_header m img LoadCtx.zero)
    as [e|[load_ctx h0]] eqn:Hhdr; [split; reflexivity|].
  apply bzimage_load_header_facts in Hhdr as [Hh0 [Hsize [Hfit [Hver Hctx]]]];
    [|exact Hlen].
  fold bzhdr in Hh0. subst h0. subst load_ctx.
  set (img1 := match type img with
               | None => set_type img (Some bzimage_image_type)
               | Some _ => img
               end).
  assert (Hdata : data img1 = data img)
    by (subst img1; destruct (type img); reflexivity).
  unfold bzimage_load_real, bzimage_load_non_real, prep_segment.
  cbn [LoadCtx.rm_memsz LoadCtx.rm_kernel LoadCtx.rm_filesz LoadCtx.pm_kernel
       LoadCtx.pm_sz LoadCtx.rm_kernel_seg LoadCtx.rm_heap LoadCtx.rm_cmdline
       LoadCtx.zero].
  rewrite (u32_small (rm_size_of _ + BZI_STACK_SIZE))
    by (unfold BZI_STACK_SIZE; lia).
  rewrite (u32_small (rm_size_of _ + BZI_STACK_SIZE + BZI_CMDLINE_SIZE))
    by (unfold BZI_STACK_SIZE, BZI_CMDLINE_SIZE; lia).
  rewrite Hdata.
  subst rm_check pm_check ctx. unfold load_ctx_of.
  cbn [LoadCtx.rm_memsz LoadCtx.rm_kernel LoadCtx.rm_filesz LoadCtx.pm_kernel
       LoadCtx.pm_sz].
  destruct (chk 0x10000 _ _) as [e|]; cbv beta iota zeta;
    [split; reflexivity|].
  cbn [LoadCtx.rm_memsz LoadCtx.rm_kernel LoadCtx.rm_filesz LoadCtx.pm_kernel
       LoadCtx.pm_sz LoadCtx.rm_kernel_seg].
  destruct (chk (if Z.odd _ then _ else _) _ _) as [e|];
    cbv beta iota zeta; [split; reflexivity|].
  unfold bzimage_write_header.
  destruct (if 0x0202 <=? _ then _ else _) as [h m3]. reflexivity.
Qed.

Lemma bzimage_load_status_witness :
  fst (fst (bzimage_load (ram_check 0x100100) zero_tail
              (mem_with 0x200000 (kernel_file 0x37ffffff))
              (sample_image 0x200000 (kernel_file 0x37ffffff) None)))
  = inl ERANGE.
Proof.
  pose proof (bzimage_load_status (ram_check 0x100100) zero_tail
                (mem_with 0x200000 (kernel_file 0x37ffffff))
                (sample_image 0x200000 (kernel_file 0x37ffffff) None)) as H.
  cbv zeta in H.
  assert (Hlen : len (sample_image 0x200000 (kernel_file 0x37ffffff) None)
                 < 2 ^ 32) by (vm_compute; reflexivity).
  specialize (H Hlen).
  destruct (bzimage_load_header _ _ LoadCtx.zero) as [e|p] eqn:Hhdr;
    [vm_compute in Hhdr; discriminate|].
  assert (Hrm : ram_check 0x100100 0x10000
                  (LoadCtx.rm_filesz
                     (load_ctx_of
                        (copy_from_user
                           (mem_with 0x200000 (kernel_file 0x37ffffff))
                           (data (sample_image 0x200000
                                    (kernel_file 0x37ffffff) None))
                           BZI_HDR_OFFSET Hdr.sizeof)
                        (len (sample_image 0x200000
                                (kernel_file 0x37ffffff) None))))
                  (LoadCtx.rm_filesz
                     (load_ctx_of
                        (copy_from_user
                           (mem_with 0x200000 (kernel_file 0x37ffffff))
                           (data (sample_image 0x200000
                                    (kernel_file 0x37ffffff) None))
                           BZI_HDR_OFFSET Hdr.sizeof)
                        (len (sample_image 0x200000
                                (kernel_file 0x37ffffff) None)))
                   + BZI_STACK_SIZE + BZI_CMDLINE_SIZE) = None)
    by (vm_compute; reflexivity).
  rewrite Hrm in H.
  assert (Hpm : ram_check 0x100100
                  (LoadCtx.pm_kernel
                     (load_ctx_of
                        (copy_from_user
                           (mem_with 0x200000 (kernel_file 0x37ffffff))
                           (data (sample_image 0x200000
                                    (kernel_file 0x37ffffff) None))
                           BZI_HDR_OFFSET Hdr.sizeof)
                        (len (sample_image 0x200000
                                (kernel_file 0x37ffffff) None))))
                  (LoadCtx.pm_sz
                     (load_ctx_of
                        (copy_from_user
                           (mem_with 0x200000 (kernel_file 0x37ffffff))
                           (data (sample_image 0x200000
                                    (kernel_file 0x37ffffff) None))
                           BZI_HDR_OFFSET Hdr.sizeof)
                        (len (sample_image 0x200000
                                (kernel_file 0x37ffffff) None))))
                  (LoadCtx.pm_sz
                     (load_ctx_of
                        (copy_from_user
                           (mem_with 0x200000 (kernel_file 0x37ffffff))
                           (data (sample_image 0x200000
                                    (kernel_file 0x37ffffff) None))
                           BZI_HDR_OFFSET Hdr.sizeof)
                        (len (sample_image 0x200000
                                (kernel_file 0x37ffffff) None)))) = Some ERANGE)
    by (vm_compute; reflexivity).
  rewrite Hpm in H. exact (proj1 H).
Defined.

Lemma zero_tail_outside (m : mem) (s f z a : Z) :
  0 <= f -> a < s \/ s + z <= a -> zero_tail m s f z a = m a.
Proof.
  intros Hf Ha. unfold zero_tail. apply copy_to_user_outside.
  rewrite repeat_length. lia.
Qed.

(** X7.  Where [bzimage_load] puts the file.  The platform's clearing
    stays inside the segment it is given, the kernel is loaded high, and
    the file buffer lies above the place the kernel goes to.  After a
    successful load the protected-mode segment at [BZI_LOAD_HIGH_ADDR]
    holds the file from the end of the real-mode part on; the real-mode
    segment at 0x10000 holds the start of the file except for the header
    (rewritten) and, before version 2.02, the four bytes of the legacy
    command-line record; and no byte outside the two segments has
    changed. *)
Theorem bzimage_load_contents
  (chk : Z -> Z -> Z -> option errno) (clr : mem -> Z -> Z -> Z -> mem)
  (m m' : mem) (img img' : image) :
  (forall m0 s f z a, 0 <= f -> a < s \/ s + z <= a ->
                      clr m0 s f z a = m0 a) ->
  bzimage_load chk clr m img = (inr tt, img', m') ->
  len img < 2 ^ 32 ->
  let bzhdr := copy_from_user m (data img) BZI_HDR_OFFSET Hdr.sizeof in
  let rm_filesz := rm_size_of (Hdr.get Hdr.setup_sects bzhdr) in
  let rm_memsz := rm_filesz + BZI_STACK_SIZE + BZI_CMDLINE_SIZE in
  let pm_sz := len img - rm_filesz in
  Z.odd (Hdr.get Hdr.loadflags bzhdr) = true ->
  BZI_LOAD_HIGH_ADDR + len img <= data img ->
  (forall i, 0 <= i < pm_sz ->
     m' (BZI_LOAD_HIGH_ADDR + i) = m (data img + rm_filesz + i)) /\
  (forall i, 0 <= i < rm_filesz ->
     i < BZI_HDR_OFFSET \/ BZI_HDR_OFFSET + Z.of_nat Hdr.sizeof <= i ->
     0x0202 <= Hdr.get Hdr.version bzhdr \/
     i < BZI_CMDLINE_OFFSET \/ BZI_CMDLINE_OFFSET + 4 <= i ->
     m' (0x10000 + i) = m (data img + i)) /\
  (forall a,
     a < 0x10000 \/ 0x10000 + rm_memsz <= a ->
     a < BZI_LOAD_HIGH_ADDR \/ BZI_LOAD_HIGH_ADDR + pm_sz <= a ->
     m' a = m a).
Proof.
  intros Hclr Hload Hlen bzhdr rm_filesz rm_memsz pm_sz Hhigh Habove.
  destruct (bzimage_load_success chk clr m m' img img' Hload Hlen)
    as [Hsize [Hfit [Hver [_ [_ [Hm' _]]]]]].
  fold bzhdr in Hsize, Hfit, Hver, Hm'.
  unfold load_ctx_of in Hsize, Hfit, Hm'.
  rewrite Hhigh in Hm'. fold rm_filesz in Hsize, Hfit, Hm'.
  cbn [LoadCtx.rm_filesz] in Hsize, Hfit. fold pm_sz in Hm'.
  unfold loaded_segments in Hm'.
  cbn [LoadCtx.rm_memsz LoadCtx.rm_kernel LoadCtx.rm_filesz LoadCtx.pm_kernel
       LoadCtx.pm_sz] in Hm'.
  fold rm_memsz in Hm'.
  assert (Hlenh : List.length bzhdr = Hdr.sizeof)
    by apply copy_from_user_length.
  assert (Hwr : forall a,
            a < 0x10000 + BZI_HDR_OFFSET \/
            0x10000 + BZI_HDR_OFFSET + Z.of_nat Hdr.sizeof <= a ->
            0x0202 <= Hdr.get Hdr.version bzhdr \/
            a < 0x10000 + BZI_CMDLINE_OFFSET \/
            0x10000 + BZI_CMDLINE_OFFSET + 4 <= a ->
            m' a = memcpy_user
                     (clr (memcpy_user (clr m 0x10000 rm_filesz rm_memsz)
                             0x10000 0 (data img) 0 rm_filesz)
                          BZI_LOAD_HIGH_ADDR pm_sz pm_sz)
                     BZI_LOAD_HIGH_ADDR 0 (data img) rm_filesz pm_sz a).
  { intros a H1 H2. subst m'.
    apply bzimage_write_header_outside; assumption. }
  unfold BZI_LOAD_HIGH_ADDR, BZI_HDR_OFFSET, BZI_CMDLINE_OFFSET,
    BZI_STACK_SIZE, BZI_CMDLINE_SIZE, Hdr.sizeof in *.
  cbn [Z.of_nat Pos.of_succ_nat Pos.succ] in *.
  split; [|split].
  - intros i Hi.
    rewrite Hwr by lia.
    replace (0x100000 + i) with (0x100000 + 0 + i) by lia.
    rewrite memcpy_user_inside by lia.
    rewrite Hclr by lia.
    rewrite memcpy_user_outside by lia.
    apply Hclr; lia.
  - intros i Hi Hhdr Hrec.
    rewrite Hwr by lia.
    rewrite memcpy_user_outside by lia.
    rewrite Hclr by lia.
    replace (0x10000 + i) with (0x10000 + 0 + i) by lia.
    rewrite memcpy_user_inside by lia.
    rewrite Z.add_0_r. apply Hclr; lia.
  - intros a Hrm Hpm.
    rewrite Hwr by lia.
    rewrite memcpy_user_outside by lia.
    rewrite Hclr by lia.
    rewrite memcpy_user_outside by lia.
    apply Hclr; lia.
Qed.

Lemma bzimage_load_contents_witness :
  snd (bzimage_load (ram_check 0x40000000) zero_tail sample_mem sample_kernel)
      (BZI_LOAD_HIGH_ADDR + 7)
  = sample_mem (0x200000 + 2560 + 7).
Proof.
  assert (Hst : fst (fst (bzimage_load (ram_check 0x40000000) zero_tail
                            sample_mem sample_kernel)) = inr tt)
    by (vm_compute; reflexivity).
  destruct (bzimage_load (ram_check 0x40000000) zero_tail
              sample_mem sample_kernel) as [[r img'] m'] eqn:Hload.
  cbn [fst snd] in *. subst r.
  destruct (bzimage_load_contents (ram_check 0x40000000) zero_tail
              sample_mem m' sample_kernel img') as [Hpm _].
  - intros m0 s f z a Hf Ha. apply zero_tail_outside; assumption.
  - exact Hload.
  - vm_compute. reflexivity.
  - vm_compute. reflexivity.
  - vm_compute. discriminate.
  - rewrite (Hpm 7) by (split; [vm_compute; discriminate
                               | vm_compute; reflexivity]).
    f_equal.
Defined.

(** ** Execution: how it can end *)

Lemma bzimage_parse_cmdline_rm (exec_ctx exec_ctx' : ExecCtx.t)
  (cmdline : string) :
  bzimage_parse_cmdline exec_ctx cmdline = inr exec_ctx' ->
  ExecCtx.rm_kernel_seg exec_ctx' = ExecCtx.rm_kernel_seg exec_ctx /\
  ExecCtx.rm_kernel exec_ctx' = ExecCtx.rm_kernel exec_ctx /\
  ExecCtx.rm_heap exec_ctx' = ExecCtx.rm_heap exec_ctx /\
  ExecCtx.rm_cmdline exec_ctx' = ExecCtx.rm_cmdline exec_ctx /\
  ExecCtx.ramdisk_image exec_ctx' = ExecCtx.ramdisk_image exec_ctx /\
  ExecCtx.ramdisk_size exec_ctx' = ExecCtx.ramdisk_size exec_ctx.
Proof.
  unfold bzimage_parse_cmdline.
  destruct (strstr cmdline "mem=") as [mem|];
    [destruct (strtoul (str_advance 4 mem) 0) as [value rest]|];
    destruct (strstr cmdline "vga=") as [vga|];
    try (destruct (strcmp (str_advance 4 vga) "normal" =? 0);
         [|destruct (strcmp (str_advance 4 vga) "ext" =? 0);
           [|destruct (strcmp (str_advance 4 vga) "ask" =? 0)]]);
    intros H; injection H as <-;
    cbn [ExecCtx.set_vid_mode ExecCtx.set_mem_limit ExecCtx.rm_kernel_seg
         ExecCtx.rm_kernel ExecCtx.rm_heap ExecCtx.rm_cmdline
         ExecCtx.ramdisk_image ExecCtx.ramdisk_size];
    repeat match goal with |- _ /\ _ => split end; reflexivity.
Qed.

Lemma bzimage_load_initrd_search_error
  (chk : Z -> Z -> Z -> option errno) (clr : mem -> Z -> Z -> Z -> mem)
  (fuel : nat) (m : mem) (img initrd : image) (ceiling start : Z) (e : errno) :
  bzimage_load_initrd_search chk clr fuel m img ceiling initrd start
    = Some (inl e) ->
  e = ENOBUFS.
Proof.
  revert start. induction fuel as [|fuel IH]; intros start;
    cbn [bzimage_load_initrd_search]; [discriminate|].
  destruct (_ <=? _); [intros H; now injection H as <-|].
  destruct (_ <? _); [apply IH|].
  destruct (prep_segment _ _ _ _ _ _); [apply IH | discriminate].
Qed.

Lemma bzimage_load_initrd_keeps
  (chk : Z -> Z -> Z -> option errno) (clr : mem -> Z -> Z -> Z -> mem)
  (fuel : nat) (m m' : mem) (img initrd : image)
  (exec_ctx exec_ctx' : ExecCtx.t) :
  bzimage_load_initrd chk clr fuel m img exec_ctx initrd
    = Some (inr exec_ctx', m') ->
  exists start,
    exec_ctx' = ExecCtx.set_ramdisk exec_ctx start (len initrd).
Proof.
  unfold bzimage_load_initrd.
  destruct (_ <=? _); [intros H; injection H as <- _; eexists; reflexivity|].
  destruct (bzimage_load_initrd_search _ _ _ _ _ _ _ _) as [[e|[s m1]]|];
    intros H; try discriminate.
  injection H as <- _. eexists; reflexivity.
Qed.

Lemma u16_fixed (x : Z) : 0 <= x -> (u16 x = x <-> x < 0x10000).
Proof.
  intros Hx. unfold u16. change (2 ^ 16) with 65536. split.
  - intros H. pose proof (Z.mod_pos_bound x 65536) as Hb. lia.
  - intros H. apply Z.mod_small. lia.
Qed.

(** X8.  How [bzimage_exec] can end.  If it returns to its caller, the
    error is [ENOBUFS], an initrd image is registered, and [shutdown] has
    not been called: parsing and storing the command line never make it
    fail.  If it jumps, [shutdown] has been called exactly once and
    execution continues at offset 0.  The registers are 16 bits wide:
    the data segment registers hold the low 16 bits of the image's
    private data, which is that value itself exactly when it is below
    0x10000; the code segment holds the low 16 bits of the private data
    plus 0x20; the stack pointer holds the low 16 bits of the stored
    header's heap end plus 0x200.  The command line was stored at that
    sum taken in full, so the stack pointer is the command-line offset
    exactly when the heap end is below 0xfe00, and differs from it
    otherwise. *)
Theorem bzimage_exec_outcome
  (chk : Z -> Z -> Z -> option errno) (clr : mem -> Z -> Z -> Z -> mem)
  (fuel : nat) (images : list image) (w : world) (img : image)
  (out : exec_outcome) :
  bzimage_exec chk clr fuel images w img = Some out ->
  let rm_kernel_seg := u32 (priv img) in
  let bzhdr :=
    copy_from_user (w_mem w) (real_to_user rm_kernel_seg 0)
      BZI_HDR_OFFSET Hdr.sizeof in
  match out with
  | Returned e w' =>
      e = ENOBUFS /\
      find image_is_initrd images <> None /\
      w_shutdowns w' = w_shutdowns w
  | Jumped seg sp cs ip exec_ctx w' =>
      w_shutdowns w' = S (w_shutdowns w) /\
      seg = u16 rm_kernel_seg /\
      cs = u16 (rm_kernel_seg + 0x20) /\
      ip = 0 /\
      sp = u16 (Hdr.get Hdr.heap_end_ptr bzhdr + 0x200) /\
      ExecCtx.rm_cmdline exec_ctx = Hdr.get Hdr.heap_end_ptr bzhdr + 0x200 /\
      (sp = ExecCtx.rm_cmdline exec_ctx <->
       Hdr.get Hdr.heap_end_ptr bzhdr < 0xfe00) /\
      (seg = rm_kernel_seg <-> rm_kernel_seg < 0x10000)
  end.
Proof.
  intros Hrun rm_kernel_seg bzhdr.
  unfold bzimage_exec, bzimage_exec_init in Hrun.
  fold rm_kernel_seg in Hrun. fold bzhdr in Hrun.
  pose proof (hdr_get_range Hdr.heap_end_ptr bzhdr) as Hheap.
  change (256 ^ Z.of_nat (Hdr.sz Hdr.heap_end_ptr)) with 65536 in Hheap.
  rewrite (u32_small (Hdr.get Hdr.heap_end_ptr bzhdr + 0x200)) in Hrun
    by (change (2 ^ 32) with 4294967296; lia).
  assert (Hsp : u16 (Hdr.get Hdr.heap_end_ptr bzhdr + 0x200)
                = Hdr.get Hdr.heap_end_ptr bzhdr + 0x200 <->
                Hdr.get Hdr.heap_end_ptr bzhdr < 0xfe00).
  { split; intros H; [apply u16_fixed in H; lia | apply u16_fixed; lia]. }
  assert (Hsg : u16 rm_kernel_seg = rm_kernel_seg <->
                rm_kernel_seg < 0x10000).
  { apply u16_fixed. subst rm_kernel_seg. unfold u32.
    apply Z.mod_pos_bound. lia. }
  destruct (bzimage_parse_cmdline _ _) as [e|exec_ctx1] eqn:Hparse.
  { unfold bzimage_parse_cmdline in Hparse. discriminate. }
  apply bzimage_parse_cmdline_rm in Hparse
    as [Hseg [_ [Hheap1 [Hcmd1 _]]]].
  cbn [ExecCtx.rm_kernel_seg ExecCtx.rm_heap ExecCtx.rm_cmdline]
    in Hseg, Hheap1, Hcmd1.
  unfold bzimage_set_cmdline in Hrun.
  destruct (find image_is_initrd images) as [initrd|] eqn:Hfind.
  - destruct (bzimage_load_initrd _ _ _ _ _ _ _)
      as [[[e|exec_ctx2] m2]|] eqn:Hinitrd; [| |discriminate].
    + injection Hrun as <-.
      split; [|split; [discriminate | reflexivity]].
      unfold bzimage_load_initrd in Hinitrd.
      destruct (_ <=? _); [discriminate|].
      destruct (bzimage_load_initrd_search _ _ _ _ _ _ _ _)
        as [[e'|[s m1]]|] eqn:Hsearch; try discriminate.
      injection Hinitrd as <- _.
      eapply bzimage_load_initrd_search_error. exact Hsearch.
    + apply bzimage_load_initrd_keeps in Hinitrd as [start ->].
      unfold bzimage_exec_boot in Hrun. injection Hrun as <-.
      cbn [ExecCtx.set_ramdisk ExecCtx.rm_kernel_seg ExecCtx.rm_heap
           ExecCtx.rm_cmdline shutdown w_shutdowns].
      rewrite Hseg, Hheap1, Hcmd1.
      repeat (split; [reflexivity|]). split; assumption.
  - unfold bzimage_exec_boot in Hrun. injection Hrun as <-.
    cbn [shutdown w_shutdowns].
    rewrite Hseg, Hheap1, Hcmd1.
    repeat (split; [reflexivity|]). split; assumption.
Qed.

Lemma bzimage_exec_outcome_witness :
  match bzimage_exec (ram_check 0x40000000) zero_tail 0 []
          (mk_world full_heap_mem 0) small_kernel with
  | Some (Jumped seg sp cs ip exec_ctx w') =>
      seg = 0x1000 /\ cs = 0x1020 /\ w_shutdowns w' = 1%nat /\
      sp = 0 /\ ExecCtx.rm_cmdline exec_ctx = 0x10000
  | _ => False
  end.
Proof.
  assert (Hj : match bzimage_exec (ram_check 0x40000000) zero_tail 0 []
                       (mk_world full_heap_mem 0) small_kernel with
               | Some (Jumped _ _ _ _ _ _) => true
               | _ => false
               end = true) by (vm_compute; reflexivity).
  assert (Hseg : u16 (u32 (priv small_kernel)) = 0x1000)
    by (vm_compute; reflexivity).
  assert (Hcs : u16 (u32 (priv small_kernel) + 0x20) = 0x1020)
    by (vm_compute; reflexivity).
  assert (Hend : Hdr.get Hdr.heap_end_ptr
                   (copy_from_user full_heap_mem
                      (real_to_user (u32 (priv small_kernel)) 0)
                      BZI_HDR_OFFSET Hdr.sizeof) = 0xfe00)
    by (vm_compute; reflexivity).
  destruct (bzimage_exec (ram_check 0x40000000) zero_tail 0 []
              (mk_world full_heap_mem 0) small_kernel)
    as [[e w'|seg sp cs ip exec_ctx w']|] eqn:Hrun; try discriminate Hj.
  pose proof (bzimage_exec_outcome _ _ _ _ _ _ _ Hrun) as H.
  cbv zeta in H. cbn [w_mem] in H. rewrite Hend in H.
  destruct H as [Hdown [-> [-> [_ [-> [-> _]]]]]].
  split; [exact Hseg|]. split; [exact Hcs|]. split; [exact Hdown|].
  split; vm_compute; reflexivity.
Defined.

Lemma bzimage_exec_after_load_witness :
  exists seg sp cs exec_ctx w',
    bzimage_exec (ram_check 0x40000000) zero_tail 0 []
      (mk_world (snd sample_loaded) 0) (snd (fst sample_loaded))
    = Some (Jumped seg sp cs 0 exec_ctx w') /\
    ExecCtx.vid_mode exec_ctx = 0x317 /\
    ExecCtx.mem_limit exec_ctx = 0x38000000.
Proof.
  assert (Hst : fst (fst sample_loaded) = inr tt) by (vm_compute; reflexivity).
  unfold sample_loaded in *.
  destruct (bzimage_load (ram_check 0x40000000) zero_tail sample_mem
              sample_kernel) as [[r img'] m'] eqn:Hload.
  cbn [fst snd] in *. subst r.
  destruct (bzimage_exec_after_load (ram_check 0x40000000) zero_tail 0 [] 0
              sample_mem m' sample_kernel img' Hload eq_refl eq_refl)
    as [seg [sp [cs [exec_ctx [w' [Hrun [Hvid [Hlim _]]]]]]]].
  exists seg, sp, cs, exec_ctx, w'.
  split; [exact Hrun|]. split.
  - rewrite Hvid. vm_compute. reflexivity.
  - rewrite Hlim. vm_compute. reflexivity.
Defined.

Lemma bzimage_set_cmdline_bytes_witness :
  fst (bzimage_set_cmdline (fun _ => xff)
         (ExecCtx.mk 0x1000 0x10000 0x1a00 0x1a00 0 0 0 0) "quiet")
  = inr tt /\
  In x00 (firstn 6 (cstring_bytes "quiet")).
Proof.
  destruct (bzimage_set_cmdline_bytes (fun _ => xff)
              (ExecCtx.mk 0x1000 0x10000 0x1a00 0x1a00 0 0 0 0) "quiet")
    as [Hok [_ Hnul]]; [vm_compute; reflexivity|].
  split; [exact Hok|].
  apply (proj2 (Hnul eq_refl)). vm_compute. reflexivity.
Defined.

(** ** Initrd relocator: where the initrd ends up *)

Lemma bzimage_load_initrd_search_success
  (chk : Z -> Z -> Z -> option errno) (clr : mem -> Z -> Z -> Z -> mem)
  (m : mem) (img initrd : image) (ceiling : Z) (fuel : nat) :
  0 <= len initrd -> 0 <= len img -> exclusion_bound img < 2 ^ 32 ->
  forall (start s : Z) (m' : mem),
    0 <= start -> start + len initrd < 2 ^ 32 ->
    bzimage_load_initrd_search chk clr fuel m img ceiling initrd start
      = Some (inr (s, m')) ->
    s <= start /\
    (start - s) mod 0x100000 = 0 /\
    exclusion_bound img < s /\
    s + len initrd <= ceiling /\
    chk s (len initrd) (len initrd) = None /\
    m' = relocated clr m initrd s.
Proof.
  intros HL Hk HB.
  induction fuel as [|fuel IH]; intros start s m' Hpos Htop;
    cbn [bzimage_load_initrd_search]; [discriminate|].
  fold (exclusion_bound img). rewrite (u32_small (exclusion_bound img))
    by (unfold exclusion_bound, BZI_LOAD_HIGH_ADDR in *; lia).
  destruct (Z.leb_spec start (exclusion_bound img)) as [Hlow|Hhigh];
    [discriminate|].
  rewrite (u32_small (start + len initrd)) by lia.
  assert (Hstep : 0x100000 <= start)
    by (unfold exclusion_bound, BZI_LOAD_HIGH_ADDR in *; lia).
  rewrite (u32_small (start - 0x100000)) by lia.
  assert (Hrec :
    bzimage_load_initrd_search chk clr fuel m img ceiling initrd
      (start - 0x100000) = Some (inr (s, m')) ->
    s <= start /\
    (start - s) mod 0x100000 = 0 /\
    exclusion_bound img < s /\
    s + len initrd <= ceiling /\
    chk s (len initrd) (len initrd) = None /\
    m' = relocated clr m initrd s).
  { intros Hrun.
    destruct (IH (start - 0x100000) s m') as [H1 [H2 H3]]; try lia;
      [exact Hrun|].
    split; [lia|]. split; [|exact H3].
    replace (start - s) with (start - 0x100000 - s + 1 * 0x100000) by lia.
    rewrite Z.mod_add by lia. exact H2. }
  destruct (Z.ltb_spec ceiling (start + len initrd)) as [Hover|Hfit];
    [exact Hrec|].
  unfold prep_segment, phys_to_user.
  destruct (chk start (len initrd) (len initrd)) as [e|] eqn:Hchk;
    [exact Hrec|].
  intros Hrun. injection Hrun as <- <-.
  split; [lia|]. split; [now rewrite Z.sub_diag|].
  split; [exact Hhigh|]. split; [exact Hfit|]. split; [exact Hchk|].
  reflexivity.
Qed.

(** X10.  Whenever [bzimage_load_initrd] succeeds (the initrd buffer
    lies in the 32-bit address space, the exclusion bound is below
    4 GiB, and the platform clears nothing of a segment whose memory size
    is its file size): the recorded size is the initrd's length; the
    recorded range ends at or below the memory limit; the recorded
    address is the buffer itself or lies a whole number of MiB below it
    and above the exclusion bound; the recorded range holds the bytes
    of the initrd; every byte outside it is unchanged; and the rest of
    the execution context is untouched. *)
Theorem bzimage_load_initrd_result
  (chk : Z -> Z -> Z -> option errno) (clr : mem -> Z -> Z -> Z -> mem)
  (fuel : nat) (m m' : mem) (img initrd : image)
  (exec_ctx exec_ctx' : ExecCtx.t) :
  (forall m0 s n a, clr m0 s n n a = m0 a) ->
  0 <= data initrd -> 0 <= len initrd ->
  data initrd + len initrd < 2 ^ 32 ->
  0 <= len img -> exclusion_bound img < 2 ^ 32 ->
  bzimage_load_initrd chk clr fuel m img exec_ctx initrd
    = Some (inr exec_ctx', m') ->
  let start := ExecCtx.ramdisk_image exec_ctx' in
  exec_ctx' = ExecCtx.set_ramdisk exec_ctx start (len initrd) /\
  start + len initrd <= ExecCtx.mem_limit exec_ctx /\
  (start = data initrd \/
   start < data initrd /\ exclusion_bound img < start /\
   (data initrd - start) mod 0x100000 = 0) /\
  (forall i, 0 <= i < len initrd -> m' (start + i) = m (data initrd + i)) /\
  (forall a, a < start \/ start + len initrd <= a -> m' a = m a).
Proof.
  intros Hclr HS HL Hbuf Hk HB Hrun start.
  assert (Hstart : user_to_phys (data initrd) 0 = data initrd).
  { unfold user_to_phys. rewrite Z.add_0_r. apply u32_small. lia. }
  unfold bzimage_load_initrd in Hrun. rewrite Hstart in Hrun.
  rewrite (u32_small (data initrd + len initrd)) in Hrun by lia.
  destruct (Z.leb_spec (data initrd + len initrd) (ExecCtx.mem_limit exec_ctx))
    as [Hfit|Hover].
  - injection Hrun as <- <-. subst start.
    cbn [ExecCtx.set_ramdisk ExecCtx.ramdisk_image].
    split; [reflexivity|]. split; [exact Hfit|]. split; [left; reflexivity|].
    split; reflexivity.
  - destruct (bzimage_load_initrd_search _ _ _ _ _ _ _ _)
      as [[e|[s m1]]|] eqn:Hsearch; try discriminate.
    injection Hrun as <- <-. subst start.
    cbn [ExecCtx.set_ramdisk ExecCtx.ramdisk_image].
    destruct (bzimage_load_initrd_search_success chk clr m img initrd
                (ExecCtx.mem_limit exec_ctx) fuel HL Hk HB
                (data initrd) s m1 HS Hbuf Hsearch)
      as [Hle [Hmod [Hbound [Hfit [_ ->]]]]].
    split; [reflexivity|]. split; [exact Hfit|].
    split; [right; repeat split; try assumption; lia|].
    unfold relocated. split.
    + intros i Hi.
      replace (s + i) with (s + 0 + i) by lia.
      rewrite memcpy_user_inside by exact Hi.
      rewrite Hclr. f_equal. lia.
    + intros a Ha.
      rewrite memcpy_user_outside by lia. apply Hclr.
Qed.

Lemma bzimage_load_initrd_result_witness :
  match bzimage_load_initrd (ram_check 0x80000000) zero_tail 4096
          (fun _ => x00) small_kernel low_ceiling_ctx odd_initrd with
  | Some (inr exec_ctx', _) =>
      ExecCtx.ramdisk_image exec_ctx' + len odd_initrd
      <= ExecCtx.mem_limit low_ceiling_ctx
  | _ => False
  end.
Proof.
  assert (Hok : placed_at
            (bzimage_load_initrd (ram_check 0x80000000) zero_tail 4096
               (fun _ => x00) small_kernel low_ceiling_ctx odd_initrd)
          <> None) by (vm_compute; discriminate).
  destruct (bzimage_load_initrd (ram_check 0x80000000) zero_tail 4096
              (fun _ => x00) small_kernel low_ceiling_ctx odd_initrd)
    as [[[e|exec_ctx'] m']|] eqn:Hrun;
    try (exfalso; apply Hok; reflexivity).
  destruct (bzimage_load_initrd_result (ram_check 0x80000000) zero_tail 4096
              (fun _ => x00) m' small_kernel odd_initrd low_ceiling_ctx
              exec_ctx') as [_ [Hfit _]].
  - intros m0 s n a. apply zero_tail_same.
  - vm_compute. discriminate.
  - vm_compute. discriminate.
  - vm_compute. reflexivity.
  - vm_compute. discriminate.
  - vm_compute. reflexivity.
  - exact Hrun.
  - exact Hfit.
Defined.

(** ** From load to jump *)

Lemma copy_from_user_shift (m : mem) (src off src' off' : Z) (n : nat) :
  src + off = src' + off' ->
  copy_from_user m src off n = copy_from_user m src' off' n.
Proof.
  intros H. unfold copy_from_user. apply map_ext. intros i. f_equal. lia.
Qed.

Lemma bzimage_write_header_v202 (m : mem) (load_ctx : LoadCtx.t)
  (bzhdr : bzimage_header) :
  List.length bzhdr = Hdr.sizeof ->
  0x0202 <= Hdr.get Hdr.version bzhdr ->
  exists bzhdr',
    bzimage_write_header m load_ctx bzhdr
      = (inr bzhdr',
         copy_to_user m (LoadCtx.rm_kernel load_ctx) BZI_HDR_OFFSET bzhdr') /\
    List.length bzhdr' = Hdr.sizeof /\
    Hdr.get Hdr.type_of_loader bzhdr' = BZI_LOADER_TYPE_ETHERBOOT /\
    Hdr.get Hdr.heap_end_ptr bzhdr' = u16 (LoadCtx.rm_heap load_ctx - 0x200) /\
    Hdr.get Hdr.cmd_line_ptr bzhdr' =
      u32 (LoadCtx.rm_kernel load_ctx + LoadCtx.rm_cmdline load_ctx) /\
    Hdr.get Hdr.version bzhdr' = Hdr.get Hdr.version bzhdr.
Proof.
  intros Hlen Hver. unfold bzimage_write_header. hdr_fields.
  destruct (Z.leb_spec 0x0201 (Hdr.get Hdr.version bzhdr)); [|lia].
  hdr_fields.
  destruct (Z.leb_spec 0x0202 (Hdr.get Hdr.version bzhdr)); [|lia].
  eexists. split; [reflexivity|].
  split; [hdr_len|]. hdr_fields.
  split; [reflexivity|]. split; [reflexivity|].
  split; [|reflexivity].
  unfold user_to_phys, u32.
  change (256 ^ Z.of_nat (Hdr.sz Hdr.cmd_line_ptr)) with (2 ^ 32).
  apply Z.mod_mod. lia.
Qed.

Lemma set_cmdline_len (cmdline : string) :
  strlen cmdline + 1 < 2 ^ 32 ->
  let n := Z.to_nat (Z.min (strlen cmdline + 1) BZI_CMDLINE_SIZE) in
  Z.to_nat (if BZI_CMDLINE_SIZE <? u32 (strlen cmdline + 1)
            then BZI_CMDLINE_SIZE else u32 (strlen cmdline + 1)) = n /\
  List.length (firstn n (cstring_bytes cmdline)) = n /\
  (n <= 256)%nat.
Proof.
  intros Hlen n.
  assert (Hpos : 0 <= strlen cmdline) by (unfold strlen; lia).
  pose proof (cstring_bytes_length cmdline) as Hbytes.
  split; [|split].
  - rewrite u32_small by lia. subst n. f_equal.
    destruct (Z.ltb_spec BZI_CMDLINE_SIZE (strlen cmdline + 1)); lia.
  - rewrite length_firstn. subst n. lia.
  - subst n. unfold BZI_CMDLINE_SIZE. lia.
Qed.

(** X11.  What the kernel finds at the jump.  An image of protocol
    version 2.02 or later whose real-mode part, stack and command-line
    area fit in one 64 KiB segment is loaded and then executed with no
    initrd registered.  Execution jumps to 0x1020:0 with the segment
    registers at 0x1000 and the stack pointer at the heap top that the
    load chose, which is the size of the real-mode part plus
    [BZI_STACK_SIZE].  The header then stored in the segment carries the
    loader type, that heap top less 0x200 as heap end, the video mode of
    the execution context in 16 bits, no ramdisk, and as command-line
    pointer the physical address of the heap top; and at the address
    this pointer names stand the first min (strlen + 1,
    BZI_CMDLINE_SIZE) bytes of the terminated command line. *)
Theorem bzimage_exec_kernel_view
  (chk : Z -> Z -> Z -> option errno) (clr : mem -> Z -> Z -> Z -> mem)
  (fuel : nat) (images : list image) (shutdowns : nat)
  (m m' : mem) (img img' : image) :
  bzimage_load chk clr m img = (inr tt, img', m') ->
  len img < 2 ^ 32 ->
  find image_is_initrd images = None ->
  let bzhdr := copy_from_user m (data img) BZI_HDR_OFFSET Hdr.sizeof in
  let rm_filesz := rm_size_of (Hdr.get Hdr.setup_sects bzhdr) in
  let heap := rm_filesz + BZI_STACK_SIZE in
  let line := match cmdline img with Some c => c | None => ""%string end in
  let n := Z.to_nat (Z.min (strlen line + 1) BZI_CMDLINE_SIZE) in
  0x0202 <= Hdr.get Hdr.version bzhdr ->
  heap + BZI_CMDLINE_SIZE <= 0x10000 ->
  strlen line + 1 < 2 ^ 32 ->
  exists exec_ctx w',
    bzimage_exec chk clr fuel images (mk_world m' shutdowns) img'
      = Some (Jumped 0x1000 heap 0x1020 0 exec_ctx w') /\
    let stored := copy_from_user (w_mem w') 0x10000 BZI_HDR_OFFSET Hdr.sizeof in
    Hdr.get Hdr.cmd_line_ptr stored = 0x10000 + heap /\
    Hdr.get Hdr.heap_end_ptr stored = heap - 0x200 /\
    Hdr.get Hdr.type_of_loader stored = BZI_LOADER_TYPE_ETHERBOOT /\
    Hdr.get Hdr.vid_mode stored = u16 (ExecCtx.vid_mode exec_ctx) /\
    Hdr.get Hdr.ramdisk_image stored = 0 /\
    Hdr.get Hdr.ramdisk_size stored = 0 /\
    copy_from_user (w_mem w') (Hdr.get Hdr.cmd_line_ptr stored) 0 n
      = firstn n (cstring_bytes line).
Proof.
  intros Hload Hlen Hfind bzhdr rm_filesz heap line n Hver Hseg Hline.
  destruct (bzimage_load_success chk clr m m' img img' Hload Hlen)
    as [Hsize [_ [_ [_ [_ [Hm' [Hpriv Hcmd]]]]]]].
  fold bzhdr in Hsize, Hm'.
  unfold load_ctx_of in Hsize. cbn [LoadCtx.rm_filesz] in Hsize.
  fold rm_filesz in Hsize.
  destruct (bzimage_write_header_v202
              (loaded_segments clr m img (load_ctx_of bzhdr (len img)))
              (load_ctx_of bzhdr (len img)) bzhdr)
    as [bzhdr' [Hwrite [Hlen' [Hloader [Hheap [Hptr _]]]]]];
    [apply copy_from_user_length | exact Hver |].
  rewrite Hwrite in Hm'. cbn [snd] in Hm'.
  unfold load_ctx_of in Hm', Hheap, Hptr.
  cbn [LoadCtx.rm_kernel LoadCtx.rm_heap LoadCtx.rm_cmdline] in Hm', Hheap, Hptr.
  fold rm_filesz in Hm', Hheap, Hptr. fold heap in Hheap, Hptr.
  unfold BZI_STACK_SIZE in *.
  assert (Hheap16 : 0x1400 <= heap < 0x10000 - 0x100 + 1)
    by (subst heap; unfold BZI_STACK_SIZE, BZI_CMDLINE_SIZE in *; lia).
  rewrite (u32_small (0x10000 + heap)) in Hptr
    by (change (2 ^ 32) with 4294967296; lia).
  assert (Hheap' : Hdr.get Hdr.heap_end_ptr bzhdr' = heap - 0x200).
  { rewrite Hheap. unfold u16. apply Z.mod_small.
    change (2 ^ 16) with 65536. lia. }
  clear Hheap.
  unfold bzimage_exec, bzimage_exec_init.
  cbn [w_mem w_shutdowns]. rewrite Hpriv, Hcmd. fold line.
  change (real_to_user (u32 0x1000) 0) with 0x10000.
  change (u32 0x1000) with 0x1000.
  assert (Hread : copy_from_user m' 0x10000 BZI_HDR_OFFSET Hdr.sizeof = bzhdr').
  { rewrite Hm', <- Hlen'. apply copy_from_user_written. }
  rewrite Hread, Hheap'.
  replace (heap - 512 + 512) with heap by lia.
  rewrite (u32_small heap) by (change (2 ^ 32) with 4294967296; lia).
  destruct (bzimage_parse_cmdline _ line) as [e|exec_ctx1] eqn:Hparse;
    [unfold bzimage_parse_cmdline in Hparse; discriminate|].
  apply bzimage_parse_cmdline_rm in Hparse as [Hs [Hk [Hh [Hc [Hri Hrs]]]]].
  cbn [ExecCtx.rm_kernel_seg ExecCtx.rm_kernel ExecCtx.rm_heap
       ExecCtx.rm_cmdline ExecCtx.ramdisk_image ExecCtx.ramdisk_size]
    in Hs, Hk, Hh, Hc, Hri, Hrs.
  destruct (set_cmdline_len line Hline) as [Hn [Hfn Hn256]].
  change (Z.to_nat (Z.min (strlen line + 1) BZI_CMDLINE_SIZE)) with n
    in Hn, Hfn, Hn256.
  unfold bzimage_set_cmdline. rewrite Hfind, Hn, Hk, Hc.
  unfold bzimage_exec_boot.
  cbn [w_mem w_shutdowns shutdown]. rewrite Hs, Hk, Hh, Hri, Hrs.
  change (u16 0x1000) with 0x1000. change (u16 (0x1000 + 0x20)) with 0x1020.
  change (0x1000 * 16) with 0x10000.
  assert (U : forall d, 0 <= d <= 4 -> u16 (heap - d) = heap - d).
  { intros d Hd. unfold u16. apply Z.mod_small.
    change (2 ^ 16) with 65536. lia. }
  replace (u16 heap) with heap
    by (symmetry; unfold u16; apply Z.mod_small;
        change (2 ^ 16) with 65536; lia).
  rewrite (U 2), (U 4) by lia.
  set (line_bytes := firstn n (cstring_bytes line)) in *.
  set (stored := Hdr.set Hdr.ramdisk_size 0
                   (Hdr.set Hdr.ramdisk_image 0
                      (Hdr.set Hdr.vid_mode (ExecCtx.vid_mode exec_ctx1)
                         bzhdr'))).
  assert (Hstored_len : List.length stored = Hdr.sizeof)
    by (subst stored; hdr_len).
  eexists _, _. split; [reflexivity|]. cbn [w_mem].
  set (m1 := copy_to_user m' 0x10000 heap line_bytes).
  set (m2 := copy_to_user m1 0x10000 BZI_HDR_OFFSET stored).
  assert (Hpush : forall a, a < 0x10000 + (heap - 4) \/ 0x10000 + heap <= a ->
            copy_to_user
              (copy_to_user m2 0x10000 (heap - 2) (le_encode 2 0x1020))
              0x10000 (heap - 4) (le_encode 2 0) a = m2 a).
  { intros a Ha.
    rewrite !copy_to_user_outside
      by (cbn [le_encode List.length]; lia).
    reflexivity. }
  assert (Hhdr : copy_from_user
            (copy_to_user
               (copy_to_user m2 0x10000 (heap - 2) (le_encode 2 0x1020))
               0x10000 (heap - 4) (le_encode 2 0))
            0x10000 BZI_HDR_OFFSET Hdr.sizeof = stored).
  { transitivity (copy_from_user m2 0x10000 BZI_HDR_OFFSET Hdr.sizeof).
    - apply copy_from_user_ext. intros a Ha. apply Hpush.
      unfold BZI_HDR_OFFSET, Hdr.sizeof in Ha. lia.
    - subst m2. rewrite <- Hstored_len. apply copy_from_user_written. }
  rewrite Hhdr. subst stored. hdr_fields. rewrite Hptr, Hheap', Hloader.
  split; [reflexivity|]. split; [reflexivity|]. split; [reflexivity|].
  split; [reflexivity|]. split; [reflexivity|]. split; [reflexivity|].
  transitivity (copy_from_user m1 0x10000 heap n).
  - rewrite (copy_from_user_shift _ (0x10000 + heap) 0 0x10000 heap) by lia.
    apply copy_from_user_ext. intros a Ha.
    rewrite Hpush by lia. subst m2.
    apply copy_to_user_outside. rewrite hdr_set_sizeof by hdr_len.
    unfold BZI_HDR_OFFSET, Hdr.sizeof. lia.
  - subst m1. rewrite <- Hfn at 1. apply copy_from_user_written.
Qed.

Lemma bzimage_exec_kernel_view_witness :
  exists exec_ctx w',
    bzimage_exec (ram_check 0x40000000) zero_tail 0 []
      (mk_world (snd sample_quiet_loaded) 0) (snd (fst sample_quiet_loaded))
    = Some (Jumped 0x1000 6656 0x1020 0 exec_ctx w') /\
    Hdr.get Hdr.cmd_line_ptr
      (copy_from_user (w_mem w') 0x10000 BZI_HDR_OFFSET Hdr.sizeof)
    = 0x10000 + 6656.
Proof.
  assert (Hst : fst (fst sample_quiet_loaded) = inr tt)
    by (vm_compute; reflexivity).
  unfold sample_quiet_loaded in *.
  destruct (bzimage_load (ram_check 0x40000000) zero_tail sample_mem
              sample_kernel_quiet) as [[r img'] m'] eqn:Hload.
  cbn [fst snd] in *. subst r.
  pose proof (bzimage_exec_kernel_view (ram_check 0x40000000) zero_tail 0 []
                0 sample_mem m' sample_kernel_quiet img' Hload) as H.
  cbv zeta in H.
  assert (Hheap : rm_size_of
                    (Hdr.get Hdr.setup_sects
                       (copy_from_user sample_mem (data sample_kernel_quiet)
                          BZI_HDR_OFFSET Hdr.sizeof)) + BZI_STACK_SIZE = 6656)
    by (vm_compute; reflexivity).
  rewrite Hheap in H.
  destruct H as [exec_ctx [w' [Hrun [Hptr _]]]].
  - vm_compute. reflexivity.
  - reflexivity.
  - vm_compute. discriminate.
  - vm_compute. discriminate.
  - vm_compute. reflexivity.
  - exists exec_ctx, w'. split; [exact Hrun | exact Hptr].
Defined.

(** ** From load to jump, with an initrd *)

Lemma bzimage_load_image
  (chk : Z -> Z -> Z -> option errno) (clr : mem -> Z -> Z -> Z -> mem)
  (m : mem) (img : image) :
  len (snd (fst (bzimage_load chk clr m img))) = len img /\
  data (snd (fst (bzimage_load chk clr m img))) = data img.
Proof.
  unfold bzimage_load.
  destruct (bzimage_load_header m img LoadCtx.zero) as [e|[load_ctx h]];
    [split; reflexivity|].
  destruct (bzimage_load_real _ _ _ _ _) as [[e|c1] m1];
    [destruct (type img); split; reflexivity|].
  destruct (bzimage_load_non_real _ _ _ _ _) as [[e|c2] m2];
    [destruct (type img); split; reflexivity|].
  destruct (bzimage_write_header _ _ _) as [[e|c3] m3];
    destruct (type img); split; reflexivity.
Qed.

Lemma copy_from_user_moved (m m' : mem) (src off src' off' : Z) (n : nat) :
  (forall i, 0 <= i < Z.of_nat n -> m (src + off + i) = m' (src' + off' + i)) ->
  copy_from_user m src off n = copy_from_user m' src' off' n.
Proof.
  intros H. unfold copy_from_user. apply map_ext_in.
  intros i Hi. apply in_seq in Hi. apply H. lia.
Qed.

(** X12.  The initrd reaches the kernel.  An image of protocol version
    2.02 or later whose real-mode part, stack and command-line area fit
    in one 64 KiB segment is loaded; an initrd image is registered whose
    buffer lies at or above [BZI_LOAD_HIGH_ADDR] inside the 32-bit
    address space; the platform clears nothing of a segment whose memory
    size is its file size.  Whenever [bzimage_exec] then jumps, the header
    stored in the real-mode segment names the initrd: its ramdisk size is
    the initrd's length, its ramdisk address is the one recorded in the
    execution context, lies at or above [BZI_LOAD_HIGH_ADDR] and at or
    below the initrd's buffer, above the end of the loaded kernel when
    the initrd was moved, and the range ends at or below the memory
    limit; and the bytes found at that address are the bytes of the
    initrd's buffer: neither the command line, nor the header, nor the
    words pushed for the far return have touched them. *)
Theorem bzimage_exec_initrd_view
  (chk : Z -> Z -> Z -> option errno) (clr : mem -> Z -> Z -> Z -> mem)
  (fuel : nat) (images : list image) (shutdowns : nat)
  (m m' : mem) (img img' initrd : image)
  (seg sp cs ip : Z) (exec_ctx : ExecCtx.t) (w' : world) :
  (forall m0 s n a, clr m0 s n n a = m0 a) ->
  bzimage_load chk clr m img = (inr tt, img', m') ->
  exclusion_bound img < 2 ^ 32 ->
  find image_is_initrd images = Some initrd ->
  BZI_LOAD_HIGH_ADDR <= data initrd -> 0 <= len initrd ->
  data initrd + len initrd < 2 ^ 32 ->
  let bzhdr := copy_from_user m (data img) BZI_HDR_OFFSET Hdr.sizeof in
  let rm_filesz := rm_size_of (Hdr.get Hdr.setup_sects bzhdr) in
  let heap := rm_filesz + BZI_STACK_SIZE in
  let line := match cmdline img with Some c => c | None => ""%string end in
  0x0202 <= Hdr.get Hdr.version bzhdr ->
  heap + BZI_CMDLINE_SIZE <= 0x10000 ->
  strlen line + 1 < 2 ^ 32 ->
  bzimage_exec chk clr fuel images (mk_world m' shutdowns) img'
    = Some (Jumped seg sp cs ip exec_ctx w') ->
  let stored := copy_from_user (w_mem w') 0x10000 BZI_HDR_OFFSET Hdr.sizeof in
  let start := Hdr.get Hdr.ramdisk_image stored in
  Hdr.get Hdr.ramdisk_size stored = len initrd /\
  start = ExecCtx.ramdisk_image exec_ctx /\
  BZI_LOAD_HIGH_ADDR <= start <= data initrd /\
  (start <> data initrd -> exclusion_bound img < start) /\
  start + len initrd <= ExecCtx.mem_limit exec_ctx /\
  copy_from_user (w_mem w') start 0 (Z.to_nat (len initrd))
    = copy_from_user m' (data initrd) 0 (Z.to_nat (len initrd)).
Proof.
  intros Hclr Hload HB Hfind Hhigh HL Hbuf bzhdr rm_filesz heap line
    Hver Hseg Hline Hrun.
  assert (Hlen : len img < 2 ^ 32)
    by (unfold exclusion_bound, BZI_LOAD_HIGH_ADDR in HB; lia).
  destruct (bzimage_load_success chk clr m m' img img' Hload Hlen)
    as [Hsize [Hfits [_ [_ [_ [Hm' [Hpriv Hcmd]]]]]]].
  destruct (bzimage_load_image chk clr m img) as [Hlen' _].
  rewrite Hload in Hlen'. cbn [fst snd] in Hlen'.
  fold bzhdr in Hsize, Hfits, Hm'.
  unfold load_ctx_of in Hsize, Hfits. cbn [LoadCtx.rm_filesz] in Hsize, Hfits.
  fold rm_filesz in Hsize, Hfits.
  destruct (bzimage_write_header_v202
              (loaded_segments clr m img (load_ctx_of bzhdr (len img)))
              (load_ctx_of bzhdr (len img)) bzhdr)
    as [bzhdr' [Hwrite [Hlenh [Hloader [Hheap [Hptr _]]]]]];
    [apply copy_from_user_length | exact Hver |].
  rewrite Hwrite in Hm'. cbn [snd] in Hm'.
  unfold load_ctx_of in Hm', Hheap, Hptr.
  cbn [LoadCtx.rm_kernel LoadCtx.rm_heap LoadCtx.rm_cmdline] in Hm', Hheap, Hptr.
  fold rm_filesz in Hm', Hheap, Hptr. fold heap in Hheap, Hptr.
  assert (Hheap16 : 0x1400 <= heap <= 0x10000 - 0x100)
    by (subst heap; unfold BZI_STACK_SIZE, BZI_CMDLINE_SIZE in *; lia).
  assert (Hheap' : Hdr.get Hdr.heap_end_ptr bzhdr' = heap - 0x200).
  { rewrite Hheap. unfold u16. apply Z.mod_small.
    change (2 ^ 16) with 65536. lia. }
  clear Hheap Hptr.
  unfold bzimage_exec, bzimage_exec_init in Hrun.
  cbn [w_mem w_shutdowns] in Hrun. rewrite Hpriv, Hcmd in Hrun.
  fold line in Hrun.
  change (real_to_user (u32 0x1000) 0) with 0x10000 in Hrun.
  change (u32 0x1000) with 0x1000 in Hrun.
  assert (Hread : copy_from_user m' 0x10000 BZI_HDR_OFFSET Hdr.sizeof = bzhdr').
  { rewrite Hm', <- Hlenh. apply copy_from_user_written. }
  rewrite Hread, Hheap' in Hrun.
  replace (heap - 512 + 512) with heap in Hrun by lia.
  rewrite (u32_small heap) in Hrun by (change (2 ^ 32) with 4294967296; lia).
  destruct (bzimage_parse_cmdline _ line) as [e|exec_ctx1] eqn:Hparse;
    [unfold bzimage_parse_cmdline in Hparse; discriminate|].
  apply bzimage_parse_cmdline_rm in Hparse as [Hs [Hk [Hh [Hc _]]]].
  cbn [ExecCtx.rm_kernel_seg ExecCtx.rm_kernel ExecCtx.rm_heap
       ExecCtx.rm_cmdline] in Hs, Hk, Hh, Hc.
  destruct (set_cmdline_len line Hline) as [Hn [Hfn Hn256]].
  set (n := Z.to_nat (Z.min (strlen line + 1) BZI_CMDLINE_SIZE)) in *.
  unfold bzimage_set_cmdline in Hrun. rewrite Hfind, Hn, Hk, Hc in Hrun.
  set (line_bytes := firstn n (cstring_bytes line)) in *.
  set (m1 := copy_to_user m' 0x10000 heap line_bytes) in Hrun.
  assert (Hm1 : forall a, 0x100000 <= a -> m1 a = m' a).
  { intros a Ha. subst m1. apply copy_to_user_outside. lia. }
  destruct (bzimage_load_initrd chk clr fuel m1 img' exec_ctx1 initrd)
    as [[[e|ctx2] m2]|] eqn:Hi; try discriminate.
  assert (Hinit : exists s,
            ctx2 = ExecCtx.set_ramdisk exec_ctx1 s (len initrd) /\
            BZI_LOAD_HIGH_ADDR <= s <= data initrd /\
            (s <> data initrd -> exclusion_bound img < s) /\
            s + len initrd <= ExecCtx.mem_limit exec_ctx1 /\
            (forall i, 0 <= i < len initrd ->
               m2 (s + i) = m1 (data initrd + i)) /\
            (forall a, a < s \/ s + len initrd <= a -> m2 a = m1 a)).
  { assert (Hstart : user_to_phys (data initrd) 0 = data initrd).
    { unfold user_to_phys. rewrite Z.add_0_r. apply u32_small.
      unfold BZI_LOAD_HIGH_ADDR in Hhigh. lia. }
    unfold bzimage_load_initrd in Hi. rewrite Hstart in Hi.
    rewrite (u32_small (data initrd + len initrd)) in Hi
      by (unfold BZI_LOAD_HIGH_ADDR in Hhigh; lia).
    destruct (Z.leb_spec (data initrd + len initrd)
                (ExecCtx.mem_limit exec_ctx1)) as [Hfit|Hover].
    - injection Hi as <- <-. exists (data initrd).
      split; [reflexivity|]. split; [lia|]. split; [intros Hne; now elim Hne|].
      split; [exact Hfit|]. split; reflexivity.
    - destruct (bzimage_load_initrd_search _ _ _ _ _ _ _ _)
        as [[e|[s m3]]|] eqn:Hsearch; try discriminate.
      injection Hi as <- <-.
      assert (HB' : exclusion_bound img' < 2 ^ 32)
        by (unfold exclusion_bound in *; rewrite Hlen'; exact HB).
      assert (Hk' : 0 <= len img') by lia.
      destruct (bzimage_load_initrd_search_success chk clr m1 img' initrd
                  (ExecCtx.mem_limit exec_ctx1) fuel HL Hk' HB'
                  (data initrd) s m3
                  ltac:(unfold BZI_LOAD_HIGH_ADDR in Hhigh; lia) Hbuf Hsearch)
        as [Hle [_ [Hbound [Hfit [_ ->]]]]].
      assert (Hbound' : exclusion_bound img < s)
        by (unfold exclusion_bound in *; rewrite <- Hlen'; exact Hbound).
      exists s. split; [reflexivity|].
      split; [unfold exclusion_bound in Hbound'; lia|].
      split; [intros _; exact Hbound'|]. split; [exact Hfit|].
      unfold relocated. split.
      + intros i Hi.
        replace (s + i) with (s + 0 + i) by lia.
        rewrite memcpy_user_inside by exact Hi.
        rewrite Hclr. f_equal. lia.
      + intros a Ha.
        rewrite memcpy_user_outside by lia. apply Hclr. }
  destruct Hinit as [s [-> [Hs_rng [Hs_excl [Hs_fit [Hin Hout]]]]]].
  unfold bzimage_exec_boot in Hrun.
  cbn [w_mem w_shutdowns shutdown ExecCtx.set_ramdisk ExecCtx.rm_kernel_seg
       ExecCtx.rm_kernel ExecCtx.rm_heap ExecCtx.vid_mode
       ExecCtx.ramdisk_image ExecCtx.ramdisk_size] in Hrun.
  rewrite Hs, Hk, Hh in Hrun.
  change (u16 4096) with 0x1000 in Hrun.
  change (u16 (4096 + 32)) with 0x1020 in Hrun.
  change (0x1000 * 16) with 0x10000 in Hrun.
  assert (U : forall d, 0 <= d <= 4 -> u16 (heap - d) = heap - d).
  { intros d Hd. unfold u16. apply Z.mod_small.
    change (2 ^ 16) with 65536. lia. }
  replace (u16 heap) with heap in Hrun
    by (symmetry; unfold u16; apply Z.mod_small;
        change (2 ^ 16) with 65536; lia).
  rewrite (U 2), (U 4) in Hrun by lia.
  set (hdr2 := Hdr.set Hdr.ramdisk_size (len initrd)
                 (Hdr.set Hdr.ramdisk_image s
                    (Hdr.set Hdr.vid_mode (ExecCtx.vid_mode exec_ctx1)
                       bzhdr'))) in Hrun.
  assert (Hhdr2_len : List.length hdr2 = Hdr.sizeof)
    by (subst hdr2; hdr_len).
  set (m3 := copy_to_user m2 0x10000 BZI_HDR_OFFSET hdr2) in Hrun.
  set (mf := copy_to_user
               (copy_to_user m3 0x10000 (heap - 2) (le_encode 2 0x1020))
               0x10000 (heap - 4) (le_encode 2 0)) in Hrun.
  injection Hrun as _ _ _ _ <- <-. cbv zeta.
  cbn [w_mem ExecCtx.set_ramdisk ExecCtx.ramdisk_image ExecCtx.mem_limit].
  assert (Hpush : forall a, a < 0x10000 + (heap - 4) \/ 0x10000 + heap <= a ->
            mf a = m3 a).
  { intros a Ha. unfold mf.
    rewrite !copy_to_user_outside
      by (cbn [le_encode List.length]; lia).
    reflexivity. }
  assert (Hhdr : copy_from_user mf 0x10000 BZI_HDR_OFFSET Hdr.sizeof = hdr2).
  { transitivity (copy_from_user m3 0x10000 BZI_HDR_OFFSET Hdr.sizeof).
    - apply copy_from_user_ext. intros a Ha. apply Hpush.
      unfold BZI_HDR_OFFSET, Hdr.sizeof in Ha. lia.
    - unfold m3. rewrite <- Hhdr2_len. apply copy_from_user_written. }
  rewrite Hhdr. subst hdr2. hdr_fields.
  change (256 ^ Z.of_nat (Hdr.sz Hdr.ramdisk_size)) with (2 ^ 32).
  change (256 ^ Z.of_nat (Hdr.sz Hdr.ramdisk_image)) with (2 ^ 32).
  unfold BZI_LOAD_HIGH_ADDR in *.
  rewrite (Z.mod_small s), (Z.mod_small (len initrd)) by lia.
  split; [reflexivity|]. split; [reflexivity|]. split; [exact Hs_rng|].
  split; [exact Hs_excl|]. split; [exact Hs_fit|].
  apply copy_from_user_moved. intros i Hrng.
  rewrite Z2Nat.id in Hrng by exact HL.
  rewrite Hpush by lia. unfold m3.
  rewrite copy_to_user_outside
    by (rewrite !hdr_set_sizeof by hdr_len;
        unfold BZI_HDR_OFFSET, Hdr.sizeof; lia).
  rewrite Z.add_0_r, Hin by exact Hrng.
  rewrite Z.add_0_r. apply Hm1. lia.
Qed.

Lemma bzimage_exec_initrd_view_witness :
  match bzimage_exec (ram_check 0x40000000) zero_tail 4096 [odd_initrd]
          (mk_world (snd sample_quiet_loaded) 0)
          (snd (fst sample_quiet_loaded)) with
  | Some (Jumped _ _ _ _ exec_ctx w') =>
      let stored :=
        copy_from_user (w_mem w') 0x10000 BZI_HDR_OFFSET Hdr.sizeof in
      Hdr.get Hdr.ramdisk_size stored = len odd_initrd /\
      Hdr.get Hdr.ramdisk_image stored + len odd_initrd
      <= ExecCtx.mem_limit exec_ctx
  | _ => False
  end.
Proof.
  assert (Hst : fst (fst sample_quiet_loaded) = inr tt)
    by (vm_compute; reflexivity).
  assert (Hj : match bzimage_exec (ram_check 0x40000000) zero_tail 4096
                       [odd_initrd] (mk_world (snd sample_quiet_loaded) 0)
                       (snd (fst sample_quiet_loaded)) with
               | Some (Jumped _ _ _ _ _ _) => true
               | _ => false
               end = true) by (vm_compute; reflexivity).
  unfold sample_quiet_loaded in *.
  destruct (bzimage_load (ram_check 0x40000000) zero_tail sample_mem
              sample_kernel_quiet) as [[r img'] m'] eqn:Hload.
  cbn [fst snd] in *. subst r.
  destruct (bzimage_exec (ram_check 0x40000000) zero_tail 4096 [odd_initrd]
              (mk_world m' 0) img')
    as [[e w'|seg sp cs ip exec_ctx w']|] eqn:Hrun; try discriminate Hj.
  assert (Hheap : rm_size_of
                    (Hdr.get Hdr.setup_sects
                       (copy_from_user sample_mem (data sample_kernel_quiet)
                          BZI_HDR_OFFSET Hdr.sizeof)) + BZI_STACK_SIZE
                  + BZI_CMDLINE_SIZE <= 0x10000)
    by (vm_compute; discriminate).
  assert (Hver : 0x0202 <= Hdr.get Hdr.version
                             (copy_from_user sample_mem
                                (data sample_kernel_quiet)
                                BZI_HDR_OFFSET Hdr.sizeof))
    by (vm_compute; discriminate).
  assert (Hhigh : BZI_LOAD_HIGH_ADDR <= data odd_initrd)
    by (vm_compute; discriminate).
  assert (Hlen : 0 <= len odd_initrd) by (vm_compute; discriminate).
  destruct (bzimage_exec_initrd_view (ram_check 0x40000000) zero_tail 4096
              [odd_initrd] 0 sample_mem m' sample_kernel_quiet img'
              odd_initrd seg sp cs ip exec_ctx w'
              zero_tail_same Hload eq_refl eq_refl Hhigh Hlen eq_refl
              Hver Hheap eq_refl Hrun)
    as [Hsize [_ [_ [_ [Hfit _]]]]].
  split; [exact Hsize | exact Hfit].
Defined.

(** ** Execution: what is written *)

Lemma bzimage_load_initrd_search_mem
  (chk : Z -> Z -> Z -> option errno) (clr : mem -> Z -> Z -> Z -> mem)
  (fuel : nat) (m m' : mem) (img initrd : image) (ceiling start s : Z) :
  bzimage_load_initrd_search chk clr fuel m img ceiling initrd start
    = Some (inr (s, m')) ->
  m' = relocated clr m initrd s.
Proof.
  revert start. induction fuel as [|fuel IH]; intros start;
    cbn [bzimage_load_initrd_search]; [discriminate|].
  destruct (_ <=? _); [discriminate|].
  destruct (_ <? _); [apply IH|].
  unfold prep_segment, phys_to_user.
  destruct (chk start (len initrd) (len initrd)); [apply IH|].
  intros H. injection H as <- <-. reflexivity.
Qed.

Lemma bzimage_load_initrd_frame
  (chk : Z -> Z -> Z -> option errno) (clr : mem -> Z -> Z -> Z -> mem)
  (fuel : nat) (m m' : mem) (img initrd : image)
  (exec_ctx : ExecCtx.t) (r : rc ExecCtx.t) :
  (forall m0 s n a, clr m0 s n n a = m0 a) ->
  bzimage_load_initrd chk clr fuel m img exec_ctx initrd = Some (r, m') ->
  match r with
  | inl _ => m' = m
  | inr exec_ctx' =>
      forall a,
        ~ (ExecCtx.ramdisk_image exec_ctx' <= a
           < ExecCtx.ramdisk_image exec_ctx' + ExecCtx.ramdisk_size exec_ctx') ->
        m' a = m a
  end.
Proof.
  intros Hclr. unfold bzimage_load_initrd.
  destruct (_ <=? _); [intros H; injection H as <- <-; reflexivity|].
  destruct (bzimage_load_initrd_search _ _ _ _ _ _ _ _)
    as [[e|[s m1]]|] eqn:Hsearch; intros H; try discriminate.
  - injection H as <- <-. reflexivity.
  - injection H as <- <-.
    apply bzimage_load_initrd_search_mem in Hsearch. subst m1.
    cbn [ExecCtx.set_ramdisk ExecCtx.ramdisk_image ExecCtx.ramdisk_size].
    intros a Ha. unfold relocated.
    rewrite memcpy_user_outside by lia. apply Hclr.
Qed.

Lemma bzimage_exec_boot_frame (w : world) (exec_ctx : ExecCtx.t)
  (bzhdr : bzimage_header) :
  List.length bzhdr = Hdr.sizeof ->
  match bzimage_exec_boot w exec_ctx bzhdr with
  | Jumped seg sp cs ip exec_ctx' w' =>
      exec_ctx' = exec_ctx /\
      forall a,
        ~ (ExecCtx.rm_kernel exec_ctx + BZI_HDR_OFFSET <= a
           < ExecCtx.rm_kernel exec_ctx + BZI_HDR_OFFSET
             + Z.of_nat Hdr.sizeof) ->
        ~ (seg * 16 + u16 (sp - 4) <= a < seg * 16 + u16 (sp - 4) + 2) ->
        ~ (seg * 16 + u16 (sp - 2) <= a < seg * 16 + u16 (sp - 2) + 2) ->
        w_mem w' a = w_mem w a
  | Returned _ _ => False
  end.
Proof.
  intros Hlen. unfold bzimage_exec_boot. split; [reflexivity|].
  intros a Hhdr Hs4 Hs2. cbn [w_mem shutdown].
  rewrite !copy_to_user_outside; [reflexivity | | |].
  - rewrite !hdr_set_sizeof by hdr_len. lia.
  - cbn [le_encode List.length]. lia.
  - cbn [le_encode List.length]. lia.
Qed.

(** X13.  What [bzimage_exec] writes.  The platform clears nothing of a
    segment whose memory size is its file size.  When [bzimage_exec]
    returns to its caller, no byte outside the [BZI_CMDLINE_SIZE] bytes
    at the command-line offset of the real-mode segment has changed: a
    failed initrd placement leaves no trace.  When it jumps, the only
    bytes that can have changed are those, the stored header, the range
    recorded for the ramdisk, and the two words pushed for the far
    return below the stack pointer. *)
Theorem bzimage_exec_confined
  (chk : Z -> Z -> Z -> option errno) (clr : mem -> Z -> Z -> Z -> mem)
  (fuel : nat) (images : list image) (w : world) (img : image)
  (out : exec_outcome) :
  (forall m0 s n a, clr m0 s n n a = m0 a) ->
  bzimage_exec chk clr fuel images w img = Some out ->
  let rm_kernel := real_to_user (u32 (priv img)) 0 in
  let bzhdr := copy_from_user (w_mem w) rm_kernel BZI_HDR_OFFSET Hdr.sizeof in
  let rm_cmdline := Hdr.get Hdr.heap_end_ptr bzhdr + 0x200 in
  let in_cmdline a :=
    rm_kernel + rm_cmdline <= a < rm_kernel + rm_cmdline + BZI_CMDLINE_SIZE in
  match out with
  | Returned _ w' => forall a, ~ in_cmdline a -> w_mem w' a = w_mem w a
  | Jumped seg sp cs ip exec_ctx w' =>
      forall a,
        ~ in_cmdline a ->
        ~ (rm_kernel + BZI_HDR_OFFSET <= a
           < rm_kernel + BZI_HDR_OFFSET + Z.of_nat Hdr.sizeof) ->
        ~ (ExecCtx.ramdisk_image exec_ctx <= a
           < ExecCtx.ramdisk_image exec_ctx + ExecCtx.ramdisk_size exec_ctx) ->
        ~ (seg * 16 + u16 (sp - 4) <= a < seg * 16 + u16 (sp - 4) + 2) ->
        ~ (seg * 16 + u16 (sp - 2) <= a < seg * 16 + u16 (sp - 2) + 2) ->
        w_mem w' a = w_mem w a
  end.
Proof.
  intros Hclr Hrun rm_kernel bzhdr rm_cmdline in_cmdline.
  unfold bzimage_exec, bzimage_exec_init in Hrun.
  fold rm_kernel in Hrun. fold bzhdr in Hrun.
  pose proof (hdr_get_range Hdr.heap_end_ptr bzhdr) as Hheap.
  change (256 ^ Z.of_nat (Hdr.sz Hdr.heap_end_ptr)) with 65536 in Hheap.
  rewrite (u32_small (Hdr.get Hdr.heap_end_ptr bzhdr + 0x200)) in Hrun
    by (change (2 ^ 32) with 4294967296; lia).
  fold rm_cmdline in Hrun.
  assert (Hlen : List.length bzhdr = Hdr.sizeof)
    by apply copy_from_user_length.
  destruct (bzimage_parse_cmdline _ _) as [e|exec_ctx1] eqn:Hparse.
  { unfold bzimage_parse_cmdline in Hparse. discriminate. }
  apply bzimage_parse_cmdline_rm in Hparse as [_ [Hk [_ [Hc [Hri Hrs]]]]].
  cbn [ExecCtx.rm_kernel ExecCtx.rm_cmdline ExecCtx.ramdisk_image
       ExecCtx.ramdisk_size] in Hk, Hc, Hri, Hrs.
  destruct (bzimage_set_cmdline (w_mem w) exec_ctx1 _) as [[e|[]] m1] eqn:Hset.
  { unfold bzimage_set_cmdline in Hset. discriminate. }
  assert (Hm1 : forall a, ~ in_cmdline a -> m1 a = w_mem w a).
  { intros a Ha.
    pose proof (f_equal snd Hset) as Hs. cbn [snd] in Hs. subst m1.
    unfold bzimage_set_cmdline. cbn [snd]. rewrite Hk, Hc.
    apply copy_to_user_outside.
    match goal with |- context [firstn ?n ?l] =>
      pose proof (firstn_le_length n l) as Hl end.
    assert (Hu : 0 <= u32 (strlen match cmdline img with
                                   | Some c => c | None => ""%string end + 1))
      by (unfold u32; apply Z.mod_pos_bound; lia).
    subst in_cmdline. cbv beta in Ha.
    destruct (Z.ltb_spec BZI_CMDLINE_SIZE
                (u32 (strlen match cmdline img with
                             | Some c => c | None => ""%string end + 1)));
      unfold BZI_CMDLINE_SIZE in *; lia. }
  destruct (find image_is_initrd images) as [initrd|] eqn:Hfind.
  - destruct (bzimage_load_initrd _ _ _ _ _ _ _)
      as [[[e|exec_ctx2] m2]|] eqn:Hinitrd; [| |discriminate].
    + injection Hrun as <-. cbn [w_mem].
      apply (bzimage_load_initrd_frame _ _ _ _ _ _ _ _ _ Hclr) in Hinitrd.
      cbv beta iota in Hinitrd. subst m2. exact Hm1.
    + pose proof (bzimage_load_initrd_frame _ _ _ _ _ _ _ _ _ Hclr Hinitrd)
        as Hfr. cbv beta iota in Hfr.
      apply bzimage_load_initrd_keeps in Hinitrd as [start Hctx2].
      pose proof (bzimage_exec_boot_frame
                    (mk_world m2 (w_shutdowns w)) exec_ctx2 bzhdr Hlen) as Hb.
      destruct (bzimage_exec_boot _ exec_ctx2 bzhdr)
        as [e w'|seg sp cs ip ctx w'] eqn:Hboot; [contradiction|].
      destruct Hb as [-> Hb]. injection Hrun as <-.
      intros a Hcmd Hhdr Hrd Hs4 Hs2.
      assert (Hk2 : ExecCtx.rm_kernel exec_ctx2 = rm_kernel)
        by (rewrite Hctx2; cbn [ExecCtx.set_ramdisk ExecCtx.rm_kernel];
            exact Hk).
      rewrite Hk2 in Hb.
      rewrite (Hb a Hhdr Hs4 Hs2). cbn [w_mem].
      rewrite (Hfr a Hrd). apply Hm1. exact Hcmd.
  - pose proof (bzimage_exec_boot_frame
                  (mk_world m1 (w_shutdowns w)) exec_ctx1 bzhdr Hlen) as Hb.
    destruct (bzimage_exec_boot _ exec_ctx1 bzhdr)
      as [e w'|seg sp cs ip ctx w'] eqn:Hboot; [contradiction|].
    destruct Hb as [-> Hb]. injection Hrun as <-.
    intros a Hcmd Hhdr _ Hs4 Hs2.
    rewrite Hk in Hb.
    rewrite (Hb a Hhdr Hs4 Hs2). cbn [w_mem]. apply Hm1. exact Hcmd.
Qed.

Lemma bzimage_exec_confined_witness :
  match bzimage_exec (ram_check 0x40000000) zero_tail 0 []
          (mk_world (snd sample_loaded) 0) (snd (fst sample_loaded)) with
  | Some (Jumped _ _ _ _ _ w') =>
      w_mem w' 0x200000 = snd sample_loaded 0x200000
  | _ => False
  end.
Proof.
  assert (Hj : match bzimage_exec (ram_check 0x40000000) zero_tail 0 []
                       (mk_world (snd sample_loaded) 0)
                       (snd (fst sample_loaded)) with
               | Some (Jumped seg sp _ _ exec_ctx _) =>
                   (seg =? 0x1000) && (sp =? 6656)
                   && (ExecCtx.ramdisk_image exec_ctx =? 0)
                   && (ExecCtx.ramdisk_size exec_ctx =? 0)
               | _ => false
               end = true) by (vm_compute; reflexivity).
  assert (Hk : real_to_user (u32 (priv (snd (fst sample_loaded)))) 0
               = 0x10000) by (vm_compute; reflexivity).
  assert (Hc : Hdr.get Hdr.heap_end_ptr
                 (copy_from_user (snd sample_loaded) 0x10000
                    BZI_HDR_OFFSET Hdr.sizeof) + 0x200 = 6656)
    by (vm_compute; reflexivity).
  destruct (bzimage_exec (ram_check 0x40000000) zero_tail 0 []
              (mk_world (snd sample_loaded) 0) (snd (fst sample_loaded)))
    as [[e w'|seg sp cs ip exec_ctx w']|] eqn:Hrun; try discriminate Hj.
  apply andb_prop in Hj as [Hj Hrs]. apply andb_prop in Hj as [Hj Hri].
  apply andb_prop in Hj as [Hseg Hsp].
  apply Z.eqb_eq in Hrs, Hri, Hseg, Hsp.
  pose proof (bzimage_exec_confined _ _ _ _ _ _ _ zero_tail_same Hrun) as H.
  cbv zeta beta in H. cbn [w_mem] in H.
  rewrite Hk in H. rewrite Hc, Hri, Hrs, Hseg, Hsp in H.
  apply H; vm_compute; intros [_ H']; discriminate H'.
Defined.
